(** * beapy.bea_responses: turning BEA API documents into response objects

    A shallow embedding of [src/beapy/bea_responses.py].  Parsed JSON
    documents are a tagged union, Python dictionaries are association
    lists in insertion order, exceptions are values of [exn], and the
    in-place removals performed by [dict.pop] are made explicit by
    returning the document after the call next to the result. *)

From Stdlib Require Import List String Ascii ZArith QArith Bool Lia Arith.
From Stdlib Require Import DecimalString Qround.
Import ListNotations.
Open Scope string_scope.
Open Scope Z_scope.

Set Warnings "-register-all".

(** ** Documents *)

(** What [response.json()] delivers.  Dictionaries keep insertion order;
    JSON reals do not occur in the documents of the BEA API, which
    serialises every number as text, and are not part of the model. *)
Inductive json : Type :=
| JNull
| JBool (b : bool)
| JInt (n : Z)
| JStr (s : string)
| JList (items : list json)
| JDict (fields : list (string * json)).

(** Induction over documents, with the hypothesis for every element of a
    list and every value of a dictionary. *)
Section json_induction.

Variable P : json -> Prop.
Hypothesis H_null : P JNull.
Hypothesis H_bool : forall b, P (JBool b).
Hypothesis H_int : forall n, P (JInt n).
Hypothesis H_str : forall s, P (JStr s).
Hypothesis H_list : forall items, Forall P items -> P (JList items).
Hypothesis H_dict :
  forall fields, Forall (fun kv => P (snd kv)) fields -> P (JDict fields).

Fixpoint json_nested_ind (t : json) : P t :=
  match t with
  | JNull => H_null
  | JBool b => H_bool b
  | JInt n => H_int n
  | JStr s => H_str s
  | JList items =>
      H_list items
        ((fix all (l : list json) : Forall P l :=
            match l with
            | [] => Forall_nil P
            | x :: rest => Forall_cons x (json_nested_ind x) (all rest)
            end) items)
  | JDict fields =>
      H_dict fields
        ((fix all (l : list (string * json))
            : Forall (fun kv => P (snd kv)) l :=
            match l with
            | [] => Forall_nil _
            | kv :: rest =>
                Forall_cons kv (json_nested_ind (snd kv)) (all rest)
            end) fields)
  end.

End json_induction.

(** ** Exceptions and results *)

Inductive exn : Type :=
| KeyError (arg : string)
| TypeError
| AttributeError
| IndexError
| ValueError (msg : string)
| SyntaxError
| NotImplementedError (msg : string)
| BEAAPIError (msg : string).

Inductive outcome (A : Type) : Type :=
| Ok (a : A)
| Raise (e : exn).

Arguments Ok {A} a.
Arguments Raise {A} e.

Definition bind {A B : Type} (r : outcome A) (k : A -> outcome B) : outcome B :=
  match r with
  | Ok a => k a
  | Raise e => Raise e
  end.

Notation "x <- r ;; k" := (bind r (fun x => k))
  (at level 61, r at next level, right associativity).
Notation "' p <- r ;; k" := (bind r (fun p => k))
  (at level 61, p pattern, r at next level, right associativity).

Definition is_ok {A : Type} (r : outcome A) : bool :=
  match r with Ok _ => true | Raise _ => false end.

(** ** Dictionaries with text keys *)

Fixpoint dict_get (key : string) (fields : list (string * json)) : option json :=
  match fields with
  | [] => None
  | (k, v) :: rest => if String.eqb k key then Some v else dict_get key rest
  end.

(** [dct.pop(key)]: the entry is taken out, the others keep their order. *)
Fixpoint dict_del (key : string) (fields : list (string * json))
  : list (string * json) :=
  match fields with
  | [] => []
  | (k, v) :: rest =>
      if String.eqb k key then rest else (k, v) :: dict_del key rest
  end.

(** ** getitem_any_level *)

(** The loop [for k in level_keys] of [getitem_any_level]: [rec] is the
    recursive call at the current [key] and [pop]; a [KeyError] of a
    child is swallowed and the next child is tried. *)
Fixpoint search_values (rec : json -> outcome json * json) (key : string)
  (fields : list (string * json)) : outcome json * list (string * json) :=
  match fields with
  | [] =>
      (Raise (KeyError ("key " ++ key
                        ++ " was not found at any level of provided dict")), [])
  | (k, sub_dict) :: rest =>
      match rec sub_dict with
      | (Ok v, sub') => (Ok v, (k, sub') :: rest)
      | (Raise (KeyError _), sub') =>
          let (r, rest') := search_values rec key rest in
          (r, (k, sub') :: rest')
      | (Raise e, sub') => (Raise e, (k, sub') :: rest)
      end
  end.

(** [getitem_any_level dct key pop] is the pair of what the call returns
    or raises and of [dct] as the call leaves it.  A node without
    [keys()] that is iterable and not a string is a list: the body of
    [for d in dct] returns at its first element. *)
Fixpoint getitem_any_level (dct : json) (key : string) (pop : bool)
  {struct dct} : outcome json * json :=
  match dct with
  | JDict fields =>
      match dict_get key fields with
      | Some v => (Ok v, if pop then JDict (dict_del key fields) else dct)
      | None =>
          let (r, fields') :=
            search_values (fun d => getitem_any_level d key pop) key fields in
          (r, JDict fields')
      end
  | JList (d :: rest) =>
      let (r, d') := getitem_any_level d key pop in
      (r, JList (d' :: rest))
  | _ => (Raise (KeyError key), dct)
  end.

(** Where [getitem_any_level] finds the key: the names of the fields it
    enters, one after the other and ending with the key; a list is
    entered at its first element. *)
Inductive step : Type :=
| InField (k : string)
| InItem.

Fixpoint search_paths (rec : json -> option (list step))
  (fields : list (string * json)) : option (list step) :=
  match fields with
  | [] => None
  | (k, sub_dict) :: rest =>
      match rec sub_dict with
      | Some p => Some (InField k :: p)
      | None => search_paths rec rest
      end
  end.

Fixpoint field_path (dct : json) (key : string) {struct dct}
  : option (list step) :=
  match dct with
  | JDict fields =>
      match dict_get key fields with
      | Some _ => Some [InField key]
      | None => search_paths (fun d => field_path d key) fields
      end
  | JList (d :: _) => option_map (cons InItem) (field_path d key)
  | _ => None
  end.

Definition step_eqb (a b : step) : bool :=
  match a, b with
  | InField k, InField l => String.eqb k l
  | InItem, InItem => true
  | _, _ => false
  end.

(** [p] leads to a node on the way of [q]. *)
Fixpoint on_the_way (p q : list step) : bool :=
  match p, q with
  | [], _ => true
  | a :: p', b :: q' => step_eqb a b && on_the_way p' q'
  | _ :: _, [] => false
  end.

(** A block that is part of a document is the same Python object as the
    node of the document, so a removal in the document is a removal in
    the block when it is made inside the block.  [pop_shared doc block
    place key] is the block, and its place in the document, after
    [getitem_any_level doc key True]; the place is [None] for a block
    that is no part of the document (any more). *)
Definition pop_shared (doc block : json) (place : option (list step))
  (key : string) : json * option (list step) :=
  match field_path doc key, place with
  | Some hit, Some at_block =>
      if on_the_way at_block hit
      then (snd (getitem_any_level block key true), place)
      else if on_the_way hit at_block then (block, None)
      else (block, place)
  | _, _ => (block, place)
  end.

(** Number of fields named [key] in a document, at any depth and in any
    element of any list. *)
Fixpoint count_key (key : string) (t : json) : nat :=
  match t with
  | JDict fields =>
      (fix in_fields (l : list (string * json)) : nat :=
         match l with
         | [] => O
         | (k, v) :: rest =>
             ((if String.eqb k key then 1 else 0)
              + count_key key v + in_fields rest)%nat
         end) fields
  | JList items =>
      (fix in_items (l : list json) : nat :=
         match l with
         | [] => O
         | x :: rest => (count_key key x + in_items rest)%nat
         end) items
  | _ => O
  end.

Fixpoint count_fields (key : string) (l : list (string * json)) : nat :=
  match l with
  | [] => O
  | (k, v) :: rest =>
      ((if String.eqb k key then 1 else 0)
       + count_key key v + count_fields key rest)%nat
  end.

(** [occurs key v t]: some field of [t] named [key] has the value [v]. *)
Inductive occurs (key : string) (v : json) : json -> Prop :=
| occurs_here (fields : list (string * json)) :
    In (key, v) fields -> occurs key v (JDict fields)
| occurs_below (fields : list (string * json)) (k : string) (sub : json) :
    In (k, sub) fields -> occurs key v sub -> occurs key v (JDict fields)
| occurs_item (items : list json) (x : json) :
    In x items -> occurs key v x -> occurs key v (JList items).

(** No list of the document has more than one element: lists only wrap. *)
Fixpoint short_lists (t : json) : bool :=
  match t with
  | JList [] => true
  | JList [x] => short_lists x
  | JList _ => false
  | JDict fields =>
      (fix all (l : list (string * json)) : bool :=
         match l with
         | [] => true
         | (_, v) :: rest => short_lists v && all rest
         end) fields
  | _ => true
  end.

Fixpoint short_fields (l : list (string * json)) : bool :=
  match l with
  | [] => true
  | (_, v) :: rest => short_lists v && short_fields rest
  end.

(** A search that fails raises [KeyError] and leaves the document as it was. *)
Definition fails_cleanly (key : string) (pop : bool) (t : json) : Prop :=
  forall e, fst (getitem_any_level t key pop) = Raise e ->
            (exists m, e = KeyError m) /\ snd (getitem_any_level t key pop) = t.

(** A successful search with removal takes out the field it returns. *)
Definition pops_one (key : string) (t : json) : Prop :=
  forall v, fst (getitem_any_level t key true) = Ok v ->
            count_key key t
            = (count_key key (snd (getitem_any_level t key true)) + 1
               + count_key key v)%nat.

(** When no list of the document has more than one element, a field that
    occurs is found. *)
Definition finds (key : string) (pop : bool) (t : json) : Prop :=
  short_lists t = true -> (0 < count_key key t)%nat ->
  exists v, fst (getitem_any_level t key pop) = Ok v.

(** ** Text *)

Definition nl : string := String "010" "".

Definition lower_char (c : ascii) : ascii :=
  let n := nat_of_ascii c in
  if ((65 <=? n) && (n <=? 90))%nat then ascii_of_nat (n + 32) else c.

(** [str.lower()] on ASCII text. *)
Fixpoint lower (s : string) : string :=
  match s with
  | EmptyString => EmptyString
  | String c rest => String (lower_char c) (lower rest)
  end.

Definition is_digit (c : ascii) : bool :=
  let n := nat_of_ascii c in ((48 <=? n) && (n <=? 57))%nat.

Fixpoint all_chars (p : ascii -> bool) (s : string) : bool :=
  match s with
  | EmptyString => true
  | String c rest => p c && all_chars p rest
  end.

(** [str.isnumeric()] on ASCII text: not empty, digits only. *)
Definition isnumeric (s : string) : bool :=
  match s with
  | EmptyString => false
  | _ => all_chars is_digit s
  end.

(** Text of ASCII characters only. *)
Definition ascii_text (s : string) : bool :=
  all_chars (fun c => (nat_of_ascii c <? 128)%nat) s.

(** [s.replace(',', '')]. *)
Fixpoint remove_commas (s : string) : string :=
  match s with
  | EmptyString => EmptyString
  | String c rest =>
      if Ascii.eqb c "," then remove_commas rest
      else String c (remove_commas rest)
  end.

(** The characters of a string, as Python iterates over it. *)
Fixpoint chars (s : string) : list string :=
  match s with
  | EmptyString => []
  | String c rest => String c "" :: chars rest
  end.

(** [s * n] for a string: [n] copies, none when [n <= 0]. *)
Fixpoint repeat_str (s : string) (n : nat) : string :=
  match n with
  | O => ""
  | S m => s ++ repeat_str s m
  end.

(** [url in msg]: [msg] includes [url] as a run of consecutive characters. *)
Fixpoint includes (url msg : string) : bool :=
  String.prefix url msg
  || match msg with
     | EmptyString => false
     | String _ rest => includes url rest
     end.

(** [str(n)] for an integer. *)
Definition str_of_Z (n : Z) : string :=
  DecimalString.NilZero.string_of_int (Z.to_int n).

(** ** Python operations on documents *)

(** [for x in t]: the elements of a list, the keys of a dictionary, the
    characters of a string; anything else is not iterable. *)
Definition py_iter (t : json) : outcome (list json) :=
  match t with
  | JList items => Ok items
  | JDict fields => Ok (map (fun kv => JStr (fst kv)) fields)
  | JStr s => Ok (map JStr (chars s))
  | _ => Raise TypeError
  end.

(** [t[key]] with a text key. *)
Definition py_getitem (t : json) (key : string) : outcome json :=
  match t with
  | JDict fields =>
      match dict_get key fields with
      | Some v => Ok v
      | None => Raise (KeyError key)
      end
  | _ => Raise TypeError
  end.

Definition hashable (t : json) : bool :=
  match t with
  | JList _ | JDict _ => false
  | _ => true
  end.

(** Equality of dictionary keys: [True == 1] and [False == 0]. *)
Definition key_eqb (a b : json) : bool :=
  match a, b with
  | JNull, JNull => true
  | JStr s, JStr t => String.eqb s t
  | JBool x, JBool y => Bool.eqb x y
  | JInt x, JInt y => Z.eqb x y
  | JBool x, JInt y | JInt y, JBool x => Z.eqb y (if x then 1 else 0)
  | _, _ => false
  end.

(** A dictionary built by the code: keys are hashable documents. *)
Definition pydict (V : Type) : Type := list (json * V).

Fixpoint pydict_get {V : Type} (d : pydict V) (key : json) : option V :=
  match d with
  | [] => None
  | (k, v) :: rest => if key_eqb k key then Some v else pydict_get rest key
  end.

Fixpoint pydict_put {V : Type} (d : pydict V) (key : json) (v : V) : pydict V :=
  match d with
  | [] => [(key, v)]
  | (k, w) :: rest =>
      if key_eqb k key then (k, v) :: rest else (k, w) :: pydict_put rest key v
  end.

(** [d[key] = v]. *)
Definition pydict_set {V : Type} (d : pydict V) (key : json) (v : V)
  : outcome (pydict V) :=
  if hashable key then Ok (pydict_put d key v) else Raise TypeError.

(** [d[key]] for a text key. *)
Definition pydict_getitem {V : Type} (d : pydict V) (key : string) : outcome V :=
  match pydict_get d (JStr key) with
  | Some v => Ok v
  | None => Raise (KeyError key)
  end.

(** ** Tables *)

(** A value held by a pandas column: text, an [int64] number (wrap-around
    written out where the code computes), a [float64] number or NaN.
    [float64] numbers are modelled by the rational they denote; binary
    rounding and the infinities are not part of the model.  The frames of
    the model are frames of such scalars: a cell that holds a list or a
    dictionary is not represented. *)
Inductive cell : Type :=
| CStr (s : string)
| CInt (n : Z)
| CFloat (q : Q)
| CNaN.

Record DataFrame : Type := mkDataFrame {
  index_name : option string;
  index : list cell;
  columns_name : option string;
  columns : list (string * list cell)
}.

Record Series : Type := mkSeries {
  name : option cell;
  s_index_name : option string;
  s_index : list cell;
  values : list cell
}.

(** What [_construct_data] returns: a Series for one period, a DataFrame
    otherwise. *)
Inductive payload : Type :=
| PSeries (s : Series)
| PFrame (df : DataFrame).

(** A frame of [n] rows: the index and every column have [n] values. *)
Definition height (n : nat) (df : DataFrame) : Prop :=
  List.length (index df) = n
  /\ Forall (fun kv => List.length (snd kv) = n) (columns df).

Definition column_names (df : DataFrame) : list string :=
  map fst (columns df).

Fixpoint assoc {A : Type} (key : string) (l : list (string * A)) : option A :=
  match l with
  | [] => None
  | (k, v) :: rest => if String.eqb k key then Some v else assoc key rest
  end.

Definition mem (x : string) (l : list string) : bool :=
  existsb (String.eqb x) l.

(** [df[name]]. *)
Definition getcol (df : DataFrame) (col : string) : outcome (list cell) :=
  match assoc col (columns df) with
  | Some v => Ok v
  | None => Raise (KeyError col)
  end.

(** [df.name]: a missing column is a missing attribute. *)
Definition getattr (df : DataFrame) (col : string) : outcome (list cell) :=
  match assoc col (columns df) with
  | Some v => Ok v
  | None => Raise AttributeError
  end.

Fixpoint replace_col (col : string) (v : list cell)
  (cols : list (string * list cell)) : list (string * list cell) :=
  match cols with
  | [] => [(col, v)]
  | (k, w) :: rest =>
      if String.eqb k col then (k, v) :: rest
      else (k, w) :: replace_col col v rest
  end.

(** [df[name] = v]: an existing column keeps its place, a new one is
    appended. *)
Definition setcol (df : DataFrame) (col : string) (v : list cell) : DataFrame :=
  mkDataFrame (index_name df) (index df) (columns_name df)
              (replace_col col v (columns df)).

(** [df.drop(columns=names)]. *)
Definition drop (df : DataFrame) (names : list string) : outcome DataFrame :=
  match find (fun n => negb (mem n (column_names df))) names with
  | Some missing => Raise (KeyError missing)
  | None =>
      Ok (mkDataFrame (index_name df) (index df) (columns_name df)
            (filter (fun kv => negb (mem (fst kv) names)) (columns df)))
  end.

(** [df.loc[:, names]]: the named columns in the order asked, the index
    untouched. *)
Fixpoint select_cols (cols : list (string * list cell)) (names : list string)
  : outcome (list (string * list cell)) :=
  match names with
  | [] => Ok []
  | n :: rest =>
      match assoc n cols with
      | Some v => tl <- select_cols cols rest ;; Ok ((n, v) :: tl)
      | None => Raise (KeyError n)
      end
  end.

Definition loc (df : DataFrame) (names : list string) : outcome DataFrame :=
  cols <- select_cols (columns df) names ;;
  Ok (mkDataFrame (index_name df) (index df) (columns_name df) cols).

(** [df.set_index(name, drop=True)]. *)
Definition set_index (df : DataFrame) (col : string) : outcome DataFrame :=
  v <- getcol df col ;;
  Ok (mkDataFrame (Some col) v (columns_name df)
        (filter (fun kv => negb (String.eqb (fst kv) col)) (columns df))).

Definition is_text (c : cell) : bool :=
  match c with CStr _ => true | _ => false end.

Definition text_or_missing (c : cell) : bool :=
  match c with CStr _ | CNaN => true | _ => false end.

(** [col.str]: the accessor wants a column with text in it. *)
Definition str_accessor (col : list cell) : outcome (list cell) :=
  if existsb is_text col then Ok col else Raise AttributeError.

(** [a.str.cat(b, sep=sep)] for the column [a] behind the accessor: the
    concatenation wants text or missing values on both sides; a missing
    value on either side gives a missing value.  Both columns come from
    one frame and have its length. *)
Definition str_cat (a b : list cell) (sep : string) : outcome (list cell) :=
  if negb (forallb text_or_missing a && forallb text_or_missing b)
  then Raise TypeError
  else Ok (map (fun xy =>
                  match xy with
                  | (CStr x, CStr y) => CStr (x ++ sep ++ y)
                  | _ => CNaN
                  end) (combine a b)).

(** ** Numbers *)

(** Two's complement wrap-around of [int64] arithmetic. *)
Definition wrap64 (z : Z) : Z := (z + 2 ^ 63) mod 2 ^ 64 - 2 ^ 63.

Inductive number : Type :=
| NInt (n : Z)
| NFloat (q : Q)
| NNaN.

Fixpoint digits_value (s : string) (acc : Z) : option Z :=
  match s with
  | EmptyString => Some acc
  | String c rest =>
      if is_digit c
      then digits_value rest (acc * 10 + (Z.of_nat (nat_of_ascii c) - 48))
      else None
  end.

(** The text before the first character satisfying [p], and the text
    after it when there is one. *)
Fixpoint split_at (p : ascii -> bool) (s : string) : string * option string :=
  match s with
  | EmptyString => (EmptyString, None)
  | String c rest =>
      if p c then (EmptyString, Some rest)
      else let (a, b) := split_at p rest in (String c a, b)
  end.

Definition strip_sign (s : string) : Z * string :=
  match s with
  | String "-" rest => (-1, rest)
  | String "+" rest => (1, rest)
  | _ => (1, s)
  end.

Definition nonempty_digits (s : string) : option Z :=
  match s with
  | EmptyString => None
  | _ => digits_value s 0
  end.

(** Digits with an optional fraction: the digits read as one integer, and
    the number of digits after the point ([None] without a point). *)
Definition parse_mantissa (s : string) : option (Z * option nat) :=
  match split_at (Ascii.eqb ".") s with
  | (ip, None) => option_map (fun v => (v, None)) (nonempty_digits ip)
  | (ip, Some fp) =>
      match ip, fp with
      | EmptyString, EmptyString => None
      | _, _ =>
          match digits_value ip 0, digits_value fp 0 with
          | Some i, Some f =>
              Some (i * 10 ^ Z.of_nat (String.length fp) + f,
                    Some (String.length fp))
          | _, _ => None
          end
      end
  end.

Definition parse_exponent (s : string) : option Z :=
  let (sg, ds) := strip_sign s in
  option_map (Z.mul sg) (nonempty_digits ds).

Definition in_int64 (z : Z) : bool :=
  (- 2 ^ 63 <=? z) && (z <? 2 ^ 63).

(** How [pandas.to_numeric] reads a plain decimal literal: an optional
    sign, then digits with an optional fraction.  Without a fraction the
    literal is an integer, when it fits [int64]; with one it is a float.
    Any other text is no such literal. *)
Definition parse_number (s : string) : option number :=
  let (sg, body) := strip_sign s in
  match parse_mantissa body with
  | Some (v, None) =>
      if in_int64 (sg * v) then Some (NInt (sg * v)) else None
  | Some (v, Some k) =>
      Some (NFloat (Qred (inject_Z (sg * v)
                          * Qpower (10 # 1) (- Z.of_nat k))))
  | None => None
  end.

(** The value of text that is an optional sign followed by digits. *)
Definition integer_text (s : string) : option Z :=
  let (sg, body) := strip_sign s in
  option_map (Z.mul sg) (nonempty_digits body).

(** An integer below [int64] or above [uint64]: [pandas.to_numeric]
    raises [ValueError] for it. *)
Definition out_of_range (s : string) : bool :=
  match integer_text s with
  | Some z => (z <? - 2 ^ 63) || (2 ^ 64 <=? z)
  | None => false
  end.

Fixpoint any_char (p : ascii -> bool) (s : string) : bool :=
  match s with
  | EmptyString => false
  | String c rest => p c || any_char p rest
  end.

(** The marks that BEA puts in place of a value, as [(D)] and [(NA)]:
    text with a parenthesis and without a digit, which is no number for
    [pandas.to_numeric]. *)
Definition suppression_mark (s : string) : bool :=
  negb (any_char is_digit s)
  && any_char (fun c => Ascii.eqb c "(" || Ascii.eqb c ")") s.

Fixpoint sequence {A : Type} (l : list (outcome A)) : outcome (list A) :=
  match l with
  | [] => Ok []
  | r :: rest => a <- r ;; tl <- sequence rest ;; Ok (a :: tl)
  end.

Definition is_int (n : number) : bool :=
  match n with NInt _ => true | _ => false end.

Definition cell_of_number (as_float : bool) (n : number) : cell :=
  match n with
  | NInt z => if as_float then CFloat (inject_Z z) else CInt z
  | NFloat q => CFloat q
  | NNaN => CNaN
  end.

(** Whether a column of numbers read by [pandas.to_numeric] is a column
    of floats: it is when one of them is no integer, or when an integer
    above [int64] and a negative one are both among them. *)
Definition as_float (nums : list number) : bool :=
  negb (forallb is_int nums)
  || (existsb (fun n => match n with NInt z => 2 ^ 63 <=? z | _ => false end)
              nums
      && existsb (fun n => match n with NInt z => z <? 0 | _ => false end)
                 nums).

(** ** Library functions taken as given *)

(** Functions of Python, numpy and pandas that the module calls and whose
    full behaviour is outside this development.  Everything below is
    stated for an arbitrary such library. *)
Class Libs : Type := {
  (** [ast.literal_eval] on the text of a field. *)
  literal_eval : string -> outcome json;
  (** [int(s)] for text. *)
  int_of_str : string -> outcome Z;
  (** [str(x)] for a list or a dictionary. *)
  container_str : json -> string;
  (** [str(x)] for a [float64]. *)
  float_str : Q -> string;
  (** [np.power(10, x)] for a [float64] exponent. *)
  float_pow10 : Q -> Q;
  (** [pd.DataFrame(data)]. *)
  pd_DataFrame : json -> outcome DataFrame;
  (** The cell pandas stores for a Python object. *)
  cell_of_json : json -> cell;
  (** [pandas.to_numeric] on text that is neither a plain decimal
      literal, nor an integer out of range, nor a suppression mark: the
      number read, or [None] for the [ValueError] raised. *)
  to_numeric_text : string -> option number;
  (** [str.isnumeric()] on text that is not ASCII. *)
  isnumeric_text : string -> bool
}.

(** The types [str], [np.float64] and [object] given to [astype]. *)
Inductive dtype : Type :=
| D_str
| D_float64
| D_object.

(** Outcome of [DataFrame.squeeze()]. *)
Inductive squeezed : Type :=
| SqScalar (c : cell)
| SqSeries (s : Series)
| SqFrame (df : DataFrame).

Definition cell_eqb (a b : cell) : bool :=
  match a, b with
  | CStr s, CStr t => String.eqb s t
  | CInt x, CInt y => Z.eqb x y
  | CFloat p, CFloat q => Qeq_bool p q
  | CNaN, CNaN => true
  | _, _ => false
  end.

(** The distinct values of a column, in order of first appearance. *)
Fixpoint unique (col : list cell) : list cell :=
  match col with
  | [] => []
  | c :: rest => c :: filter (fun x => negb (cell_eqb c x)) (unique rest)
  end.

Definition is_nan (c : cell) : bool :=
  match c with CNaN => true | _ => false end.

(** [col.nunique()]: missing values are not counted. *)
Definition nunique (col : list cell) : nat :=
  List.length (unique (filter (fun c => negb (is_nan c)) col)).

(** [np.multiply] on two values: [int64] wraps, a float on either side
    gives a float, text times an integer repeats the text. *)
Definition mul_cell (a b : cell) : outcome cell :=
  match a, b with
  | CInt x, CInt y => Ok (CInt (wrap64 (x * y)))
  | CInt x, CFloat q | CFloat q, CInt x => Ok (CFloat (Qred (inject_Z x * q)))
  | CFloat p, CFloat q => Ok (CFloat (Qred (p * q)))
  | CStr s, CInt y | CInt y, CStr s => Ok (CStr (repeat_str s (Z.to_nat y)))
  | CStr _, _ => Raise TypeError
  | _, CStr _ => Raise TypeError
  | CNaN, _ | _, CNaN => Ok CNaN
  end.

Definition np_multiply (a b : list cell) : outcome (list cell) :=
  sequence (map (fun xy => mul_cell (fst xy) (snd xy)) (combine a b)).

Definition filter_mask {A : Type} (mask : list bool) (l : list A) : list A :=
  map snd (filter fst (combine mask l)).

(** [col[mask] = new]: the selected positions take the values of [new] in
    order, the others keep theirs. *)
Fixpoint assign_mask (mask : list bool) (col new : list cell) : list cell :=
  match mask, col with
  | true :: m, c :: rest =>
      match new with
      | v :: vs => v :: assign_mask m rest vs
      | [] => c :: assign_mask m rest []
      end
  | false :: m, c :: rest => c :: assign_mask m rest new
  | _, _ => col
  end.

Definition range_index (n : nat) : list cell :=
  map (fun i => CInt (Z.of_nat i)) (seq 0 n).

(** [df.reset_index()]: the index becomes the first column, under its
    name; an index without name is called [index], or [level_0] when the
    frame has a column [index]. *)
Definition reset_index (df : DataFrame) : outcome DataFrame :=
  let col := match index_name df with
             | Some n => n
             | None =>
                 if mem "index" (column_names df) then "level_0" else "index"
             end in
  if mem col (column_names df)
  then Raise (ValueError ("cannot insert " ++ col ++ ", already exists"))
  else Ok (mkDataFrame None (range_index (List.length (index df)))
             (columns_name df) ((col, index df) :: columns df)).

(** [df.squeeze()]: axes of length one are dropped. *)
Definition squeeze (df : DataFrame) : squeezed :=
  match columns df, index df with
  | [(_, [v])], _ => SqScalar v
  | [(n, vs)], _ =>
      SqSeries (mkSeries (Some (CStr n)) (index_name df) (index df) vs)
  | cols, [label] =>
      SqSeries (mkSeries (Some label) (columns_name df)
                  (map (fun kv => CStr (fst kv)) cols)
                  (map (fun kv => hd CNaN (snd kv)) cols))
  | _, _ => SqFrame df
  end.

(** [x.rename(p)] for a scalar [p]: a Series takes the name, a scalar has
    no such method, a frame cannot call [p]. *)
Definition rename (x : squeezed) (p : cell) : outcome Series :=
  match x with
  | SqScalar _ => Raise AttributeError
  | SqSeries s => Ok (mkSeries (Some p) (s_index_name s) (s_index s) (values s))
  | SqFrame _ => Raise TypeError
  end.

Definition row_eqb (r1 r2 : list cell) : bool :=
  Nat.eqb (List.length r1) (List.length r2)
  && forallb (fun xy => cell_eqb (fst xy) (snd xy)) (combine r1 r2).

Definition rows_of (df : DataFrame) : list (list cell) :=
  map (fun i => map (fun kv => nth i (snd kv) CNaN) (columns df))
      (seq 0 (List.length (index df))).

Fixpoint first_seen (seen rows : list (list cell)) : list bool :=
  match rows with
  | [] => []
  | r :: rest =>
      if existsb (row_eqb r) seen then false :: first_seen seen rest
      else true :: first_seen (r :: seen) rest
  end.

(** [df.drop_duplicates()]: of the rows with equal values in every
    column the first one stays; a frame without columns is returned as
    it is. *)
Definition drop_duplicates (df : DataFrame) : DataFrame :=
  match columns df with
  | [] => df
  | cols =>
      let mask := first_seen [] (rows_of df) in
      mkDataFrame (index_name df) (filter_mask mask (index df))
        (columns_name df)
        (map (fun kv => (fst kv, filter_mask mask (snd kv))) cols)
  end.

(** ** IdentifierRules *)

(** What [series_identifiers] returns: one column name, or a list of
    column names. *)
Inductive identifiers : Type :=
| OneField (col : string)
| Fields (cols : list string).

(** [self.request['DATASETNAME'].lower()]. *)
Definition dataset_name (request : pydict json) : outcome string :=
  d <- pydict_getitem request "DATASETNAME" ;;
  match d with
  | JStr s => Ok (lower s)
  | _ => Raise AttributeError
  end.

Definition series_identifiers (request : pydict json) : outcome identifiers :=
  dataset <- dataset_name request ;;
  if mem dataset ["nipa"; "niunderlyingdetail"; "fixedassets"]
  then Ok (OneField "SeriesCode")
  else if mem dataset ["gdpbyindustry"; "underlyinggdpbyindustry"]
  then Ok (OneField "Industry")
  else if mem dataset ["ita"; "iip"; "intlservtrade"]
  then Ok (OneField "TimeSeriesId")
  else if String.eqb dataset "mne"
  then Ok (Fields ["SeriesID"; "RowCode"; "ColumnCode"])
  else if String.eqb dataset "inputoutput"
  then Ok (Fields ["RowCode"; "ColCode"])
  else if String.eqb dataset "regional"
  then Ok (OneField "GeoFips")
  else Raise (ValueError ("no series identifier for " ++ dataset)).

Definition period_identifier (request : pydict json) : outcome string :=
  dataset <- dataset_name request ;;
  if mem dataset ["nipa"; "niunderlyingdetail"; "fixedassets";
                  "ita"; "iip"; "intlservtrade"; "regional"]
  then Ok "TimePeriod"
  else if mem dataset ["mne"; "underlyinggdpbyindustry"; "gdpbyindustry";
                       "inputoutput"]
  then Ok "Year"
  else Raise (ValueError ("no valid period identifier for " ++ dataset)).

(** The datasets of the table of identifier rules. *)
Definition known_datasets : list string :=
  ["nipa"; "niunderlyingdetail"; "fixedassets"; "gdpbyindustry";
   "underlyinggdpbyindustry"; "ita"; "iip"; "intlservtrade"; "mne";
   "inputoutput"; "regional"].

(** ** _set_unique_index *)

(** The loop [for i in ids] of [_set_unique_index]. *)
Fixpoint cat_fields (df : DataFrame) (ids : list string) : outcome DataFrame :=
  match ids with
  | [] => Ok df
  | i :: rest =>
      cur <- getcol df "index" ;;
      cur <- str_accessor cur ;;
      other <- getcol df i ;;
      joined <- str_cat cur other "_" ;;
      cat_fields (setcol df "index" joined) rest
  end.

Definition _set_unique_index (request : pydict json) (df : DataFrame)
  : outcome DataFrame :=
  ids <- series_identifiers request ;;
  df' <- match ids with
         | Fields [] => Raise IndexError
         | Fields (first :: rest) =>
             c <- getcol df first ;;
             cat_fields (setcol df "index" c) rest
         | OneField col =>
             c <- getcol df col ;;
             Ok (setcol df "index" c)
         end ;;
  set_index df' "index".




Section WithLibs.

Context {L : Libs}.

(** ** Values as text *)

(** [str(x)] for a value of a column. *)
Definition cell_str (c : cell) : string :=
  match c with
  | CStr s => s
  | CInt n => str_of_Z n
  | CFloat q => float_str q
  | CNaN => "nan"
  end.

(** [str(x)] for a document, as an f-string formats it. *)
Definition py_str (t : json) : string :=
  match t with
  | JNull => "None"
  | JBool true => "True"
  | JBool false => "False"
  | JInt n => str_of_Z n
  | JStr s => s
  | _ => container_str t
  end.

(** [int(x)]. *)
Definition py_int (t : json) : outcome Z :=
  match t with
  | JInt n => Ok n
  | JBool b => Ok (if b then 1 else 0)
  | JStr s => int_of_str s
  | _ => Raise TypeError
  end.

(** ** Numbers read from text *)

(** [str.isnumeric()]: on ASCII text, not empty and digits only. *)
Definition str_isnumeric (s : string) : bool :=
  if ascii_text s then isnumeric s else isnumeric_text s.

(** How [pandas.to_numeric] reads one value.  The messages of the
    [ValueError] are without the text and the position that pandas
    adds. *)
Definition number_of_cell (c : cell) : outcome number :=
  match c with
  | CStr s =>
      match parse_number s with
      | Some n => Ok n
      | None =>
          if out_of_range s then Raise (ValueError "Integer out of range.")
          else if suppression_mark s
          then Raise (ValueError "Unable to parse string")
          else match to_numeric_text s with
               | Some n => Ok n
               | None => Raise (ValueError "Unable to parse string")
               end
      end
  | CInt n => Ok (NInt n)
  | CFloat q => Ok (NFloat q)
  | CNaN => Ok NNaN
  end.

(** [pd.to_numeric(col)]: every value must read as a number; the result
    is a column of floats or of integers, see [as_float]. *)
Definition to_numeric (col : list cell) : outcome (list cell) :=
  nums <- sequence (map number_of_cell col) ;;
  Ok (map (cell_of_number (as_float nums)) nums).

(** ** _construct_data *)

Definition astype_cell (ty : dtype) (c : cell) : outcome cell :=
  match ty with
  | D_str => Ok (CStr (cell_str c))
  | D_object => Ok c
  | D_float64 =>
      n <- number_of_cell c ;; Ok (cell_of_number true n)
  end.

(** [df.astype(dtypes)] for a dictionary from column names to types,
    given by its items: the last item of a name counts, a column without
    item is left alone. *)
Fixpoint astype_cols (dtypes : list (string * dtype))
  (cols : list (string * list cell)) : outcome (list (string * list cell)) :=
  match cols with
  | [] => Ok []
  | (n, v) :: rest =>
      v' <- match assoc n (rev dtypes) with
            | Some ty => sequence (map (astype_cell ty) v)
            | None => Ok v
            end ;;
      tl <- astype_cols dtypes rest ;;
      Ok ((n, v') :: tl)
  end.

Definition astype (df : DataFrame) (dtypes : list (string * dtype))
  : outcome DataFrame :=
  cols <- astype_cols dtypes (columns df) ;;
  Ok (mkDataFrame (index_name df) (index df) (columns_name df) cols).

Definition pow10_cell (ints : bool) (c : cell) : outcome cell :=
  match c with
  | CInt n =>
      if ints then
        if n <? 0
        then Raise (ValueError
                      "Integers to negative integer powers are not allowed.")
        else Ok (CInt (wrap64 (10 ^ n)))
      else Ok (CFloat (float_pow10 (inject_Z n)))
  | CFloat q => Ok (CFloat (float_pow10 q))
  | CNaN => Ok CNaN
  | CStr _ => Raise TypeError
  end.

Definition is_int_cell (c : cell) : bool :=
  match c with CInt _ => true | _ => false end.

(** [np.power(10, expos)]. *)
Definition np_power10 (expos : list cell) : outcome (list cell) :=
  sequence (map (pow10_cell (forallb is_int_cell expos)) expos).

Definition text_of (c : cell) : string :=
  match c with CStr s => s | _ => "" end.

(** A value of a numeric column as a [float64]. *)
Definition float_cell (c : cell) : cell :=
  match c with
  | CInt z => CFloat (inject_Z z)
  | _ => c
  end.

(** Lines 274 to 283: commas are taken out of the text of [DataValue];
    the column is read as numbers when all of it can be, otherwise only
    the entries for which [str.isnumeric] holds.  The fallback is reached
    with an entry that is not selected, so the Series assigned at line
    282 is shorter than the column: pandas aligns it on the index of the
    column, which makes floats of its integers.  The outcome is the
    frame and the type meant for the data. *)
Definition coerce_DataValue (df : DataFrame) : outcome (DataFrame * dtype) :=
  raw <- getattr df "DataValue" ;;
  let stripped := map (fun c => CStr (remove_commas (cell_str c))) raw in
  match to_numeric stripped with
  | Ok nums => Ok (setcol df "DataValue" nums, D_float64)
  | Raise (ValueError _) =>
      let idx := map (fun c => str_isnumeric (text_of c)) stripped in
      nums <- to_numeric (filter_mask idx stripped) ;;
      Ok (setcol df "DataValue"
            (assign_mask idx stripped (map float_cell nums)), D_object)
  | Raise e => Raise e
  end.

(** Lines 286 to 294: the column [data] is the value times ten to the
    power [UNIT_MULT], or the value itself when the frame has no such
    column. *)
Definition rescale (df : DataFrame) : outcome DataFrame :=
  match
    (unit_mult <- getattr df "UNIT_MULT" ;;
     expos <- to_numeric unit_mult ;;
     DataValue <- getattr df "DataValue" ;;
     powers <- np_power10 expos ;;
     data <- np_multiply DataValue powers ;;
     drop (setcol df "data" data) ["DataValue"; "UNIT_MULT"])
  with
  | Ok df' => Ok df'
  | Raise AttributeError =>
      DataValue <- getattr df "DataValue" ;;
      drop (setcol df "data" DataValue) ["DataValue"]
  | Raise e => Raise e
  end.

(** Insertion of a period label into labels sorted by their text. *)
Fixpoint insert_label (c : cell) (sorted : list cell) : list cell :=
  match sorted with
  | [] => [c]
  | d :: rest =>
      if String.leb (cell_str c) (cell_str d) then c :: sorted
      else d :: insert_label c rest
  end.

(** Period labels of one form ([yyyy], [yyyyQq] or [yyyyMmm]) are in
    chronological order when in the order of their text. *)
Definition chronological (labels : list cell) : list cell :=
  fold_right insert_label [] labels.

(** The value of the first observation of a series in a period. *)
Fixpoint pivot_value (key period : cell) (rows : list (cell * (cell * cell)))
  : cell :=
  match rows with
  | [] => CNaN
  | (k, (p, v)) :: rest =>
      if cell_eqb k key && cell_eqb p period then v
      else pivot_value key period rest
  end.

(** Modelled from the spec: [beapy.formats.DataFormatter], the Reshaper
    collaborator, whose source is not among the files of the module.  It
    takes a tidy table and the name of its period column and returns the
    wide table: one row per period label in chronological order, one
    column per series key in order of first appearance. *)
Definition DataFormatter_format (df : DataFrame) (p_id : string)
  : outcome DataFrame :=
  keys <- getcol df "index" ;;
  periods <- getcol df p_id ;;
  data <- getcol df "data" ;;
  let labels := chronological (unique periods) in
  let rows := combine keys (combine periods data) in
  Ok (mkDataFrame (Some p_id) labels None
        (map (fun k => (cell_str k,
                        map (fun p => pivot_value k p rows) labels))
             (unique keys))).

(** [_construct_data]: the values are coerced and rescaled, the columns
    are given their types, and the frame is turned into a Series named
    after the period when there is one period, into the wide table
    otherwise. *)
Definition _construct_data (request : pydict json) (df : DataFrame)
  : outcome payload :=
  '(df1, data_dtype) <- coerce_DataValue df ;;
  df2 <- rescale df1 ;;
  let dtypes := combine (column_names df2) [D_str; D_str; data_dtype] in
  df3 <- astype df2 dtypes ;;
  p_id <- period_identifier request ;;
  periods <- getcol df3 p_id ;;
  if Nat.eqb (nunique periods) 1 then
    match periods with
    | [] => Raise IndexError
    | p :: _ =>
        one <- drop df3 [p_id] ;;
        s <- rename (squeeze one) p ;;
        Ok (PSeries (mkSeries (name s) (Some "") (s_index s) (values s)))
    end
  else
    tidy <- reset_index df3 ;;
    wide <- DataFormatter_format tidy p_id ;;
    Ok (PFrame (mkDataFrame (Some "") (index wide) (Some "") (columns wide))).

(** ** _construct_metadata *)

Definition key_of_cell (c : cell) : option json :=
  match c with
  | CStr s => Some (JStr s)
  | CInt n => Some (JInt n)
  | CFloat q =>
      if Pos.eqb (Qden (Qred q)) 1 then Some (JInt (Qnum (Qred q))) else None
  | CNaN => None
  end.

(** The value that the dictionary of the notes has for a reference. *)
Definition note_of (notes : pydict json) (c : cell) : option json :=
  match key_of_cell c with
  | Some k => pydict_get notes k
  | None => None
  end.

(** [col.map(notes)] for one value. *)
Definition map_note (notes : pydict json) (c : cell) : cell :=
  match note_of notes c with
  | Some text => cell_of_json text
  | None => CNaN
  end.

(** A reference whose note is a list or a dictionary: such a note cannot
    be hashed. *)
Definition unhashable_note (notes : pydict json) (c : cell) : bool :=
  match note_of notes c with
  | Some text => negb (hashable text)
  | None => false
  end.

(** [_construct_metadata]; the warning issued when there are notes and no
    [NoteRef] column leaves no trace in the result.  [drop_duplicates]
    at line 341 hashes the values of every column and raises [TypeError]
    for a column [Notes] that holds a list or a dictionary. *)
Definition _construct_metadata (notes : pydict json) (md : DataFrame)
  : outcome DataFrame :=
  md' <- match notes with
         | [] => Ok md
         | _ =>
             if negb (mem "NoteRef" (column_names md)) then Ok md
             else
               refs <- getattr md "NoteRef" ;;
               md1 <- drop (setcol md "Notes" (map (map_note notes) refs))
                           ["NoteRef"] ;;
               if existsb (unhashable_note notes) refs then Raise TypeError
               else Ok md1
         end ;;
  Ok (drop_duplicates md').

(** ** DataResponse *)

Record dim_dict : Type := mk_dim_dict {
  dim_dtype : json;
  dim_is_value : bool
}.

Definition _construct_data_and_metadata (request : pydict json)
  (dimensions : pydict dim_dict) (notes : pydict json) (data : json)
  : outcome (payload * DataFrame) :=
  df_md <- pd_DataFrame data ;;
  df_md <- _set_unique_index request df_md ;;
  p_id <- period_identifier request ;;
  let data_cols :=
    ([p_id; "DataValue"]
     ++ match pydict_get dimensions (JStr "UNIT_MULT") with
        | Some _ => ["UNIT_MULT"]
        | None => []
        end)%list in
  let meta_cols :=
    filter (fun c => negb (mem c data_cols)) (column_names df_md) in
  data_part <- loc df_md data_cols ;;
  df <- _construct_data request data_part ;;
  meta_part <- loc df_md meta_cols ;;
  md <- _construct_metadata notes meta_part ;;
  Ok (df, md).

(** [_safe_access_json_field]: the field, decoded when it is text, and
    the document after the call. *)
Definition _safe_access_json_field (bea_json : json) (key : string)
  (pop : bool) : outcome json * json :=
  let (r, bea_json') := getitem_any_level bea_json key pop in
  (match r with
   | Ok (JStr s) => literal_eval s
   | _ => r
   end, bea_json').

(** The loop over the dimensions. *)
Fixpoint read_dimensions (items : list json) (dimensions : pydict dim_dict)
  : outcome (pydict dim_dict) :=
  match items with
  | [] => Ok dimensions
  | dim :: rest =>
      dt <- py_getitem dim "DataType" ;;
      iv <- py_getitem dim "IsValue" ;;
      n <- py_int iv ;;
      dim_name <- py_getitem dim "Name" ;;
      dimensions' <- pydict_set dimensions dim_name
                       (mk_dim_dict dt (negb (n =? 0))) ;;
      read_dimensions rest dimensions'
  end.

(** The loop over the notes: the notes read so far, and the exception
    that stopped the loop if one did. *)
Fixpoint read_notes (items : list json) (notes : pydict json)
  : pydict json * option exn :=
  match items with
  | [] => (notes, None)
  | note :: rest =>
      match (text <- py_getitem note "NoteText" ;;
             ref <- py_getitem note "NoteRef" ;;
             pydict_set notes ref text) with
      | Ok notes' => read_notes rest notes'
      | Raise e => (notes, Some e)
      end
  end.

(** The [try] block around the notes: a [KeyError] keeps what was read,
    any other exception goes on. *)
Definition notes_block (bea_json : json) : outcome (pydict json) * json :=
  let (r, bea_json') := _safe_access_json_field bea_json "Notes" true in
  (match (note_list <- r ;; py_iter note_list) with
   | Ok items =>
       match read_notes items [] with
       | (notes, None) | (notes, Some (KeyError _)) => Ok notes
       | (_, Some e) => Raise e
       end
   | Raise (KeyError _) => Ok []
   | Raise e => Raise e
   end, bea_json').

(** ** Response objects *)

(** The attributes of the four kinds of response.  The document
    [bea_json] of a data response is the one left by the removals of the
    builder, and its attribute [result] the result block as these
    removals leave it. *)
Inductive BEAResponse : Type :=
| DatasetListResponse (request : pydict json) (result : json) (url : string)
    (datasets : pydict json)
| ParameterListResponse (request : pydict json) (result : json) (url : string)
    (parameters : pydict json)
| ParameterValuesResponse (request : pydict json) (result : json)
    (url : string) (parameters : pydict json)
| DataResponse (request : pydict json) (result : json) (url : string)
    (bea_json : json) (dimensions : pydict dim_dict) (notes : pydict json)
    (data : payload) (metadata : DataFrame).

Fixpoint read_datasets (items : list json) (datasets : pydict json)
  : outcome (pydict json) :=
  match items with
  | [] => Ok datasets
  | d :: rest =>
      description <- py_getitem d "DatasetDescription" ;;
      dataset <- py_getitem d "DatasetName" ;;
      datasets' <- pydict_set datasets dataset description ;;
      read_datasets rest datasets'
  end.

Definition DatasetListResponse_init (request : pydict json) (result : json)
  (url : string) : outcome BEAResponse :=
  rows <- py_getitem result "Dataset" ;;
  items <- py_iter rows ;;
  datasets <- read_datasets items [] ;;
  Ok (DatasetListResponse request result url datasets).

(** The loop of [ParameterListResponse]: [p.pop('ParameterName')] changes
    the descriptor in place, so the descriptors as the loop leaves them
    are returned next to the dictionary. *)
Fixpoint read_parameters (items : list json) (parameters : pydict json)
  : outcome (list json * pydict json) :=
  match items with
  | [] => Ok ([], parameters)
  | p :: rest =>
      match p with
      | JDict fields =>
          match dict_get "ParameterName" fields with
          | Some pname =>
              let p' := JDict (dict_del "ParameterName" fields) in
              parameters' <- pydict_set parameters pname p' ;;
              '(rest', final) <- read_parameters rest parameters' ;;
              Ok (p' :: rest', final)
          | None => Raise (KeyError "ParameterName")
          end
      | JList _ => Raise TypeError
      | _ => Raise AttributeError
      end
  end.

Fixpoint dict_replace (key : string) (v : json) (fields : list (string * json))
  : list (string * json) :=
  match fields with
  | [] => []
  | (k, w) :: rest =>
      if String.eqb k key then (k, v) :: rest
      else (k, w) :: dict_replace key v rest
  end.

Definition ParameterListResponse_init (request : pydict json) (result : json)
  (url : string) : outcome BEAResponse :=
  rows <- py_getitem result "Parameter" ;;
  items <- py_iter rows ;;
  '(items', parameters) <- read_parameters items [] ;;
  let result' :=
    match result, rows with
    | JDict fields, JList _ =>
        JDict (dict_replace "Parameter" (JList items') fields)
    | _, _ => result
    end in
  Ok (ParameterListResponse request result' url parameters).

(** The loop of [ParameterValuesResponse]:
    [key, description = tuple(p.values())]. *)
Fixpoint read_values (items : list json) (parameters : pydict json)
  : outcome (pydict json) :=
  match items with
  | [] => Ok parameters
  | p :: rest =>
      match p with
      | JDict fields =>
          match map snd fields with
          | [key; description] =>
              parameters' <- pydict_set parameters key description ;;
              read_values rest parameters'
          | [] =>
              Raise (ValueError
                       "not enough values to unpack (expected 2, got 0)")
          | [_] =>
              Raise (ValueError
                       "not enough values to unpack (expected 2, got 1)")
          | _ => Raise (ValueError "too many values to unpack (expected 2)")
          end
      | _ => Raise AttributeError
      end
  end.

Definition ParameterValuesResponse_init (request : pydict json) (result : json)
  (url : string) : outcome BEAResponse :=
  rows <- py_getitem result "ParamValue" ;;
  items <- py_iter rows ;;
  parameters <- read_values items [] ;;
  Ok (ParameterValuesResponse request result url parameters).

(** The attribute [result] of a data response after the removals of the
    notes and of the data from [bea_json]: [from_response] has located
    the result block in [bea_json] under [Results], so the block shares
    what is removed inside it. *)
Definition result_after_removals (bea_json result : json) : json :=
  let '(result1, place1) :=
    pop_shared bea_json result (field_path bea_json "Results") "Notes" in
  let json1 := snd (getitem_any_level bea_json "Notes" true) in
  fst (pop_shared json1 result1 place1 "Data").

Definition DataResponse_init (request : pydict json) (result : json)
  (url : string) (bea_json : json) : outcome BEAResponse :=
  let (r1, json1) := _safe_access_json_field bea_json "Dimensions" false in
  dims <- r1 ;;
  items <- py_iter dims ;;
  dimensions <- read_dimensions items [] ;;
  let (r2, json2) := notes_block json1 in
  notes <- r2 ;;
  let (r3, json3) := _safe_access_json_field json2 "Data" true in
  data_list <- r3 ;;
  '(df, md) <- _construct_data_and_metadata request dimensions notes data_list ;;
  Ok (DataResponse request (result_after_removals bea_json result) url json3
        dimensions notes df md).

(** ** The classifier and from_response *)

Inductive response_class : Type :=
| class_DatasetListResponse
| class_ParameterListResponse
| class_ParameterValuesResponse
| class_DataResponse.

(** The dictionary [response_classes]. *)
Definition response_classes (method : string) : option response_class :=
  if String.eqb method "GETDATASETLIST" then Some class_DatasetListResponse
  else if String.eqb method "GETPARAMETERLIST"
  then Some class_ParameterListResponse
  else if String.eqb method "GETPARAMETERVALUES"
  then Some class_ParameterValuesResponse
  else if String.eqb method "GETPARAMETERVALUESFILTERED"
  then Some class_ParameterValuesResponse
  else if String.eqb method "GETDATA" then Some class_DataResponse
  else None.

(** [klass(request, result, url, bea_json=bea_json)]. *)
Definition construct (klass : response_class) (request : pydict json)
  (result : json) (url : string) (bea_json : json) : outcome BEAResponse :=
  match klass with
  | class_DatasetListResponse => DatasetListResponse_init request result url
  | class_ParameterListResponse => ParameterListResponse_init request result url
  | class_ParameterValuesResponse =>
      ParameterValuesResponse_init request result url
  | class_DataResponse => DataResponse_init request result url bea_json
  end.

(** What the transport hands over: the URL of the request and the parsed
    document. *)
Record Response : Type := mkResponse {
  resp_url : string;
  resp_json : json
}.

(** [BEAAPIError.__init__]: the message of the exception. *)
Definition BEAAPIError_init (err_json : json) : outcome string :=
  err_code <- fst (getitem_any_level err_json "APIErrorCode" false) ;;
  err_desc <- fst (getitem_any_level err_json "APIErrorDescription" false) ;;
  Ok ("API Code: " ++ py_str err_code
      ++ ". Description: " ++ py_str err_desc).

(** The first [try] statement of [from_response]: the exception that
    leaves it, if one does.  Its handler takes every [KeyError] raised
    in its body, the one of the constructor of the exception included. *)
Definition error_block (bea_json : json) : option exn :=
  match (err <- fst (getitem_any_level bea_json "Error" false) ;;
         BEAAPIError_init err) with
  | Ok msg => Some (BEAAPIError msg)
  | Raise (KeyError _) => None
  | Raise e => Some e
  end.

(** The loop over the request parameters. *)
Fixpoint read_request (items : list json) (request : pydict json)
  : outcome (pydict json) :=
  match items with
  | [] => Ok request
  | pdict :: rest =>
      v <- py_getitem pdict "ParameterValue" ;;
      k <- py_getitem pdict "ParameterName" ;;
      request' <- pydict_set request k v ;;
      read_request rest request'
  end.

(** [response_classes[method]]. *)
Definition lookup_class (method : json) : outcome response_class :=
  match method with
  | JStr m =>
      match response_classes m with
      | Some klass => Ok klass
      | None => Raise (KeyError m)
      end
  | JList _ | JDict _ => Raise TypeError
  | _ => Raise (KeyError (py_str method))
  end.

Definition creation_failed (url : string) : string :=
  "could not create BEAResponse. url is " ++ nl ++ url.

(** Lines 131 to 159 of [from_response]: the error block, the request
    parameters, the result block and the class of the response, with the
    document as the removal of [RequestParam] leaves it. *)
Definition classify (bea_json : json)
  : outcome (response_class * pydict json * json * json) :=
  match error_block bea_json with
  | Some e => Raise e
  | None =>
      let (r, bea_json') := getitem_any_level bea_json "RequestParam" true in
      request_parameters <- r ;;
      items <- py_iter request_parameters ;;
      request <- read_request items [] ;;
      result <- fst (getitem_any_level bea_json' "Results" false) ;;
      method <- pydict_getitem request "METHOD" ;;
      klass <- lookup_class method ;;
      Ok (klass, request, result, bea_json')
  end.

(** The body of the outer [try] statement of [from_response]: whatever
    the constructor of the response raises becomes a [ValueError] that
    names the URL. *)
Definition from_response_body (url : string) (bea_json : json)
  : outcome BEAResponse :=
  '(klass, request, result, bea_json') <- classify bea_json ;;
  match construct klass request result url bea_json' with
  | Ok response => Ok response
  | Raise _ => Raise (ValueError (creation_failed url))
  end.

Definition from_response (response : Response) : outcome BEAResponse :=
  match from_response_body (resp_url response) (resp_json response) with
  | Raise AttributeError =>
      Raise (NotImplementedError "cannot create Response without json")
  | r => r
  end.

Definition create_response (bea_response : Response) : outcome BEAResponse :=
  from_response bea_response.

End WithLibs.

(** ** A library for closed examples *)

Module Plain.

(** [repr] of a document whose text needs no escaping. *)
Fixpoint repr (t : json) : string :=
  match t with
  | JNull => "None"
  | JBool true => "True"
  | JBool false => "False"
  | JInt n => str_of_Z n
  | JStr s => "'" ++ s ++ "'"
  | JList items =>
      "[" ++ String.concat ", " (map repr items) ++ "]"
  | JDict fields =>
      "{" ++ String.concat ", "
               (map (fun kv => "'" ++ fst kv ++ "': " ++ repr (snd kv)) fields)
          ++ "}"
  end.

(** [int(s)] for an optional sign followed by digits. *)
Definition int_of_str (s : string) : outcome Z :=
  match parse_exponent s with
  | Some n => Ok n
  | None => Raise (ValueError "invalid literal for int() with base 10")
  end.

Fixpoint fraction_digits (fuel : nat) (rem den : Z) : string :=
  match fuel with
  | O => ""
  | S f =>
      if rem =? 0 then ""
      else str_of_Z (rem * 10 / den) ++ fraction_digits f (rem * 10 mod den) den
  end.

(** [str(x)] for a float that is a short decimal: [12.5], [3.0]. *)
Definition float_str (q : Q) : string :=
  let r := Qred q in
  let n := Z.abs (Qnum r) in
  let d := Zpos (Qden r) in
  let frac := fraction_digits 17 (n mod d) d in
  (if Qnum r <? 0 then "-" else "")
  ++ str_of_Z (n / d) ++ "."
  ++ (match frac with EmptyString => "0" | _ => frac end).

(** Ten to an integral power. *)
Definition float_pow10 (q : Q) : Q := Qred (Qpower (10 # 1) (Qfloor q)).

Definition cell_of_json (t : json) : cell :=
  match t with
  | JStr s => CStr s
  | JInt n => CInt n
  | JBool b => CInt (if b then 1 else 0)
  | JNull => CNaN
  | _ => CStr (repr t)
  end.

Definition fields_of (row : json) : option (list (string * json)) :=
  match row with
  | JDict fields => Some fields
  | _ => None
  end.

Fixpoint add_names (names seen : list string) : list string :=
  match names with
  | [] => seen
  | n :: rest =>
      add_names rest (if mem n seen then seen else (seen ++ [n])%list)
  end.

Definition cell_at (col : string) (fields : list (string * json)) : cell :=
  match dict_get col fields with
  | Some v => cell_of_json v
  | None => CNaN
  end.

(** [pd.DataFrame(data)] for a list of flat rows: one column per field in
    order of first appearance, a missing value where a row lacks the
    field, the rows numbered from zero. *)
Definition pd_DataFrame (data : json) : outcome DataFrame :=
  match data with
  | JList rows =>
      match sequence (map (fun r => match fields_of r with
                                    | Some f => Ok f
                                    | None => Raise TypeError
                                    end) rows) with
      | Ok rs =>
          let names := fold_left (fun seen f => add_names (map fst f) seen)
                                 rs [] in
          Ok (mkDataFrame None (range_index (List.length rs)) None
                (map (fun n => (n, map (cell_at n) rs)) names))
      | Raise e => Raise e
      end
  | _ => Raise (ValueError "DataFrame constructor not properly called!")
  end.

(** The library of the examples; [ast.literal_eval] decodes nothing, and
    text outside the literals of [parse_number] is taken as no number. *)
Definition libs : Libs :=
  Build_Libs (fun _ => Raise SyntaxError) int_of_str repr float_str
             float_pow10 pd_DataFrame cell_of_json
             (fun _ => None) (fun _ => false).

End Plain.

(** ** Documents and tables of the examples *)

Definition bea_url : string :=
  "https://apps.bea.gov/api/data?UserID=X&method=GetData&ResultFormat=JSON".

Definition request_param (method : string) : json :=
  JDict [("RequestParam",
          JList [JDict [("ParameterName", JStr "METHOD");
                        ("ParameterValue", JStr method)]])].

(** A dataset list, as the API answers [GetDataSetList]. *)
Definition dataset_list_document : json :=
  JDict [("BEAAPI",
          JDict [("Request", request_param "GETDATASETLIST");
                 ("Results",
                  JDict [("Dataset",
                          JList [JDict [("DatasetName", JStr "NIPA");
                                        ("DatasetDescription",
                                         JStr "Standard NIPA tables")]])])])].

(** A result block given as a list of two elements, the observations in
    the second. *)
Definition data_in_second_element : json :=
  JDict [("BEAAPI",
          JDict [("Results",
                  JList [JDict [("Statistic", JStr "NIPA Table")];
                         JDict [("Data",
                                 JList [JDict [("SeriesCode", JStr "A191RL");
                                               ("TimePeriod", JStr "2020");
                                               ("DataValue", JStr "5")]])]])])].

(** An error block with its code and its description. *)
Definition error_document : json :=
  JDict [("BEAAPI",
          JDict [("Request", request_param "GETDATA");
                 ("Results",
                  JDict [("Error",
                          JDict [("APIErrorCode", JStr "201");
                                 ("APIErrorDescription",
                                  JStr "Error retrieving NIPA/Fixed Assets data.")])])])].

(** A dataset list that comes with an error block without description. *)
Definition error_without_description : json :=
  JDict [("BEAAPI",
          JDict [("Request", request_param "GETDATASETLIST");
                 ("Results",
                  JDict [("Error", JDict [("APIErrorCode", JStr "201")]);
                         ("Dataset",
                          JList [JDict [("DatasetName", JStr "NIPA");
                                        ("DatasetDescription",
                                         JStr "Standard NIPA tables")]])])])].

(** A dataset list whose result block lacks the list. *)
Definition results_without_dataset : json :=
  JDict [("BEAAPI",
          JDict [("Request", request_param "GETDATASETLIST");
                 ("Results", JDict [])])].

(** Parameter values, asked with [GetParameterValuesFiltered]. *)
Definition filtered_values_document : json :=
  JDict [("BEAAPI",
          JDict [("Request", request_param "GETPARAMETERVALUESFILTERED");
                 ("Results",
                  JDict [("ParamValue",
                          JList [JDict [("TableName", JStr "T10101");
                                        ("Description",
                                         JStr "Table 1.1.1. Percent Change")]])])])].

Definition data_request (dataset : string) : pydict json :=
  [(JStr "METHOD", JStr "GETDATA"); (JStr "DATASETNAME", JStr dataset)].

(** A frame as [_construct_data_and_metadata] hands it to
    [_construct_data]: the series keys as index, the columns given. *)
Definition data_frame (keys : list string) (cols : list (string * list string))
  : DataFrame :=
  mkDataFrame (Some "index") (map CStr keys) None
    (map (fun kv => (fst kv, map CStr (snd kv))) cols).

(** Two series of one period, one of them suppressed. *)
Definition sentinel_frame : DataFrame :=
  data_frame ["A191RL"; "DPCERL"]
    [("TimePeriod", ["2020"; "2020"]); ("DataValue", ["12.5"; "(D)"])].

(** Two series of one period, in millions and in units. *)
Definition scaled_frame : DataFrame :=
  data_frame ["A191RC"; "A191RL"]
    [("TimePeriod", ["2020"; "2020"]); ("DataValue", ["1,234"; "7"]);
     ("UNIT_MULT", ["6"; "0"])].

(** Two series of one period without [UNIT_MULT]. *)
Definition unscaled_frame : DataFrame :=
  data_frame ["A191RC"; "A191RL"]
    [("TimePeriod", ["2020"; "2020"]); ("DataValue", ["5"; "7"])].

(** One observation. *)
Definition one_row_frame : DataFrame :=
  data_frame ["01000"] [("TimePeriod", ["2020"]); ("DataValue", ["5"])].


Definition dimensions_block : json :=
  JList [JDict [("Name", JStr "GeoFips"); ("DataType", JStr "string");
                ("IsValue", JStr "0")];
         JDict [("Name", JStr "TimePeriod"); ("DataType", JStr "string");
                ("IsValue", JStr "0")];
         JDict [("Name", JStr "DataValue"); ("DataType", JStr "numeric");
                ("IsValue", JStr "1")]].

(** A data response of the dataset [Regional] with the given
    observations. *)
Definition regional_document (observations : list json) : json :=
  JDict [("BEAAPI",
          JDict [("Request",
                  JDict [("RequestParam",
                          JList [JDict [("ParameterName", JStr "METHOD");
                                        ("ParameterValue", JStr "GETDATA")];
                                 JDict [("ParameterName", JStr "DATASETNAME");
                                        ("ParameterValue", JStr "Regional")]])]);
                 ("Results",
                  JDict [("Dimensions", dimensions_block);
                         ("Data", JList observations)])])].

Definition observation (geo period value : string) : json :=
  JDict [("GeoFips", JStr geo); ("TimePeriod", JStr period);
         ("DataValue", JStr value)].

(** ** Attributes of a response *)

(** The class of a response object. *)
Definition class_of (r : BEAResponse) : response_class :=
  match r with
  | DatasetListResponse _ _ _ _ => class_DatasetListResponse
  | ParameterListResponse _ _ _ _ => class_ParameterListResponse
  | ParameterValuesResponse _ _ _ _ => class_ParameterValuesResponse
  | DataResponse _ _ _ _ _ _ _ _ => class_DataResponse
  end.

(** The attribute [url]. *)
Definition response_url (r : BEAResponse) : string :=
  match r with
  | DatasetListResponse _ _ url _ | ParameterListResponse _ _ url _
  | ParameterValuesResponse _ _ url _ | DataResponse _ _ url _ _ _ _ _ => url
  end.

(** The attribute [request]. *)
Definition response_request (r : BEAResponse) : pydict json :=
  match r with
  | DatasetListResponse request _ _ _ | ParameterListResponse request _ _ _
  | ParameterValuesResponse request _ _ _
  | DataResponse request _ _ _ _ _ _ _ => request
  end.

(** The assignments [d[k] = v] of a list of pairs, in order. *)
Definition puts {V : Type} (kvs : list (json * V)) (d : pydict V) : pydict V :=
  fold_left (fun acc kv => pydict_put acc (fst kv) (snd kv)) kvs d.

(** The value of the last pair with the given text as key. *)
Fixpoint last_value {V : Type} (key : string) (kvs : list (json * V))
  : option V :=
  match kvs with
  | [] => None
  | (k, v) :: rest =>
      match last_value key rest with
      | Some w => Some w
      | None => if key_eqb k (JStr key) then Some v else None
      end
  end.

(** The fields named [name] in a document before a removal of [key] are
    the ones left, the field taken out if it has that name, and the ones
    in its value. *)
Definition conserves (key : string) (t : json) : Prop :=
  forall v, fst (getitem_any_level t key true) = Ok v ->
  forall name,
    count_key name t
    = (count_key name (snd (getitem_any_level t key true))
       + (if String.eqb key name then 1 else 0)
       + count_key name v)%nat.

(** The columns of the metadata table for the columns handed to
    [_construct_metadata]: with notes and a column [NoteRef], the column
    [Notes] is set and [NoteRef] dropped. *)
Definition metadata_names (notes : pydict json) (names : list string)
  : list string :=
  match notes with
  | [] => names
  | _ =>
      if mem "NoteRef" names
      then filter (fun n => negb (mem n ["NoteRef"]))
                  (if mem "Notes" names then names
                   else (names ++ ["Notes"])%list)
      else names
  end.

(** The columns that [_construct_data_and_metadata] takes as value
    columns. *)
Definition value_columns (p_id : string) (dimensions : pydict dim_dict)
  : list string :=
  ([p_id; "DataValue"]
   ++ match pydict_get dimensions (JStr "UNIT_MULT") with
      | Some _ => ["UNIT_MULT"]
      | None => []
      end)%list.

(** Text whose reading is settled without the library: ASCII text that,
    when it is made of digits only, is an integer of [int64]. *)
Definition settled_text (s : string) : bool :=
  ascii_text s
  && match nonempty_digits s with
     | Some v => v <? 2 ^ 63
     | None => true
     end.
(** * Properties

    ** The locator *)

Lemma getitem_dict (fields : list (string * json)) (key : string) (pop : bool) :
  getitem_any_level (JDict fields) key pop =
  match dict_get key fields with
  | Some v => (Ok v, if pop then JDict (dict_del key fields) else JDict fields)
  | None =>
      let (r, fields') :=
        search_values (fun d => getitem_any_level d key pop) key fields in
      (r, JDict fields')
  end.
Proof. reflexivity. Qed.

Lemma getitem_list_cons (d : json) (rest : list json) (key : string) (pop : bool) :
  getitem_any_level (JList (d :: rest)) key pop =
  let (r, d') := getitem_any_level d key pop in (r, JList (d' :: rest)).
Proof. reflexivity. Qed.

Lemma search_values_fails (key : string) (pop : bool) (fields : list (string * json)) :
  Forall (fun kv => fails_cleanly key pop (snd kv)) fields ->
  forall e,
    fst (search_values (fun d => getitem_any_level d key pop) key fields) = Raise e ->
    (exists m, e = KeyError m)
    /\ snd (search_values (fun d => getitem_any_level d key pop) key fields) = fields.
Proof.
  induction 1 as [|[k sub] rest Hsub Hrest IH]; intros e; simpl.
  - intros [= <-]. split; [eauto | reflexivity].
  - unfold fails_cleanly in Hsub. simpl in Hsub.
    destruct (getitem_any_level sub key pop) as [[v|e'] sub'] eqn:E; simpl in *.
    + discriminate.
    + destruct (Hsub e' eq_refl) as [[m ->] ->].
      destruct (search_values _ key rest) as [r rest'] eqn:S; simpl in *.
      intros ->. destruct (IH e eq_refl) as [Hk ->]. auto.
Qed.

Lemma getitem_fails_cleanly (key : string) (pop : bool) (t : json) :
  fails_cleanly key pop t.
Proof.
  induction t as [| | | |items IH|fields IH] using json_nested_ind;
    unfold fails_cleanly; intros e; try (simpl; intros [= <-]; eauto).
  - destruct items as [|d rest]; [simpl; intros [= <-]; eauto|].
    rewrite getitem_list_cons. inversion IH as [|? ? Hd _]; subst.
    destruct (getitem_any_level d key pop) as [r d'] eqn:E; simpl.
    intros ->. destruct (Hd e) as [Hk Hsame]; [rewrite E; reflexivity|].
    rewrite E in Hsame. simpl in Hsame. subst. auto.
  - rewrite getitem_dict. destruct (dict_get key fields); [discriminate|].
    pose proof (search_values_fails key pop fields IH e) as Hs.
    destruct (search_values _ key fields) as [r fields']; simpl in *.
    intros ->. destruct (Hs eq_refl) as [Hk ->]. auto.
Qed.

Lemma search_values_fst_ext (rec1 rec2 : json -> outcome json * json)
  (key : string) (fields : list (string * json)) :
  Forall (fun kv => fst (rec1 (snd kv)) = fst (rec2 (snd kv))) fields ->
  fst (search_values rec1 key fields) = fst (search_values rec2 key fields).
Proof.
  induction 1 as [|[k sub] rest Hsub _ IH]; simpl; [reflexivity|].
  simpl in Hsub.
  destruct (rec1 sub) as [r1 s1], (rec2 sub) as [r2 s2]; simpl in *; subst r2.
  destruct r1 as [v|e]; [reflexivity|].
  destruct (search_values rec1 key rest), (search_values rec2 key rest).
  simpl in IH. subst. destruct e; reflexivity.
Qed.

(** Whether a search succeeds, and with what, does not depend on [pop]. *)
Lemma getitem_pop_irrelevant (key : string) (pop pop' : bool) (t : json) :
  fst (getitem_any_level t key pop) = fst (getitem_any_level t key pop').
Proof.
  induction t as [| | | |items IH|fields IH] using json_nested_ind;
    try reflexivity.
  - destruct items as [|d rest]; [reflexivity|].
    rewrite !getitem_list_cons. inversion IH as [|? ? Hd _]; subst.
    destruct (getitem_any_level d key pop), (getitem_any_level d key pop').
    exact Hd.
  - rewrite !getitem_dict. destruct (dict_get key fields); [reflexivity|].
    pose proof (search_values_fst_ext
                  (fun d => getitem_any_level d key pop)
                  (fun d => getitem_any_level d key pop') key fields IH) as H.
    destruct (search_values _ key fields), (search_values _ key fields).
    exact H.
Qed.

Lemma search_values_unchanged (rec : json -> outcome json * json)
  (key : string) (fields : list (string * json)) :
  Forall (fun kv => snd (rec (snd kv)) = snd kv) fields ->
  snd (search_values rec key fields) = fields.
Proof.
  induction 1 as [|[k sub] rest Hsub _ IH]; simpl; [reflexivity|].
  simpl in Hsub. destruct (rec sub) as [r s]; simpl in *; subst s.
  destruct (search_values rec key rest) as [r' rest']; simpl in IH; subst.
  destruct r as [v|[]]; reflexivity.
Qed.

(** A search without removal leaves the document as it was. *)
Lemma getitem_no_pop (key : string) (t : json) :
  snd (getitem_any_level t key false) = t.
Proof.
  induction t as [| | | |items IH|fields IH] using json_nested_ind;
    try reflexivity.
  - destruct items as [|d rest]; [reflexivity|].
    rewrite getitem_list_cons. inversion IH as [|? ? Hd _]; subst.
    destruct (getitem_any_level d key false); simpl in *. now subst.
  - rewrite getitem_dict. destruct (dict_get key fields); [reflexivity|].
    pose proof (search_values_unchanged
                  (fun d => getitem_any_level d key false) key fields IH) as H.
    destruct (search_values _ key fields); simpl in *. now subst.
Qed.

Lemma count_key_dict (key : string) (fields : list (string * json)) :
  count_key key (JDict fields) = count_fields key fields.
Proof. induction fields as [|[k v] rest IH]; simpl in *; congruence. Qed.

Lemma count_key_list_cons (key : string) (d : json) (rest : list json) :
  count_key key (JList (d :: rest))
  = (count_key key d + count_key key (JList rest))%nat.
Proof. reflexivity. Qed.

Lemma dict_del_count (key : string) (fields : list (string * json)) (v : json) :
  dict_get key fields = Some v ->
  count_fields key fields
  = (count_fields key (dict_del key fields) + 1 + count_key key v)%nat.
Proof.
  induction fields as [|[k w] rest IH]; simpl; [discriminate|].
  destruct (String.eqb k key) eqn:Ek.
  - intros [= ->]. lia.
  - intros H. simpl. rewrite Ek, (IH H). lia.
Qed.

Lemma search_values_pops_one (key : string) (fields : list (string * json)) :
  Forall (fun kv => pops_one key (snd kv)) fields ->
  forall v,
    fst (search_values (fun d => getitem_any_level d key true) key fields) = Ok v ->
    (count_fields key fields
     = count_fields key
         (snd (search_values (fun d => getitem_any_level d key true) key fields))
       + 1 + count_key key v)%nat.
Proof.
  induction 1 as [|[k sub] rest Hsub _ IH]; intros v; simpl; [discriminate|].
  unfold pops_one in Hsub. simpl in Hsub.
  pose proof (getitem_fails_cleanly key true sub) as Hclean.
  unfold fails_cleanly in Hclean.
  destruct (getitem_any_level sub key true) as [[w|e] sub'] eqn:E; simpl in *.
  - intros [= ->]. rewrite (Hsub v eq_refl). lia.
  - destruct (Hclean e eq_refl) as [[m ->] ->].
    destruct (search_values _ key rest) as [r rest'] eqn:S; simpl in *.
    intros ->. rewrite (IH v eq_refl). lia.
Qed.

Lemma getitem_pops_one (key : string) (t : json) : pops_one key t.
Proof.
  induction t as [| | | |items IH|fields IH] using json_nested_ind;
    unfold pops_one; intros v; try discriminate.
  - destruct items as [|d rest]; [discriminate|].
    rewrite getitem_list_cons. inversion IH as [|? ? Hd _]; subst.
    unfold pops_one in Hd.
    destruct (getitem_any_level d key true) as [r d'] eqn:E.
    cbn [fst snd] in *.
    intros ->. rewrite !count_key_list_cons. rewrite (Hd v eq_refl). lia.
  - rewrite getitem_dict. rewrite !count_key_dict.
    destruct (dict_get key fields) as [w|] eqn:G; cbn [fst snd].
    + intros [= ->]. rewrite count_key_dict. now apply dict_del_count.
    + pose proof (search_values_pops_one key fields IH v) as H.
      destruct (search_values _ key fields) as [r fields']; cbn [fst snd] in *.
      intros ->. rewrite count_key_dict. now apply H.
Qed.

(** A document without a field named [key] makes the search fail. *)
Lemma getitem_absent (key : string) (pop : bool) (t : json) :
  count_key key t = O ->
  exists m, fst (getitem_any_level t key pop) = Raise (KeyError m).
Proof.
  intros H0.
  rewrite (getitem_pop_irrelevant key pop true).
  destruct (fst (getitem_any_level t key true)) as [v|e] eqn:E.
  - pose proof (getitem_pops_one key t v E). lia.
  - destruct (getitem_fails_cleanly key true t e E) as [[m ->] _]. eauto.
Qed.



Lemma dict_get_In (key : string) (fields : list (string * json)) (v : json) :
  dict_get key fields = Some v -> In (key, v) fields.
Proof.
  induction fields as [|[k w] rest IH]; simpl; [discriminate|].
  destruct (String.eqb_spec k key) as [->|_].
  - intros [= ->]. now left.
  - intros H. right. now apply IH.
Qed.

Lemma search_values_sound (key : string) (pop : bool)
  (fields : list (string * json)) (v : json) :
  Forall (fun kv => fst (getitem_any_level (snd kv) key pop) = Ok v ->
                    occurs key v (snd kv)) fields ->
  fst (search_values (fun d => getitem_any_level d key pop) key fields) = Ok v ->
  exists k sub, In (k, sub) fields /\ occurs key v sub.
Proof.
  induction 1 as [|[k sub] rest Hsub _ IH]; simpl; [discriminate|].
  simpl in Hsub.
  destruct (getitem_any_level sub key pop) as [[w|e] sub'] eqn:E; simpl in *.
  - intros [= ->]. exists k, sub. auto.
  - destruct e; try discriminate.
    destruct (search_values _ key rest) as [r rest'] eqn:S; simpl in *.
    intros ->. destruct (IH eq_refl) as (k' & s' & Hin & Hocc).
    exists k', s'. auto.
Qed.

(** What a search returns is the value of a field named [key]. *)
Lemma getitem_sound (key : string) (pop : bool) (t v : json) :
  fst (getitem_any_level t key pop) = Ok v -> occurs key v t.
Proof.
  revert v.
  induction t as [| | | |items IH|fields IH] using json_nested_ind;
    intros v; try discriminate.
  - destruct items as [|d rest]; [discriminate|].
    rewrite getitem_list_cons. inversion IH as [|? ? Hd _]; subst.
    destruct (getitem_any_level d key pop) as [r d'] eqn:E; cbn [fst snd] in *.
    intros ->. apply occurs_item with (x := d); [now left | now apply Hd].
  - rewrite getitem_dict.
    destruct (dict_get key fields) as [w|] eqn:G; cbn [fst snd].
    + intros [= ->]. apply occurs_here. now apply dict_get_In.
    + assert (Hall : Forall (fun kv =>
                 fst (getitem_any_level (snd kv) key pop) = Ok v ->
                 occurs key v (snd kv)) fields)
        by (eapply Forall_impl; [|exact IH]; intros kv H; apply H).
      pose proof (search_values_sound key pop fields v Hall) as H.
      destruct (search_values _ key fields) as [r fields']; cbn [fst snd] in *.
      intros ->. destruct (H eq_refl) as (k & sub & Hin & Hocc).
      now apply occurs_below with (k := k) (sub := sub).
Qed.

Lemma short_lists_dict (fields : list (string * json)) :
  short_lists (JDict fields) = short_fields fields.
Proof. induction fields as [|[k v] rest IH]; simpl in *; congruence. Qed.

Lemma dict_get_none_count (key : string) (fields : list (string * json)) :
  dict_get key fields = None ->
  count_fields key fields
  = fold_right (fun kv n => (count_key key (snd kv) + n)%nat) O fields.
Proof.
  induction fields as [|[k w] rest IH]; simpl; [reflexivity|].
  destruct (String.eqb k key); [discriminate|].
  intros H. rewrite (IH H). reflexivity.
Qed.

Lemma search_values_finds (key : string) (pop : bool)
  (fields : list (string * json)) :
  Forall (fun kv => finds key pop (snd kv)) fields ->
  short_fields fields = true ->
  (0 < fold_right (fun kv n => (count_key key (snd kv) + n)%nat) O fields)%nat ->
  exists v,
    fst (search_values (fun d => getitem_any_level d key pop) key fields) = Ok v.
Proof.
  induction 1 as [|[k sub] rest Hsub _ IH]; simpl; [lia|].
  unfold finds in Hsub. simpl in Hsub.
  intros [Hshort Hrest]%andb_prop Hcount.
  pose proof (getitem_fails_cleanly key pop sub) as Hclean.
  unfold fails_cleanly in Hclean.
  destruct (getitem_any_level sub key pop) as [[w|e] sub'] eqn:E;
    cbn [fst snd] in *.
  - eauto.
  - destruct (Hclean e eq_refl) as [[m ->] _].
    assert (count_key key sub = O) as H0.
    { destruct (count_key key sub); [reflexivity|].
      destruct (Hsub Hshort) as [v Hv]; [lia | discriminate]. }
    destruct (IH Hrest) as [v Hv]; [lia|].
    destruct (search_values _ key rest); cbn [fst snd] in *. eauto.
Qed.

(** When no list of the document has more than one element, a field that
    occurs is found. *)
Lemma getitem_finds (key : string) (pop : bool) (t : json) : finds key pop t.
Proof.
  induction t as [| | | |items IH|fields IH] using json_nested_ind;
    unfold finds; intros Hshort Hcount; try (simpl in Hcount; lia).
  - destruct items as [|d [|d2 rest]];
      [simpl in Hcount; lia | | discriminate].
    rewrite getitem_list_cons. inversion IH as [|? ? Hd _]; subst.
    destruct (Hd Hshort) as [v Hv]; [simpl in Hcount; lia|].
    destruct (getitem_any_level d key pop); cbn [fst snd] in *. eauto.
  - rewrite getitem_dict. rewrite count_key_dict in Hcount.
    rewrite short_lists_dict in Hshort.
    destruct (dict_get key fields) as [w|] eqn:G; cbn [fst snd]; [eauto|].
    rewrite (dict_get_none_count key fields G) in Hcount.
    destruct (search_values_finds key pop fields IH Hshort Hcount) as [v Hv].
    destruct (search_values _ key fields); cbn [fst snd] in *. eauto.
Qed.

(** A field that occurs in a document whose lists have one element at
    most is found, and what is returned is the value of a field of that
    name. *)
Corollary getitem_wrapped_found (key : string) (pop : bool) (t : json) :
  short_lists t = true ->
  (0 < count_key key t)%nat ->
  exists v, fst (getitem_any_level t key pop) = Ok v /\ occurs key v t.
Proof.
  intros Hshort Hcount.
  destruct (getitem_finds key pop t Hshort Hcount) as [v Hv].
  exists v. split; [exact Hv|]. now apply getitem_sound with (pop := pop).
Qed.

(** The locator finds the fields of the examples, whatever their depth. *)
Lemma getitem_examples :
  fst (getitem_any_level dataset_list_document "Dataset" false)
  = Ok (JList [JDict [("DatasetName", JStr "NIPA");
                      ("DatasetDescription", JStr "Standard NIPA tables")]])
  /\ fst (getitem_any_level error_document "APIErrorCode" false)
     = Ok (JStr "201")
  /\ fst (getitem_any_level (JList [error_document]) "APIErrorDescription"
                            false)
     = Ok (JStr "Error retrieving NIPA/Fixed Assets data.").
Proof. repeat split; reflexivity. Qed.

(** C1, failing input: the field [Data] occurs once in the document, in
    the second element of a list of two; the search takes the first
    element of the list, whose [KeyError] ends the search of the list, and
    the call raises [KeyError] for a key that the document holds. *)
Theorem later_element_is_not_searched :
  count_key "Data" data_in_second_element = 1%nat
  /\ occurs "Data"
            (JList [JDict [("SeriesCode", JStr "A191RL");
                           ("TimePeriod", JStr "2020");
                           ("DataValue", JStr "5")]])
            data_in_second_element
  /\ fst (getitem_any_level data_in_second_element "Data" false)
     = Raise (KeyError
                "key Data was not found at any level of provided dict")
  /\ fst (getitem_any_level
            (JList [JDict [("a", JStr "1")]; JDict [("k", JStr "2")]])
            "k" false)
     = Raise (KeyError "key k was not found at any level of provided dict").
Proof.
  split; [reflexivity|]. split; [|split; reflexivity].
  unfold data_in_second_element.
  eapply occurs_below; [left; reflexivity|].
  eapply occurs_below; [left; reflexivity|].
  eapply occurs_item; [right; left; reflexivity|].
  apply occurs_here. left. reflexivity.
Qed.

(** ** The error block and the classifier *)

(** The exceptions of the steps that come before the constructor. *)
Definition key_or_type (e : exn) : Prop :=
  (exists k, e = KeyError k) \/ e = TypeError.

Lemma getitem_raises (t : json) (key : string) (pop : bool) (e : exn) :
  fst (getitem_any_level t key pop) = Raise e -> exists m, e = KeyError m.
Proof. intros H. now destruct (getitem_fails_cleanly key pop t e H). Qed.

Lemma py_getitem_raises (t : json) (key : string) (e : exn) :
  py_getitem t key = Raise e -> key_or_type e.
Proof.
  unfold py_getitem, key_or_type.
  destruct t; try (intros [= <-]; auto).
  destruct (dict_get key fields); intros [= <-]. eauto.
Qed.

Lemma py_iter_raises (t : json) (e : exn) :
  py_iter t = Raise e -> key_or_type e.
Proof. unfold key_or_type. destruct t; intros [= <-]; auto. Qed.

Lemma pydict_set_raises {V : Type} (d : pydict V) (k : json) (v : V) (e : exn) :
  pydict_set d k v = Raise e -> key_or_type e.
Proof.
  unfold pydict_set, key_or_type. destruct (hashable k); intros [= <-]; auto.
Qed.

Lemma read_request_raises (items : list json) (request : pydict json) (e : exn) :
  read_request items request = Raise e -> key_or_type e.
Proof.
  revert request. induction items as [|pdict rest IH]; intros request; simpl.
  - discriminate.
  - destruct (py_getitem pdict "ParameterValue") as [v|e1] eqn:E1; simpl;
      [|intros [= <-]; eauto using py_getitem_raises].
    destruct (py_getitem pdict "ParameterName") as [k|e2] eqn:E2; simpl;
      [|intros [= <-]; eauto using py_getitem_raises].
    destruct (pydict_set request k v) as [request'|e3] eqn:E3; simpl;
      [apply IH | intros [= <-]; eauto using pydict_set_raises].
Qed.

Section Responses.

Context {L : Libs}.

Lemma lookup_class_raises (method : json) (e : exn) :
  lookup_class method = Raise e -> key_or_type e.
Proof.
  unfold lookup_class, key_or_type.
  destruct method; try (intros [= <-]; eauto).
  destruct (response_classes s); intros [= <-]. eauto.
Qed.

(** The exception that leaves the first [try] statement is the API error,
    built from the code and the description that the locator found. *)
Lemma error_block_raises (bea_json : json) (e : exn) :
  error_block bea_json = Some e ->
  exists err code desc,
    fst (getitem_any_level bea_json "Error" false) = Ok err
    /\ fst (getitem_any_level err "APIErrorCode" false) = Ok code
    /\ fst (getitem_any_level err "APIErrorDescription" false) = Ok desc
    /\ e = BEAAPIError ("API Code: " ++ py_str code
                        ++ ". Description: " ++ py_str desc).
Proof.
  unfold error_block, BEAAPIError_init.
  destruct (fst (getitem_any_level bea_json "Error" false)) as [err|e1] eqn:E1;
    simpl.
  - destruct (fst (getitem_any_level err "APIErrorCode" false))
      as [code|e2] eqn:E2; simpl.
    + destruct (fst (getitem_any_level err "APIErrorDescription" false))
        as [desc|e3] eqn:E3; simpl.
      * intros [= <-]. exists err, code, desc. auto.
      * destruct (getitem_raises _ _ _ _ E3) as [m ->]. discriminate.
    + destruct (getitem_raises _ _ _ _ E2) as [m ->]. discriminate.
  - destruct (getitem_raises _ _ _ _ E1) as [m ->]. discriminate.
Qed.

(** An error block in which the locator finds no code or no description
    leaves the first [try] statement without an exception. *)
Lemma error_block_swallows (bea_json err : json) :
  fst (getitem_any_level bea_json "Error" false) = Ok err ->
  is_ok (fst (getitem_any_level err "APIErrorCode" false))
  && is_ok (fst (getitem_any_level err "APIErrorDescription" false)) = false ->
  error_block bea_json = None.
Proof.
  unfold error_block, BEAAPIError_init. intros -> H. simpl.
  destruct (fst (getitem_any_level err "APIErrorCode" false))
    as [code|e2] eqn:E2; simpl in *.
  - destruct (fst (getitem_any_level err "APIErrorDescription" false))
      as [desc|e3] eqn:E3; simpl in *; [discriminate|].
    now destruct (getitem_raises _ _ _ _ E3) as [m ->].
  - now destruct (getitem_raises _ _ _ _ E2) as [m ->].
Qed.

Lemma classify_raises (bea_json : json) (e : exn) :
  classify bea_json = Raise e ->
  (exists code desc,
      e = BEAAPIError ("API Code: " ++ py_str code
                       ++ ". Description: " ++ py_str desc))
  \/ key_or_type e.
Proof.
  unfold classify. intros H.
  destruct (error_block bea_json) as [e0|] eqn:B.
  - injection H as <-.
    destruct (error_block_raises _ _ B) as (err & code & desc & _ & _ & _ & ->).
    left. eauto.
  - right.
    destruct (getitem_any_level bea_json "RequestParam" true) as [r j] eqn:G.
    assert (fst (getitem_any_level bea_json "RequestParam" true) = r) as Hr
      by now rewrite G.
    destruct r as [request_parameters|e1]; simpl in *;
      [|injection H as <-; left; eauto using getitem_raises].
    destruct (py_iter request_parameters) as [items|e2] eqn:E2; simpl in *;
      [|injection H as <-; eauto using py_iter_raises].
    destruct (read_request items []) as [request|e3] eqn:E3; simpl in *;
      [|injection H as <-; eauto using read_request_raises].
    destruct (fst (getitem_any_level j "Results" false)) as [result|e4] eqn:E4;
      simpl in *; [|injection H as <-; left; eauto using getitem_raises].
    destruct (pydict_getitem request "METHOD") as [method|e5] eqn:E5;
      simpl in *.
    + destruct (lookup_class method) as [klass|e6] eqn:E6; simpl in *;
        [discriminate | injection H as <-; eauto using lookup_class_raises].
    + unfold pydict_getitem in E5.
      destruct (pydict_get request (JStr "METHOD")); [discriminate|].
      injection E5 as <-. injection H as <-. left. eauto.
Qed.


Lemma prefix_refl (s : string) : String.prefix s s = true.
Proof.
  induction s as [|c s IH]; simpl; [reflexivity|].
  destruct (ascii_dec c c); [exact IH | congruence].
Qed.

Lemma includes_self (url : string) : includes url url = true.
Proof.
  destruct url as [|a url]; simpl; [reflexivity|].
  destruct (ascii_dec a a); [|congruence].
  now rewrite prefix_refl.
Qed.

Lemma includes_prepend (p url msg : string) :
  includes url msg = true -> includes url (p ++ msg) = true.
Proof.
  intros H. induction p as [|c p IH]; simpl; [exact H|].
  rewrite IH. apply orb_true_r.
Qed.

Lemma creation_failed_includes (url : string) :
  includes url (creation_failed url) = true.
Proof.
  unfold creation_failed.
  apply includes_prepend, includes_prepend, includes_self.
Qed.

Lemma from_response_classified (response : Response) (klass : response_class)
  (request : pydict json) (result bea_json' : json) :
  classify (resp_json response) = Ok (klass, request, result, bea_json') ->
  from_response response =
  match construct klass request result (resp_url response) bea_json' with
  | Ok r => Ok r
  | Raise _ => Raise (ValueError (creation_failed (resp_url response)))
  end.
Proof.
  unfold from_response, from_response_body. intros ->. simpl.
  now destruct (construct klass request result (resp_url response) bea_json').
Qed.

Lemma from_response_unclassified (response : Response) (e : exn) :
  classify (resp_json response) = Raise e ->
  from_response response = Raise e.
Proof.
  intros H. unfold from_response, from_response_body. rewrite H. simpl.
  destruct (classify_raises _ _ H) as [(c & d & ->)|[[k ->]| ->]];
    reflexivity.
Qed.

(** C7, as amended: when the steps before the constructor have given the
    class, the request and the result block, every failure of the
    constructor of the response makes [from_response] raise a single
    [ValueError] whose message includes the URL of the request.  A
    failure of a step before the constructor is raised by
    [from_response] as it is: it is the API error with the code and the
    description of the error block, or the [KeyError] or [TypeError] of
    the step that failed (a field not located, a method without class);
    its message need not include the URL.  [from_response] fails in no
    other way, and with a failure no response is returned. *)
Theorem from_response_failure (response : Response) :
  (forall klass request result bea_json' e,
      classify (resp_json response) = Ok (klass, request, result, bea_json') ->
      construct klass request result (resp_url response) bea_json' = Raise e ->
      from_response response
      = Raise (ValueError (creation_failed (resp_url response)))
      /\ includes (resp_url response) (creation_failed (resp_url response))
         = true)
  /\ (forall e,
         classify (resp_json response) = Raise e ->
         from_response response = Raise e
         /\ ((exists code desc,
                 e = BEAAPIError ("API Code: " ++ py_str code
                                  ++ ". Description: " ++ py_str desc))
             \/ (exists k, e = KeyError k) \/ e = TypeError))
  /\ (forall e,
         from_response response = Raise e ->
         (exists klass request result bea_json' e',
             classify (resp_json response)
             = Ok (klass, request, result, bea_json')
             /\ construct klass request result (resp_url response) bea_json'
                = Raise e'
             /\ e = ValueError (creation_failed (resp_url response)))
         \/ classify (resp_json response) = Raise e).
Proof.
  split; [|split].
  - intros klass request result bea_json' e C K.
    rewrite (from_response_classified _ _ _ _ _ C), K.
    split; [reflexivity | apply creation_failed_includes].
  - intros e C. split; [exact (from_response_unclassified _ _ C)|].
    exact (classify_raises _ _ C).
  - intros e H.
    destruct (classify (resp_json response))
      as [[[[klass request] result] bea_json']|e0] eqn:C.
    + left. exists klass, request, result, bea_json'.
      rewrite (from_response_classified _ _ _ _ _ C) in H.
      destruct (construct klass request result (resp_url response) bea_json')
        as [r|e'] eqn:K; [discriminate|].
      exists e'. injection H as <-. auto.
    + right. rewrite (from_response_unclassified _ _ C) in H.
      now injection H as <-.
Qed.

End Responses.

Lemma from_response_failure_witness :
  @from_response Plain.libs (mkResponse bea_url results_without_dataset)
  = Raise (ValueError (creation_failed bea_url))
  /\ includes bea_url (creation_failed bea_url) = true.
Proof.
  eapply (proj1 (@from_response_failure Plain.libs
                   (mkResponse bea_url results_without_dataset))).
  - reflexivity.
  - reflexivity.
Defined.

(** C7, as stated, fails: the error raised for an error block carries the
    code and the description, and the URL of the request is no part of
    its message. *)
Lemma api_error_message_without_url :
  @from_response Plain.libs (mkResponse bea_url error_document)
  = Raise (BEAAPIError
             "API Code: 201. Description: Error retrieving NIPA/Fixed Assets data.")
  /\ includes bea_url
       "API Code: 201. Description: Error retrieving NIPA/Fixed Assets data."
     = false.
Proof. split; reflexivity. Qed.

(** C3, failing input: the document holds an error block with a code and
    without a description at any depth; [from_response] raises nothing
    and returns the dataset list as if the block were not there. *)
Theorem error_without_description_ignored (L : Libs) :
  count_key "Error" error_without_description = 1%nat
  /\ count_key "APIErrorDescription" error_without_description = 0%nat
  /\ error_block error_without_description = None
  /\ from_response (mkResponse bea_url error_without_description)
     = Ok (DatasetListResponse
             [(JStr "METHOD", JStr "GETDATASETLIST")]
             (JDict
                [("Error", JDict [("APIErrorCode", JStr "201")]);
                 ("Dataset",
                  JList [JDict [("DatasetName", JStr "NIPA");
                                ("DatasetDescription",
                                 JStr "Standard NIPA tables")]])])
             bea_url
             [(JStr "NIPA", JStr "Standard NIPA tables")]).
Proof. repeat split; reflexivity. Qed.

(** C10: the dictionary of classes has the five method names and no
    other, [GETPARAMETERVALUESFILTERED] among them with the class of
    [GETPARAMETERVALUES]; that class builds a parameter-values response
    of the request, the result block and the URL it is given, as it does
    for the document of the example. *)
Theorem filtered_method_builds_parameter_values (L : Libs) :
  map response_classes
      ["GETDATASETLIST"; "GETPARAMETERLIST"; "GETPARAMETERVALUES";
       "GETPARAMETERVALUESFILTERED"; "GETDATA"]
  = [Some class_DatasetListResponse; Some class_ParameterListResponse;
     Some class_ParameterValuesResponse; Some class_ParameterValuesResponse;
     Some class_DataResponse]
  /\ response_classes "GETPARAMETERVALUESFILTERED"
     = response_classes "GETPARAMETERVALUES"
  /\ lookup_class (JStr "GETPARAMETERVALUESFILTERED")
     = Ok class_ParameterValuesResponse
  /\ (forall (request : pydict json) (result : json) (url : string)
             (bea_json : json),
         match construct class_ParameterValuesResponse request result url
                         bea_json with
         | Ok (ParameterValuesResponse request' result' url' _) =>
             request' = request /\ result' = result /\ url' = url
         | Ok _ => False
         | Raise _ => True
         end)
  /\ from_response (mkResponse bea_url filtered_values_document)
     = Ok (ParameterValuesResponse
             [(JStr "METHOD", JStr "GETPARAMETERVALUESFILTERED")]
             (JDict
                [("ParamValue",
                  JList [JDict [("TableName", JStr "T10101");
                                ("Description",
                                 JStr "Table 1.1.1. Percent Change")]])])
             bea_url
             [(JStr "T10101", JStr "Table 1.1.1. Percent Change")]).
Proof.
  repeat split; try reflexivity.
  intros request result url bea_json. simpl.
  unfold ParameterValuesResponse_init.
  destruct (py_getitem result "ParamValue") as [rows|]; simpl; [|exact I].
  destruct (py_iter rows) as [items|]; simpl; [|exact I].
  destruct (read_values items []); simpl; auto.
Qed.

(** Every method name with a class is one of the five. *)
Lemma response_classes_names (method : string) (klass : response_class) :
  response_classes method = Some klass ->
  In method ["GETDATASETLIST"; "GETPARAMETERLIST"; "GETPARAMETERVALUES";
             "GETPARAMETERVALUESFILTERED"; "GETDATA"].
Proof.
  unfold response_classes.
  repeat match goal with
         | |- context [String.eqb method ?s] =>
             destruct (String.eqb_spec method s) as [->|_];
             [simpl; tauto|]
         end.
  discriminate.
Qed.

(** ** The identifier rules *)

(** The table of the rules, whatever the case of the dataset name. *)
Lemma identifier_rules_table :
  map (fun d => (series_identifiers (data_request d),
                 period_identifier (data_request d)))
      ["NIPA"; "NIUnderlyingDetail"; "FixedAssets"; "GDPbyIndustry";
       "UnderlyingGDPbyIndustry"; "ITA"; "IIP"; "IntlServTrade"; "MNE";
       "InputOutput"; "Regional"]
  = [(Ok (OneField "SeriesCode"), Ok "TimePeriod");
     (Ok (OneField "SeriesCode"), Ok "TimePeriod");
     (Ok (OneField "SeriesCode"), Ok "TimePeriod");
     (Ok (OneField "Industry"), Ok "Year");
     (Ok (OneField "Industry"), Ok "Year");
     (Ok (OneField "TimeSeriesId"), Ok "TimePeriod");
     (Ok (OneField "TimeSeriesId"), Ok "TimePeriod");
     (Ok (OneField "TimeSeriesId"), Ok "TimePeriod");
     (Ok (Fields ["SeriesID"; "RowCode"; "ColumnCode"]), Ok "Year");
     (Ok (Fields ["RowCode"; "ColCode"]), Ok "Year");
     (Ok (OneField "GeoFips"), Ok "TimePeriod")].
Proof. reflexivity. Qed.

Lemma dataset_name_text (request : pydict json) (name : string) :
  pydict_get request (JStr "DATASETNAME") = Some (JStr name) ->
  dataset_name request = Ok (lower name).
Proof. unfold dataset_name, pydict_getitem. now intros ->. Qed.

Ltac unknown_tests H :=
  unfold mem, known_datasets in H; cbn [existsb] in H;
  repeat (apply orb_false_iff in H; destruct H as [? H]);
  cbn [mem existsb];
  repeat match goal with
         | Hx : String.eqb _ _ = false |- _ => rewrite !Hx
         end.

Lemma series_identifiers_unknown (request : pydict json) (name : string) :
  pydict_get request (JStr "DATASETNAME") = Some (JStr name) ->
  mem (lower name) known_datasets = false ->
  series_identifiers request
  = Raise (ValueError ("no series identifier for " ++ lower name)).
Proof.
  intros Hname H. unfold series_identifiers.
  rewrite (dataset_name_text _ _ Hname). cbn [bind].
  unknown_tests H. reflexivity.
Qed.

Lemma period_identifier_unknown (request : pydict json) (name : string) :
  pydict_get request (JStr "DATASETNAME") = Some (JStr name) ->
  mem (lower name) known_datasets = false ->
  period_identifier request
  = Raise (ValueError ("no valid period identifier for " ++ lower name)).
Proof.
  intros Hname H. unfold period_identifier.
  rewrite (dataset_name_text _ _ Hname). cbn [bind].
  unknown_tests H. reflexivity.
Qed.

Lemma _set_unique_index_unknown (request : pydict json) (name : string)
  (df : DataFrame) :
  pydict_get request (JStr "DATASETNAME") = Some (JStr name) ->
  mem (lower name) known_datasets = false ->
  _set_unique_index request df
  = Raise (ValueError ("no series identifier for " ++ lower name)).
Proof.
  intros Hname H. unfold _set_unique_index.
  now rewrite (series_identifiers_unknown _ _ Hname H).
Qed.

Section UnknownDataset.

Context {L : Libs}.

Lemma DataResponse_init_unknown (request : pydict json) (name : string)
  (result : json) (url : string) (bea_json : json) :
  pydict_get request (JStr "DATASETNAME") = Some (JStr name) ->
  mem (lower name) known_datasets = false ->
  is_ok (DataResponse_init request result url bea_json) = false.
Proof.
  intros Hname H. unfold DataResponse_init.
  destruct (_safe_access_json_field bea_json "Dimensions" false) as [r1 j1].
  destruct r1 as [dims|]; [cbn [bind]|reflexivity].
  destruct (py_iter dims) as [items|]; [cbn [bind]|reflexivity].
  destruct (read_dimensions items []) as [dimensions|];
    [cbn [bind]|reflexivity].
  destruct (notes_block j1) as [r2 j2].
  destruct r2 as [notes|]; [cbn [bind]|reflexivity].
  destruct (_safe_access_json_field j2 "Data" true) as [r3 j3].
  destruct r3 as [data_list|]; [cbn [bind]|reflexivity].
  unfold _construct_data_and_metadata.
  destruct (pd_DataFrame data_list) as [df_md|]; [cbn [bind]|reflexivity].
  now rewrite (_set_unique_index_unknown _ _ df_md Hname H).
Qed.

(** C8: when the name under [DATASETNAME], in lower case, is none of the
    datasets of the table, [series_identifiers] and [period_identifier]
    raise the [ValueError] of an unknown dataset; the index cannot be
    set, the tables are not built once the frame of the observations is
    there, the constructor of a data response returns no response, and
    [from_response] raises its [ValueError]. *)
Theorem unknown_dataset_fails (request : pydict json) (name : string) :
  pydict_get request (JStr "DATASETNAME") = Some (JStr name) ->
  mem (lower name) known_datasets = false ->
  series_identifiers request
  = Raise (ValueError ("no series identifier for " ++ lower name))
  /\ period_identifier request
     = Raise (ValueError ("no valid period identifier for " ++ lower name))
  /\ (forall df : DataFrame,
         _set_unique_index request df
         = Raise (ValueError ("no series identifier for " ++ lower name)))
  /\ (forall (dimensions : pydict dim_dict) (notes : pydict json)
             (data : json),
         _construct_data_and_metadata request dimensions notes data
         = match pd_DataFrame data with
           | Ok _ =>
               Raise (ValueError ("no series identifier for " ++ lower name))
           | Raise e => Raise e
           end)
  /\ (forall (result : json) (url : string) (bea_json : json),
         is_ok (DataResponse_init request result url bea_json) = false)
  /\ (forall (response : Response) (result bea_json' : json),
         classify (resp_json response)
         = Ok (class_DataResponse, request, result, bea_json') ->
         from_response response
         = Raise (ValueError (creation_failed (resp_url response)))).
Proof.
  intros Hname H.
  split; [now apply series_identifiers_unknown|].
  split; [now apply period_identifier_unknown|].
  split; [intros df; now apply _set_unique_index_unknown|].
  split.
  { intros dimensions notes data. unfold _construct_data_and_metadata.
    destruct (pd_DataFrame data) as [df_md|]; [cbn [bind]|reflexivity].
    now rewrite (_set_unique_index_unknown _ _ df_md Hname H). }
  split; [intros; now apply DataResponse_init_unknown with (name := name)|].
  intros response result bea_json' C.
  rewrite (from_response_classified _ _ _ _ _ C). cbn [construct].
  pose proof (DataResponse_init_unknown request name result
                (resp_url response) bea_json' Hname H) as Hinit.
  now destruct (DataResponse_init request result (resp_url response) bea_json').
Qed.

End UnknownDataset.

Lemma unknown_dataset_fails_witness :
  series_identifiers (data_request "Census")
  = Raise (ValueError "no series identifier for census")
  /\ period_identifier (data_request "Census")
     = Raise (ValueError "no valid period identifier for census")
  /\ is_ok (@DataResponse_init Plain.libs (data_request "Census") JNull bea_url
                               dataset_list_document) = false.
Proof.
  destruct (@unknown_dataset_fails Plain.libs (data_request "Census") "Census"
              eq_refl eq_refl) as (Hs & Hp & _ & _ & Hinit & _).
  split; [exact Hs|]. split; [exact Hp|]. apply Hinit.
Defined.

(** ** The composite key *)

Lemma assoc_replace_col_same (col : string) (v : list cell)
  (cols : list (string * list cell)) :
  assoc col (replace_col col v cols) = Some v.
Proof.
  induction cols as [|[k w] rest IH]; simpl.
  - now rewrite String.eqb_refl.
  - destruct (String.eqb k col) eqn:E; simpl; now rewrite E.
Qed.

Lemma assoc_replace_col_other (col k : string) (v : list cell)
  (cols : list (string * list cell)) :
  k <> col -> assoc k (replace_col col v cols) = assoc k cols.
Proof.
  intros Hk. induction cols as [|[k' w] rest IH]; simpl.
  - destruct (String.eqb_spec col k); congruence.
  - destruct (String.eqb_spec k' col) as [->|Hc]; simpl.
    + destruct (String.eqb_spec col k); congruence.
    + now rewrite IH.
Qed.

Lemma getcol_setcol_same (df : DataFrame) (col : string) (v : list cell) :
  getcol (setcol df col v) col = Ok v.
Proof. unfold getcol, setcol. simpl. now rewrite assoc_replace_col_same. Qed.













(** ** The index through the construction of the tables *)

Lemma column_names_replace_col (col : string) (v : list cell)
  (cols : list (string * list cell)) :
  map fst (replace_col col v cols)
  = if mem col (map fst cols) then map fst cols
    else (map fst cols ++ [col])%list.
Proof.
  unfold mem. induction cols as [|[k w] rest IH]; simpl; [reflexivity|].
  rewrite (String.eqb_sym col k).
  destruct (String.eqb k col); simpl; [reflexivity|].
  rewrite IH. now destruct (existsb (String.eqb col) (map fst rest)).
Qed.

Lemma column_names_setcol (df : DataFrame) (col : string) (v : list cell) :
  column_names (setcol df col v)
  = if mem col (column_names df) then column_names df
    else (column_names df ++ [col])%list.
Proof. apply column_names_replace_col. Qed.

Lemma drop_shape (df df' : DataFrame) (names : list string) :
  drop df names = Ok df' ->
  index df' = index df /\ index_name df' = index_name df
  /\ column_names df'
     = filter (fun n => negb (mem n names)) (column_names df).
Proof.
  unfold drop. destruct (find _ names); [discriminate|].
  intros [= <-]. unfold column_names. simpl. repeat split.
  induction (columns df) as [|[k w] rest IH]; simpl; [reflexivity|].
  destruct (mem k names); simpl; now rewrite IH.
Qed.

Lemma sequence_raises {A : Type} (l : list (outcome A)) (e : exn) :
  sequence l = Raise e -> In (Raise e) l.
Proof.
  induction l as [|r rest IH]; simpl; [discriminate|].
  destruct r as [a|e']; cbn [bind]; [|intros [= ->]; now left].
  destruct (sequence rest); cbn [bind]; [discriminate|].
  intros [= ->]. right. now apply IH.
Qed.

Lemma to_numeric_raises {L : Libs} (col : list cell) (e : exn) :
  to_numeric col = Raise e -> exists m, e = ValueError m.
Proof.
  unfold to_numeric.
  destruct (sequence (map number_of_cell col)) eqn:E; [discriminate|].
  cbn [bind]. intros [= ->].
  apply sequence_raises, in_map_iff in E. destruct E as (c & Hc & _).
  destruct c; simpl in Hc; try discriminate.
  destruct (parse_number s); [discriminate|].
  destruct (out_of_range s); [injection Hc as <-; eauto|].
  destruct (suppression_mark s); [injection Hc as <-; eauto|].
  destruct (to_numeric_text s); [discriminate|]. injection Hc as <-. eauto.
Qed.

Lemma np_multiply_raises (a b : list cell) (e : exn) :
  np_multiply a b = Raise e -> e = TypeError.
Proof.
  unfold np_multiply. intros E.
  apply sequence_raises, in_map_iff in E. destruct E as ([x y] & Hxy & _).
  simpl in Hxy. destruct x, y; simpl in Hxy; congruence.
Qed.

Lemma getattr_mem (df : DataFrame) (col : string) :
  mem col (column_names df) = is_ok (getattr df col).
Proof.
  unfold getattr, column_names, mem.
  induction (columns df) as [|[k w] rest IH]; simpl; [reflexivity|].
  rewrite (String.eqb_sym col k). destruct (String.eqb k col); simpl; auto.
Qed.

Lemma sequence_length {A : Type} (l : list (outcome A)) (r : list A) :
  sequence l = Ok r -> List.length r = List.length l.
Proof.
  revert r. induction l as [|x rest IH]; intros r; simpl.
  - now intros [= <-].
  - destruct x; [cbn [bind]|discriminate].
    destruct (sequence rest) as [tl|]; [cbn [bind]|discriminate].
    intros [= <-]. simpl. now rewrite (IH tl eq_refl).
Qed.

Lemma to_numeric_length {L : Libs} (col r : list cell) :
  to_numeric col = Ok r -> List.length r = List.length col.
Proof.
  unfold to_numeric.
  destruct (sequence (map number_of_cell col)) as [nums|] eqn:E;
    [cbn [bind]|discriminate].
  intros [= <-]. apply sequence_length in E.
  now rewrite length_map, E, length_map.
Qed.

Lemma np_multiply_length (a b r : list cell) :
  np_multiply a b = Ok r ->
  List.length r = Nat.min (List.length a) (List.length b).
Proof.
  unfold np_multiply. intros E. apply sequence_length in E.
  now rewrite E, length_map, length_combine.
Qed.

Lemma assign_mask_length (mask : list bool) (col new : list cell) :
  List.length (assign_mask mask col new) = List.length col.
Proof.
  revert col new. induction mask as [|[] mask IH]; intros [|c col] new;
    simpl; try reflexivity.
  - destruct new; simpl; now rewrite IH.
  - now rewrite IH.
Qed.

Lemma height_getattr (n : nat) (df : DataFrame) (col : string)
  (v : list cell) :
  height n df -> getattr df col = Ok v -> List.length v = n.
Proof.
  unfold height, getattr. intros [_ H].
  induction H as [|[k w] rest Hw _ IH]; simpl; [discriminate|].
  destruct (String.eqb k col); [now intros [= <-] | exact IH].
Qed.

Lemma height_setcol (n : nat) (df : DataFrame) (col : string)
  (v : list cell) :
  height n df -> List.length v = n -> height n (setcol df col v).
Proof.
  unfold height, setcol. simpl. intros [Hi H] Hv. split; [exact Hi|].
  induction H as [|[k w] rest Hw Hrest IH]; simpl.
  - constructor; [exact Hv | constructor].
  - destruct (String.eqb k col); constructor; auto.
Qed.

Section TablesIndex.

Context {L : Libs}.

Lemma coerce_DataValue_shape (df df1 : DataFrame) (ty : dtype) :
  coerce_DataValue df = Ok (df1, ty) ->
  exists v, df1 = setcol df "DataValue" v
            /\ forall n, height n df -> List.length v = n.
Proof.
  unfold coerce_DataValue.
  destruct (getattr df "DataValue") as [raw|] eqn:G;
    [cbn [bind]|discriminate].
  destruct (to_numeric _) as [nums|[]] eqn:T; try discriminate.
  - intros [= <- _]. exists nums. split; [reflexivity|].
    intros n Hn. apply to_numeric_length in T.
    now rewrite T, length_map, (height_getattr n df _ _ Hn G).
  - destruct (to_numeric (filter_mask _ _)) as [nums|]; cbn [bind];
      [|discriminate].
    intros [= <- _]. eexists. split; [reflexivity|].
    intros n Hn.
    now rewrite assign_mask_length, length_map, (height_getattr n df _ _ Hn G).
Qed.

Lemma np_power10_length (expos r : list cell) :
  np_power10 expos = Ok r -> List.length r = List.length expos.
Proof.
  unfold np_power10. intros E. apply sequence_length in E.
  now rewrite E, length_map.
Qed.

Lemma np_power10_raises (expos : list cell) (e : exn) :
  np_power10 expos = Raise e -> e <> AttributeError.
Proof.
  unfold np_power10. intros E.
  apply sequence_raises, in_map_iff in E. destruct E as (c & Hc & _).
  unfold pow10_cell in Hc.
  destruct c; try discriminate; try congruence.
  destruct (forallb is_int_cell expos); [|discriminate].
  destruct (n <? 0); congruence.
Qed.

(** [rescale] puts the column [data] in the place of [DataValue], and of
    [UNIT_MULT] when the frame has it. *)
Lemma rescale_shape (df df2 : DataFrame) :
  rescale df = Ok df2 ->
  exists v,
    drop (setcol df "data" v)
         ("DataValue" :: if mem "UNIT_MULT" (column_names df)
                         then ["UNIT_MULT"] else [])
    = Ok df2
    /\ forall n, height n df -> List.length v = n.
Proof.
  unfold rescale. rewrite getattr_mem.
  match goal with
  | |- context [match ?b with Ok _ => _ | Raise _ => _ end] =>
      destruct b as [d|e] eqn:B
  end.
  - intros [= <-].
    destruct (getattr df "UNIT_MULT") as [unit_mult|] eqn:GU;
      [cbn [bind] in B|discriminate].
    destruct (to_numeric _) as [expos|] eqn:T; [cbn [bind] in B|discriminate].
    destruct (getattr df "DataValue") as [DataValue|] eqn:GD;
      [cbn [bind] in B|discriminate].
    destruct (np_power10 _) as [powers|] eqn:P; [cbn [bind] in B|discriminate].
    destruct (np_multiply _ _) as [data|] eqn:M;
      [cbn [bind] in B|discriminate].
    exists data. split; [exact B|].
    intros n Hn.
    rewrite (np_multiply_length _ _ _ M), (np_power10_length _ _ P),
      (to_numeric_length _ _ T), (height_getattr n df _ _ Hn GU),
      (height_getattr n df _ _ Hn GD).
    apply Nat.min_id.
  - destruct e; try discriminate.
    destruct (getattr df "DataValue") as [DataValue|] eqn:GD;
      [cbn [bind]|discriminate].
    destruct (getattr df "UNIT_MULT") as [unit_mult|].
    + exfalso. cbn [bind] in B.
      destruct (to_numeric unit_mult) eqn:T; cbn [bind] in B.
      * destruct (np_power10 _) eqn:P; cbn [bind] in B.
        -- destruct (np_multiply _ _) eqn:M; cbn [bind] in B.
           ++ unfold drop in B. destruct (find _ _); discriminate.
           ++ injection B as ->. now apply np_multiply_raises in M.
        -- injection B as ->. now apply np_power10_raises in P.
      * injection B as ->. apply to_numeric_raises in T.
        destruct T; discriminate.
    + intros H. exists DataValue. split; [exact H|].
      intros n Hn. exact (height_getattr n df _ _ Hn GD).
Qed.

Lemma astype_shape (df df3 : DataFrame) (dtypes : list (string * dtype)) :
  astype df dtypes = Ok df3 ->
  index df3 = index df /\ index_name df3 = index_name df
  /\ column_names df3 = column_names df.
Proof.
  unfold astype.
  destruct (astype_cols dtypes (columns df)) as [cols|] eqn:E;
    [cbn [bind]|discriminate].
  intros [= <-]. unfold column_names. simpl. repeat split.
  revert cols E. induction (columns df) as [|[k w] rest IH]; intros cols; simpl.
  - now intros [= <-].
  - destruct (match assoc k (rev dtypes) with
              | Some ty => sequence (map (astype_cell ty) w)
              | None => Ok w
              end); [cbn [bind]|discriminate].
    destruct (astype_cols dtypes rest) as [tl|]; [cbn [bind]|discriminate].
    intros [= <-]. simpl. now rewrite (IH tl eq_refl).
Qed.

Lemma period_identifier_values (request : pydict json) (p_id : string) :
  period_identifier request = Ok p_id -> p_id = "TimePeriod" \/ p_id = "Year".
Proof.
  unfold period_identifier.
  destruct (dataset_name request); [cbn [bind]|discriminate].
  repeat match goal with
         | |- context [if ?b then _ else _] => destruct b
         end;
    intros [= <-]; auto.
Qed.

(** Squeezing a frame of one column gives its value or a Series over its
    index. *)
Lemma squeeze_one_column (one : DataFrame) (col : string) (p : cell)
  (s : Series) :
  column_names one = [col] ->
  rename (squeeze one) p = Ok s ->
  s_index s = index one /\ name s = Some p.
Proof.
  unfold column_names, squeeze. destruct (columns one) as [|[n vs] [|c rest]];
    try discriminate.
  intros _. destruct vs as [|v [|v2 vs]]; simpl; try discriminate;
    intros [= <-]; auto.
Qed.

(** The Series that [_construct_data] returns for the frame of the value
    columns is indexed as that frame and named after its first period. *)
Lemma _construct_data_series (request : pydict json) (df : DataFrame)
  (p_id : string) (s : Series) :
  period_identifier request = Ok p_id ->
  (column_names df = [p_id; "DataValue"]
   \/ column_names df = [p_id; "DataValue"; "UNIT_MULT"]) ->
  _construct_data request df = Ok (PSeries s) ->
  s_index s = index df /\ s_index_name s = Some "".
Proof.
  intros Hp Hnames. unfold _construct_data. rewrite Hp.
  destruct (coerce_DataValue df) as [[df1 ty]|] eqn:C;
    [cbn [bind]|discriminate].
  destruct (coerce_DataValue_shape _ _ _ C) as (v & -> & _).
  destruct (rescale _) as [df2|] eqn:R; [cbn [bind]|discriminate].
  destruct (rescale_shape _ _ R) as (w & D & _).
  destruct (astype df2 _) as [df3|] eqn:A; [cbn [bind]|discriminate].
  destruct (getcol df3 p_id) as [periods|]; [cbn [bind]|discriminate].
  destruct (Nat.eqb (nunique periods) 1).
  - destruct periods as [|p rest]; [discriminate|].
    destruct (drop df3 [p_id]) as [one|] eqn:D1; [cbn [bind]|discriminate].
    destruct (rename (squeeze one) p) as [s'|] eqn:Q;
      [cbn [bind]|discriminate].
    intros [= <-]. simpl. split; [|reflexivity].
    destruct (drop_shape _ _ _ D1) as (I1 & _ & N1).
    destruct (astype_shape _ _ _ A) as (I3 & _ & N3).
    destruct (drop_shape _ _ _ D) as (I2 & _ & N2).
    assert (column_names one = ["data"]) as Hone.
    { rewrite N1, N3, N2, !column_names_setcol.
      destruct (period_identifier_values _ _ Hp) as [-> | ->];
        destruct Hnames as [-> | ->]; reflexivity. }
    destruct (squeeze_one_column _ _ _ _ Hone Q) as [-> _].
    rewrite I1, I3, I2. reflexivity.
  - destruct (reset_index df3); [cbn [bind]|discriminate].
    destruct (DataFormatter_format _ _); discriminate.
Qed.

Lemma filter_mask_all {A : Type} (l : list A) :
  filter_mask (map (fun _ => true) l) l = l.
Proof.
  unfold filter_mask. induction l as [|a l IH]; simpl; [reflexivity|].
  now rewrite IH.
Qed.

(** [drop_duplicates] keeps rows: one mask filters the index and every
    column. *)
Lemma drop_duplicates_rows (df : DataFrame) :
  exists mask,
    index (drop_duplicates df) = filter_mask mask (index df)
    /\ columns (drop_duplicates df)
       = map (fun kv => (fst kv, filter_mask mask (snd kv))) (columns df).
Proof.
  unfold drop_duplicates. destruct (columns df) as [|c cols] eqn:E.
  - exists (map (fun _ => true) (index df)).
    now rewrite filter_mask_all, E.
  - exists (first_seen [] (rows_of df)). simpl. auto.
Qed.


Lemma select_cols_names (cols sel : list (string * list cell))
  (names : list string) :
  select_cols cols names = Ok sel -> map fst sel = names.
Proof.
  revert sel. induction names as [|n rest IH]; intros sel; simpl.
  - now intros [= <-].
  - destruct (assoc n cols); [|discriminate].
    destruct (select_cols cols rest) as [tl|]; [cbn [bind]|discriminate].
    intros [= <-]. simpl. now rewrite (IH tl eq_refl).
Qed.

Lemma loc_names (df part : DataFrame) (names : list string) :
  loc df names = Ok part -> column_names part = names.
Proof.
  unfold loc. destruct (select_cols (columns df) names) eqn:E;
    [cbn [bind]|discriminate].
  intros [= <-]. now apply select_cols_names in E.
Qed.


End TablesIndex.



(** ** The values of a data response *)

Lemma sequence_ok_map {A B : Type} (f : A -> outcome B) (g : A -> B)
  (l : list A) :
  (forall x, f x = Ok (g x)) -> sequence (map f l) = Ok (map g l).
Proof.
  intros H. induction l as [|x rest IH]; simpl; [reflexivity|].
  now rewrite H, IH.
Qed.

Lemma digit_is_no_mark (c : ascii) :
  is_digit c = true ->
  Ascii.eqb "." c = false /\ (Ascii.eqb c "e" || Ascii.eqb c "E") = false
  /\ c <> "-"%char /\ c <> "+"%char.
Proof.
  destruct c as [[] [] [] [] [] [] [] []]; try discriminate;
    intros _; repeat split; discriminate.
Qed.

Lemma split_at_digits (p : ascii -> bool) (s : string) :
  (forall c, is_digit c = true -> p c = false) ->
  all_chars is_digit s = true -> split_at p s = (s, None).
Proof.
  intros Hp. induction s as [|c s IH]; simpl; [reflexivity|].
  intros [Hc Hs]%andb_prop. now rewrite (Hp c Hc), (IH Hs).
Qed.

Lemma digits_value_digits (s : string) (acc : Z) :
  all_chars is_digit s = true -> exists v, digits_value s acc = Some v.
Proof.
  revert acc. induction s as [|c s IH]; intros acc; simpl; [eauto|].
  intros [Hc Hs]%andb_prop. rewrite Hc. now apply IH.
Qed.

Lemma digits_value_nonneg (s : string) (acc v : Z) :
  0 <= acc -> digits_value s acc = Some v -> 0 <= v.
Proof.
  revert acc. induction s as [|c s IH]; intros acc Hacc; simpl.
  - now intros [= <-].
  - destruct (is_digit c) eqn:Hc; [|discriminate].
    apply IH. unfold is_digit in Hc.
    apply andb_prop in Hc. destruct Hc as [Hlo _].
    apply Nat.leb_le in Hlo. lia.
Qed.

(** Text for which [str.isnumeric] holds is the text of an integer that
    is not negative; it reads as that integer when it fits [int64]. *)
Lemma isnumeric_parses (s : string) :
  isnumeric s = true ->
  exists v,
    nonempty_digits s = Some v
    /\ parse_number s = (if v <? 2 ^ 63 then Some (NInt v) else None).
Proof.
  unfold isnumeric. destruct s as [|c s]; [discriminate|].
  intros Hall. pose proof Hall as [Hc Hs]%andb_prop.
  destruct (digit_is_no_mark c Hc) as (_ & _ & Hminus & Hplus).
  unfold parse_number.
  assert (strip_sign (String c s) = (1, String c s)) as ->.
  { unfold strip_sign.
    destruct c as [[] [] [] [] [] [] [] []]; try reflexivity; congruence. }
  unfold parse_mantissa.
  rewrite (split_at_digits (Ascii.eqb ".") (String c s)
             (fun x Hx => proj1 (digit_is_no_mark x Hx)) Hall).
  unfold nonempty_digits.
  destruct (digits_value_digits (String c s) 0 Hall) as [v Hv].
  rewrite Hv. cbn [option_map]. exists v. split; [reflexivity|].
  pose proof (digits_value_nonneg _ _ _ (Z.le_refl 0) Hv) as Hpos.
  unfold in_int64. rewrite Z.mul_1_l.
  destruct (Z.leb_spec (- 2 ^ 63) v); [reflexivity|lia].
Qed.

Lemma filter_mask_map {A : Type} (f : A -> bool) (l : list A) :
  filter_mask (map f l) l = filter f l.
Proof.
  unfold filter_mask. induction l as [|a l IH]; simpl; [reflexivity|].
  destruct (f a); simpl; now rewrite IH.
Qed.

Lemma sequence_ok {A : Type} (l : list (outcome A)) :
  Forall (fun r => exists a, r = Ok a) l -> exists r, sequence l = Ok r.
Proof.
  induction 1 as [|x rest [a ->] _ [r IH]]; simpl; [eauto|].
  rewrite IH. cbn [bind]. eauto.
Qed.

Section Values.

Context {L : Libs}.

(** The coercion of [DataValue] raises nothing for a column of settled
    text: what cannot be read as a number stays as text. *)
Lemma coerce_DataValue_returns (df : DataFrame) (raw : list cell) :
  getattr df "DataValue" = Ok raw ->
  Forall (fun c => settled_text (remove_commas (cell_str c)) = true) raw ->
  exists df1 ty, coerce_DataValue df = Ok (df1, ty).
Proof.
  intros G Hraw. unfold coerce_DataValue. rewrite G. cbn [bind]. cbv zeta.
  set (stripped := map (fun c => CStr (remove_commas (cell_str c))) raw).
  destruct (to_numeric stripped) as [nums|e] eqn:T; [eauto|].
  destruct (to_numeric_raises _ _ T) as [m ->].
  rewrite filter_mask_map.
  match goal with
  | |- context [to_numeric ?col] =>
      assert (exists nums, to_numeric col = Ok nums) as [nums ->]
  end; [|cbn [bind]; eauto].
  unfold to_numeric.
  match goal with
  | |- context [sequence ?l] =>
      assert (exists r, sequence l = Ok r) as [r ->]
  end; [|cbn [bind]; eauto].
  apply sequence_ok, Forall_forall. intros x Hx.
  apply in_map_iff in Hx. destruct Hx as (c & <- & Hc).
  apply filter_In in Hc. destruct Hc as [Hin Hnum].
  unfold stripped in Hin.
  apply in_map_iff in Hin. destruct Hin as (c0 & <- & Hc0).
  rewrite Forall_forall in Hraw. specialize (Hraw c0 Hc0).
  cbn [text_of number_of_cell] in *.
  unfold settled_text in Hraw. apply andb_prop in Hraw.
  destruct Hraw as [Hascii Hsmall].
  unfold str_isnumeric in Hnum. rewrite Hascii in Hnum.
  destruct (isnumeric_parses _ Hnum) as (v & Hv & ->).
  rewrite Hv in Hsmall. rewrite Hsmall. eauto.
Qed.

(** After the coercion and the rescaling the frame of the value columns
    has two columns, the period and [data], over the index it came
    with. *)
Lemma rescaled_frame (request : pydict json) (df df1 df2 : DataFrame)
  (p_id : string) (ty : dtype) :
  period_identifier request = Ok p_id ->
  (column_names df = [p_id; "DataValue"]
   \/ column_names df = [p_id; "DataValue"; "UNIT_MULT"]) ->
  coerce_DataValue df = Ok (df1, ty) ->
  rescale df1 = Ok df2 ->
  exists a w,
    df2 = mkDataFrame (index_name df) (index df) (columns_name df)
            [(p_id, a); ("data", w)]
    /\ forall n, height n df -> List.length a = n /\ List.length w = n.
Proof.
  intros Hp Hnames C R.
  destruct (coerce_DataValue_shape _ _ _ C) as (v & -> & Hv).
  destruct (rescale_shape _ _ R) as (w & D & Hw).
  destruct df as [iname idx cname cols]. unfold column_names in *.
  cbn [columns] in Hnames.
  destruct (period_identifier_values _ _ Hp) as [-> | ->];
    destruct Hnames as [Hnames | Hnames];
    destruct cols as [|[n1 a] [|[n2 dv] cols]]; try discriminate;
    (destruct cols as [|[n3 um] [|c cols]]; try discriminate);
    injection Hnames as -> ->; try subst n3;
    unfold drop, setcol in D; cbn in D; injection D as <-;
    exists a, w; (split; [reflexivity|]);
    intros n Hn; (split; [|apply Hw, height_setcol; [exact Hn | now apply Hv]]);
    destruct Hn as [_ Hn]; cbn [columns] in Hn; now inversion Hn.
Qed.

(** The cast of the columns of such a frame makes text of both of them. *)
Lemma cast_to_text (iname cname : option string) (idx a w : list cell)
  (p_id : string) (ty : dtype) :
  p_id <> "data" ->
  astype (mkDataFrame iname idx cname [(p_id, a); ("data", w)])
         (combine [p_id; "data"] [D_str; D_str; ty])
  = Ok (mkDataFrame iname idx cname
          [(p_id, map (fun c => CStr (cell_str c)) a);
           ("data", map (fun c => CStr (cell_str c)) w)]).
Proof.
  intros Hp. unfold astype. cbn [columns combine astype_cols rev app assoc].
  destruct (String.eqb_spec "data" p_id) as [E|_]; [congruence|].
  rewrite String.eqb_refl.
  rewrite (sequence_ok_map (astype_cell D_str)
             (fun c => CStr (cell_str c)) a) by reflexivity.
  cbn [bind]. rewrite String.eqb_refl.
  rewrite (sequence_ok_map (astype_cell D_str)
             (fun c => CStr (cell_str c)) w) by reflexivity.
  reflexivity.
Qed.

Lemma text_column (col : list cell) :
  Forall (fun c => is_text c = true) (map (fun c => CStr (cell_str c)) col).
Proof. induction col; simpl; constructor; auto. Qed.

(** Whatever the observations, the values of the Series that
    [_construct_data] returns are text: the cast meant for the period
    reaches the column [data]. *)
Lemma series_values_are_text (request : pydict json) (df : DataFrame)
  (p_id : string) (s : Series) :
  period_identifier request = Ok p_id ->
  (column_names df = [p_id; "DataValue"]
   \/ column_names df = [p_id; "DataValue"; "UNIT_MULT"]) ->
  _construct_data request df = Ok (PSeries s) ->
  Forall (fun c => is_text c = true) (values s).
Proof.
  intros Hp Hnames. unfold _construct_data.
  destruct (coerce_DataValue df) as [[df1 ty]|] eqn:C;
    [cbn [bind]|discriminate].
  destruct (rescale df1) as [df2|] eqn:R; [cbn [bind]|discriminate].
  destruct (rescaled_frame _ _ _ _ _ _ Hp Hnames C R) as (a & w & -> & _).
  change (column_names (mkDataFrame (index_name df) (index df)
                          (columns_name df) [(p_id, a); ("data", w)]))
    with [p_id; "data"].
  rewrite cast_to_text
    by (destruct (period_identifier_values _ _ Hp) as [-> | ->]; discriminate).
  cbn [bind]. rewrite Hp. cbn [bind].
  destruct (period_identifier_values _ _ Hp) as [-> | ->];
    cbn [getcol columns assoc String.eqb Ascii.eqb Bool.eqb bind];
    (destruct (Nat.eqb _ 1);
     [|destruct (reset_index _); [cbn [bind]|discriminate];
       destruct (DataFormatter_format _ _); discriminate]);
    (destruct a as [|p a]; [discriminate|]);
    cbn [map]; unfold drop; cbn;
    (destruct w as [|x [|y w]]; cbn; try discriminate);
    intros [= <-]; cbn [values];
    [constructor | apply (text_column (x :: y :: w))
    |constructor | apply (text_column (x :: y :: w))].
Qed.

(** One observation never gives a Series: the frame of its one value is
    squeezed to the value, which cannot be renamed. *)
Lemma one_row_is_never_built (request : pydict json) (df : DataFrame)
  (p_id : string) :
  period_identifier request = Ok p_id ->
  (column_names df = [p_id; "DataValue"]
   \/ column_names df = [p_id; "DataValue"; "UNIT_MULT"]) ->
  height 1 df ->
  is_ok (_construct_data request df) = false.
Proof.
  intros Hp Hnames Hone. unfold _construct_data.
  destruct (coerce_DataValue df) as [[df1 ty]|] eqn:C;
    [cbn [bind]|reflexivity].
  destruct (rescale df1) as [df2|] eqn:R; [cbn [bind]|reflexivity].
  destruct (rescaled_frame _ _ _ _ _ _ Hp Hnames C R) as (a & w & -> & Hlen).
  destruct (Hlen 1%nat Hone) as [Ha Hw].
  destruct a as [|p [|? ?]]; try discriminate.
  destruct w as [|x [|? ?]]; try discriminate.
  change (column_names (mkDataFrame (index_name df) (index df)
                          (columns_name df) [(p_id, [p]); ("data", [x])]))
    with [p_id; "data"].
  rewrite cast_to_text
    by (destruct (period_identifier_values _ _ Hp) as [-> | ->]; discriminate).
  cbn [bind]. rewrite Hp. cbn [bind].
  destruct (period_identifier_values _ _ Hp) as [-> | ->]; reflexivity.
Qed.

End Values.

(** C2, failing input: in the column [["12.5"; "(D)"]] the text [12.5]
    reads as the number 12.5, but [str.isnumeric] does not hold for it, so
    the coercion of the entries that look like numbers leaves it as text,
    and the values returned are the two texts.  In the column
    [["12"; "(D)"]] the fallback does read the first entry, as the float
    12.0, and the cast of the columns turns it back into text, the text
    of that float. *)
Theorem sentinel_column_stays_text (L : Libs) :
  parse_number "12.5" = Some (NFloat (25 # 2))
  /\ isnumeric "12.5" = false
  /\ coerce_DataValue sentinel_frame
     = Ok (setcol sentinel_frame "DataValue" [CStr "12.5"; CStr "(D)"],
           D_object)
  /\ _construct_data (data_request "NIPA") sentinel_frame
     = Ok (PSeries (mkSeries (Some (CStr "2020")) (Some "")
                      [CStr "A191RL"; CStr "DPCERL"]
                      [CStr "12.5"; CStr "(D)"]))
  /\ coerce_DataValue
       (data_frame ["A191RL"; "DPCERL"]
          [("TimePeriod", ["2020"; "2020"]); ("DataValue", ["12"; "(D)"])])
     = Ok (setcol (data_frame ["A191RL"; "DPCERL"]
                     [("TimePeriod", ["2020"; "2020"])])
                  "DataValue" [CFloat (inject_Z 12); CStr "(D)"],
           D_object)
  /\ _construct_data (data_request "NIPA")
       (data_frame ["A191RL"; "DPCERL"]
          [("TimePeriod", ["2020"; "2020"]); ("DataValue", ["12"; "(D)"])])
     = Ok (PSeries (mkSeries (Some (CStr "2020")) (Some "")
                      [CStr "A191RL"; CStr "DPCERL"]
                      [CStr (float_str (inject_Z 12)); CStr "(D)"])).
Proof. repeat split; reflexivity. Qed.

(** C5, failing input: for the raw value [1,234] with exponent 6 the
    column [data] holds the number 1234000000 after the rescaling, and 7
    for the raw value [7] with exponent 0; the types of the cast are
    paired with the two columns that are left, the period and [data], so
    both are cast to text, and the values returned are the texts
    [1234000000] and [7], as is the text [5] without exponent column. *)
Theorem rescaled_value_is_cast_to_text (L : Libs) :
  ('(df1, _) <- coerce_DataValue scaled_frame ;; rescale df1)
  = Ok (mkDataFrame (Some "index") [CStr "A191RC"; CStr "A191RL"] None
          [("TimePeriod", [CStr "2020"; CStr "2020"]);
           ("data", [CInt 1234000000; CInt 7])])
  /\ combine ["TimePeriod"; "data"] [D_str; D_str; D_float64]
     = [("TimePeriod", D_str); ("data", D_str)]
  /\ _construct_data (data_request "NIPA") scaled_frame
     = Ok (PSeries (mkSeries (Some (CStr "2020")) (Some "")
                      [CStr "A191RC"; CStr "A191RL"]
                      [CStr "1234000000"; CStr "7"]))
  /\ ('(df1, _) <- coerce_DataValue unscaled_frame ;; rescale df1)
     = Ok (mkDataFrame (Some "index") [CStr "A191RC"; CStr "A191RL"] None
             [("TimePeriod", [CStr "2020"; CStr "2020"]);
              ("data", [CInt 5; CInt 7])])
  /\ _construct_data (data_request "NIPA") unscaled_frame
     = Ok (PSeries (mkSeries (Some (CStr "2020")) (Some "")
                      [CStr "A191RC"; CStr "A191RL"]
                      [CStr "5"; CStr "7"])).
Proof. repeat split; reflexivity. Qed.

(** C4, failing input: one observation has one period, and squeezing the
    frame of its one value gives the value, not a Series; the value has
    no [rename], so [_construct_data] raises [AttributeError] and the
    response is not built.  With a second observation of the same period
    the Series is there. *)
Theorem one_observation_has_no_vector (L : Libs) :
  nunique [CStr "2020"] = 1%nat
  /\ squeeze (mkDataFrame (Some "index") [CStr "01000"] None
                [("data", [CStr "5"])])
     = SqScalar (CStr "5")
  /\ _construct_data (data_request "Regional") one_row_frame
     = Raise AttributeError
  /\ @from_response Plain.libs
       (mkResponse bea_url
          (regional_document [observation "01000" "2020" "5"]))
     = Raise (ValueError (creation_failed bea_url))
  /\ match @from_response Plain.libs
             (mkResponse bea_url
                (regional_document [observation "01000" "2020" "5";
                                    observation "02000" "2020" "6"])) with
     | Ok (DataResponse _ _ _ _ _ _ data _) =>
         data = PSeries (mkSeries (Some (CStr "2020")) (Some "")
                           [CStr "01000"; CStr "02000"]
                           [CStr "5"; CStr "6"])
     | _ => False
     end.
Proof. repeat split; reflexivity. Qed.

(** * Further properties

    ** The locator *)

(** X1: a search without removal leaves the document as it was, whether
    it finds the key or not. *)
Theorem search_without_pop_keeps_document (t : json) (key : string) :
  snd (getitem_any_level t key false) = t.
Proof. apply getitem_no_pop. Qed.

(** X2: a search that fails raises [KeyError] and nothing else, and
    leaves the document as it was, also when it was asked to remove. *)
Theorem failed_search_changes_nothing (t : json) (key : string) (pop : bool)
  (e : exn) :
  fst (getitem_any_level t key pop) = Raise e ->
  (exists m, e = KeyError m) /\ snd (getitem_any_level t key pop) = t.
Proof. apply getitem_fails_cleanly. Qed.

Lemma failed_search_changes_nothing_witness :
  (exists m,
      KeyError "key Notes was not found at any level of provided dict"
      = KeyError m)
  /\ snd (getitem_any_level dataset_list_document "Notes" true)
     = dataset_list_document.
Proof.
  apply (failed_search_changes_nothing dataset_list_document "Notes" true).
  reflexivity.
Defined.

(** X3: what a search returns is the value of a field of the document
    that has the key as its name. *)
Theorem found_value_is_a_field (t v : json) (key : string) (pop : bool) :
  fst (getitem_any_level t key pop) = Ok v -> occurs key v t.
Proof. apply getitem_sound. Qed.

Lemma found_value_is_a_field_witness :
  occurs "APIErrorCode" (JStr "201") error_document.
Proof.
  apply (found_value_is_a_field error_document (JStr "201") "APIErrorCode"
           false).
  reflexivity.
Defined.

(** X4: in a document whose lists have one element at most, a field that
    occurs at any depth is found. *)
Theorem wrapped_field_is_found (t : json) (key : string) (pop : bool) :
  short_lists t = true ->
  (0 < count_key key t)%nat ->
  exists v, fst (getitem_any_level t key pop) = Ok v.
Proof. apply getitem_finds. Qed.

Lemma wrapped_field_is_found_witness :
  exists v,
    fst (getitem_any_level (JList [JDict [("Results", JList [error_document])]])
           "APIErrorDescription" false) = Ok v.
Proof.
  apply (wrapped_field_is_found
           (JList [JDict [("Results", JList [error_document])]])
           "APIErrorDescription" false).
  - reflexivity.
  - simpl. lia.
Defined.

(** X5: whether a key is found, and the value found, do not depend on the
    removal flag. *)
Theorem removal_flag_does_not_change_result (t : json) (key : string) :
  fst (getitem_any_level t key true) = fst (getitem_any_level t key false).
Proof. apply getitem_pop_irrelevant. Qed.

Lemma dict_del_conserves (key name : string) (fields : list (string * json))
  (v : json) :
  dict_get key fields = Some v ->
  count_fields name fields
  = (count_fields name (dict_del key fields)
     + (if String.eqb key name then 1 else 0) + count_key name v)%nat.
Proof.
  induction fields as [|[k w] rest IH]; simpl; [discriminate|].
  destruct (String.eqb_spec k key) as [->|Hk].
  - intros [= ->]. lia.
  - intros H. simpl. rewrite (IH H). lia.
Qed.

Lemma search_values_conserves (key : string) (fields : list (string * json)) :
  Forall (fun kv => conserves key (snd kv)) fields ->
  forall v,
    fst (search_values (fun d => getitem_any_level d key true) key fields)
    = Ok v ->
    forall name,
      count_fields name fields
      = (count_fields name
           (snd (search_values (fun d => getitem_any_level d key true)
                   key fields))
         + (if String.eqb key name then 1 else 0) + count_key name v)%nat.
Proof.
  induction 1 as [|[k sub] rest Hsub _ IH]; intros v; simpl; [discriminate|].
  unfold conserves in Hsub. simpl in Hsub.
  pose proof (getitem_fails_cleanly key true sub) as Hclean.
  unfold fails_cleanly in Hclean.
  destruct (getitem_any_level sub key true) as [[w|e] sub'] eqn:E; simpl in *.
  - intros [= ->] name. rewrite (Hsub v eq_refl name). lia.
  - destruct (Hclean e eq_refl) as [[m ->] ->].
    destruct (search_values _ key rest) as [r rest'] eqn:S; simpl in *.
    intros -> name. rewrite (IH v eq_refl name). lia.
Qed.

Lemma getitem_conserves (key : string) (t : json) : conserves key t.
Proof.
  induction t as [| | | |items IH|fields IH] using json_nested_ind;
    unfold conserves; intros v; try discriminate.
  - destruct items as [|d rest]; [discriminate|].
    rewrite getitem_list_cons. inversion IH as [|? ? Hd _]; subst.
    unfold conserves in Hd.
    destruct (getitem_any_level d key true) as [r d'] eqn:E.
    cbn [fst snd] in *.
    intros -> name. rewrite !count_key_list_cons.
    rewrite (Hd v eq_refl name). lia.
  - rewrite getitem_dict.
    destruct (dict_get key fields) as [w|] eqn:G; cbn [fst snd].
    + intros [= ->] name. rewrite !count_key_dict.
      now apply dict_del_conserves.
    + pose proof (search_values_conserves key fields IH v) as H.
      destruct (search_values _ key fields) as [r fields']; cbn [fst snd] in *.
      intros -> name. rewrite !count_key_dict. now apply H.
Qed.

(** X6: a search with removal that succeeds takes exactly the field it
    returns out of the document: for every field name, the fields of that
    name in the document before the call are the ones left after it, the
    removed field itself when it has that name, and the ones inside the
    value returned. *)
Theorem removal_takes_one_field (t v : json) (key name : string) :
  fst (getitem_any_level t key true) = Ok v ->
  count_key name t
  = (count_key name (snd (getitem_any_level t key true))
     + (if String.eqb key name then 1 else 0)
     + count_key name v)%nat.
Proof. intros H. now apply getitem_conserves. Qed.

Lemma removal_takes_one_field_witness :
  count_key "ParameterName" dataset_list_document
  = (count_key "ParameterName"
       (snd (getitem_any_level dataset_list_document "RequestParam" true))
     + 0
     + count_key "ParameterName"
         (JList [JDict [("ParameterName", JStr "METHOD");
                        ("ParameterValue", JStr "GETDATASETLIST")]]))%nat.
Proof.
  apply (removal_takes_one_field dataset_list_document _ "RequestParam"
           "ParameterName").
  reflexivity.
Defined.

Lemma search_values_first (key : string) (pop : bool)
  (pre post : list (string * json)) (k : string) (sub v : json) :
  Forall (fun kv => is_ok (fst (getitem_any_level (snd kv) key pop)) = false)
         pre ->
  fst (getitem_any_level sub key pop) = Ok v ->
  fst (search_values (fun d => getitem_any_level d key pop) key
         (pre ++ (k, sub) :: post)%list) = Ok v.
Proof.
  intros Hpre Hsub. induction Hpre as [|[k0 s0] pre H0 _ IH]; simpl.
  - destruct (getitem_any_level sub key pop) as [r sub']; simpl in *.
    now subst.
  - simpl in H0.
    pose proof (getitem_fails_cleanly key pop s0) as Hclean.
    unfold fails_cleanly in Hclean.
    destruct (getitem_any_level s0 key pop) as [[w|e] s0']; simpl in *;
      [discriminate|].
    destruct (Hclean e eq_refl) as [[m ->] _].
    destruct (search_values _ key (pre ++ (k, sub) :: post)%list).
    exact IH.
Qed.

(** X7: the values of a dictionary are searched in insertion order and
    the first success is returned: when the key is no field of the
    dictionary itself and the search fails in every value before the one
    in which it succeeds, the result is the result of that value,
    whatever comes after it. *)
Theorem first_successful_value_wins (key : string) (pop : bool)
  (pre post : list (string * json)) (k : string) (sub v : json) :
  dict_get key (pre ++ (k, sub) :: post)%list = None ->
  Forall (fun kv => is_ok (fst (getitem_any_level (snd kv) key pop)) = false)
         pre ->
  fst (getitem_any_level sub key pop) = Ok v ->
  fst (getitem_any_level (JDict (pre ++ (k, sub) :: post)%list) key pop) = Ok v.
Proof.
  intros Hnone Hpre Hsub. rewrite getitem_dict, Hnone.
  pose proof (search_values_first key pop pre post k sub v Hpre Hsub) as H.
  destruct (search_values _ key (pre ++ (k, sub) :: post)%list).
  exact H.
Qed.

Lemma first_successful_value_wins_witness :
  fst (getitem_any_level
         (JDict ([("Request", request_param "GETDATA")]
                 ++ ("Results", JDict [("Data", JStr "first")])
                    :: [("Data2", JDict [("Data", JStr "second")])])%list)
         "Data" false)
  = Ok (JStr "first").
Proof.
  apply (first_successful_value_wins "Data" false
           [("Request", request_param "GETDATA")]
           [("Data2", JDict [("Data", JStr "second")])]
           "Results" (JDict [("Data", JStr "first")]) (JStr "first")).
  - reflexivity.
  - repeat constructor.
  - reflexivity.
Defined.

(** ** Dictionaries built by the loops *)

Lemma key_eqb_text (k0 k : json) (s : string) :
  key_eqb k0 k = true -> key_eqb k0 (JStr s) = key_eqb k (JStr s).
Proof.
  destruct k0, k; simpl; try discriminate; try reflexivity.
  intros H. apply String.eqb_eq in H. now subst.
Qed.

Lemma pydict_get_put_text {V : Type} (d : pydict V) (k : json) (v : V)
  (s : string) :
  pydict_get (pydict_put d k v) (JStr s)
  = if key_eqb k (JStr s) then Some v else pydict_get d (JStr s).
Proof.
  induction d as [|[k0 w] rest IH]; simpl; [reflexivity|].
  destruct (key_eqb k0 k) eqn:E; simpl.
  - rewrite (key_eqb_text _ _ s E). now destruct (key_eqb k (JStr s)).
  - rewrite IH. destruct (key_eqb k0 (JStr s)) eqn:E0; [|reflexivity].
    destruct (key_eqb k (JStr s)) eqn:E1; [|reflexivity].
    destruct k0, k; simpl in *; try discriminate.
    apply String.eqb_eq in E0, E1. subst. now rewrite String.eqb_refl in E.
Qed.

Lemma pydict_get_puts {V : Type} (kvs : list (json * V)) (d : pydict V)
  (s : string) :
  pydict_get (puts kvs d) (JStr s)
  = match last_value s kvs with
    | Some v => Some v
    | None => pydict_get d (JStr s)
    end.
Proof.
  revert d. induction kvs as [|[k v] rest IH]; intros d; [reflexivity|].
  unfold puts in *. simpl. rewrite IH.
  destruct (last_value s rest); [reflexivity|].
  rewrite pydict_get_put_text. now destruct (key_eqb k (JStr s)).
Qed.

Lemma read_request_puts (items : list json) (kvs : list (json * json))
  (request : pydict json) :
  Forall2 (fun item kv =>
             py_getitem item "ParameterValue" = Ok (snd kv)
             /\ py_getitem item "ParameterName" = Ok (fst kv)
             /\ hashable (fst kv) = true) items kvs ->
  read_request items request = Ok (puts kvs request).
Proof.
  intros H. revert request.
  induction H as [|item [k v] items kvs (Hv & Hk & Hh) _ IH]; intros request;
    [reflexivity|].
  simpl in *. rewrite Hv, Hk. cbn [bind]. unfold pydict_set. rewrite Hh.
  cbn [bind]. apply IH.
Qed.

(** ** from_response *)

(** X8: the request parameters are turned into a dictionary in which
    every parameter name has the value of the last pair that names it. *)
Theorem request_has_last_values (items : list json) (kvs : list (json * json)) :
  Forall2 (fun item kv =>
             py_getitem item "ParameterValue" = Ok (snd kv)
             /\ py_getitem item "ParameterName" = Ok (fst kv)
             /\ hashable (fst kv) = true) items kvs ->
  exists request,
    read_request items [] = Ok request
    /\ forall pname, pydict_get request (JStr pname) = last_value pname kvs.
Proof.
  intros H. exists (puts kvs []). split; [now apply read_request_puts|].
  intros pname. rewrite pydict_get_puts. now destruct (last_value pname kvs).
Qed.

Lemma request_has_last_values_witness :
  exists request,
    read_request
      [JDict [("ParameterName", JStr "YEAR"); ("ParameterValue", JStr "2019")];
       JDict [("ParameterValue", JStr "GETDATA"); ("ParameterName", JStr "METHOD")];
       JDict [("ParameterName", JStr "YEAR"); ("ParameterValue", JStr "2020")]]
      [] = Ok request
    /\ forall pname,
        pydict_get request (JStr pname)
        = last_value pname [(JStr "YEAR", JStr "2019");
                            (JStr "METHOD", JStr "GETDATA");
                            (JStr "YEAR", JStr "2020")].
Proof.
  apply request_has_last_values.
  repeat constructor.
Defined.

Lemma prefix_append (x rest : string) : String.prefix x (x ++ rest) = true.
Proof.
  induction x as [|c x IH]; simpl; [now destruct rest|].
  destruct (ascii_dec c c); [exact IH | congruence].
Qed.

Lemma includes_of_prefix (x msg : string) :
  String.prefix x msg = true -> includes x msg = true.
Proof. intros H. destruct msg; cbn [includes]; now rewrite H. Qed.

Lemma includes_head (x rest : string) : includes x (x ++ rest) = true.
Proof. apply includes_of_prefix, prefix_append. Qed.

Section ResponsesMore.

Context {L : Libs}.

Lemma classify_checked (bea_json : json) (e : exn) :
  error_block bea_json = None ->
  classify bea_json = Raise e -> (exists k, e = KeyError k) \/ e = TypeError.
Proof.
  intros B H.
  destruct (classify_raises _ _ H) as [(code & desc & ->)|Hk]; [|exact Hk].
  exfalso. unfold classify in H. rewrite B in H.
  destruct (getitem_any_level bea_json "RequestParam" true) as [r j] eqn:G.
  assert (fst (getitem_any_level bea_json "RequestParam" true) = r) as Hr
    by now rewrite G.
  destruct r as [request_parameters|e1]; cbn [bind] in H.
  - destruct (py_iter request_parameters) as [items|e2] eqn:E2;
      cbn [bind] in H;
      [|injection H as ->; destruct (py_iter_raises _ _ E2) as [[k Hk]|Hk];
        discriminate].
    destruct (read_request items []) as [request|e3] eqn:E3; cbn [bind] in H;
      [|injection H as ->;
        destruct (read_request_raises _ _ _ E3) as [[k Hk]|Hk]; discriminate].
    destruct (fst (getitem_any_level j "Results" false)) as [result|e4] eqn:E4;
      cbn [bind] in H;
      [|injection H as ->; destruct (getitem_raises _ _ _ _ E4); discriminate].
    destruct (pydict_getitem request "METHOD") as [method|e5] eqn:E5;
      cbn [bind] in H.
    + destruct (lookup_class method) as [klass|e6] eqn:E6; cbn [bind] in H;
        [discriminate|].
      injection H as ->.
      destruct (lookup_class_raises _ _ E6) as [[k Hk]|Hk]; discriminate.
    + unfold pydict_getitem in E5.
      destruct (pydict_get request (JStr "METHOD")); [discriminate|].
      injection E5 as <-. discriminate.
  - injection H as ->. destruct (getitem_raises _ _ _ _ Hr). discriminate.
Qed.

(** X9: when the locator finds an [Error] block, and in it a code and a
    description, [from_response] raises the API error, whatever else the
    document holds; its message includes the text of the code and the
    text of the description. *)
Theorem api_error_is_raised (response : Response) (err code desc : json) :
  fst (getitem_any_level (resp_json response) "Error" false) = Ok err ->
  fst (getitem_any_level err "APIErrorCode" false) = Ok code ->
  fst (getitem_any_level err "APIErrorDescription" false) = Ok desc ->
  from_response response
  = Raise (BEAAPIError ("API Code: " ++ py_str code
                        ++ ". Description: " ++ py_str desc))
  /\ includes (py_str code)
       ("API Code: " ++ py_str code ++ ". Description: " ++ py_str desc)
     = true
  /\ includes (py_str desc)
       ("API Code: " ++ py_str code ++ ". Description: " ++ py_str desc)
     = true.
Proof.
  intros He Hc Hd. split; [|split].
  - apply from_response_unclassified.
    unfold classify, error_block, BEAAPIError_init.
    rewrite He. cbn [bind]. rewrite Hc, Hd. reflexivity.
  - apply includes_prepend, includes_head.
  - apply includes_prepend, includes_prepend, includes_prepend, includes_self.
Qed.


(** X10: [from_response] raises the API error only for a document in which
    a field [Error] occurs whose value holds a field [APIErrorCode] and a
    field [APIErrorDescription]; the message is made of their values. *)
Theorem api_error_needs_error_block (response : Response) (msg : string) :
  from_response response = Raise (BEAAPIError msg) ->
  exists err code desc,
    occurs "Error" err (resp_json response)
    /\ occurs "APIErrorCode" code err
    /\ occurs "APIErrorDescription" desc err
    /\ msg = "API Code: " ++ py_str code ++ ". Description: " ++ py_str desc.
Proof.
  intros H.
  destruct (classify (resp_json response))
    as [[[[klass request] result] bea_json']|e] eqn:C.
  - rewrite (from_response_classified _ _ _ _ _ C) in H.
    destruct (construct _ _ _ _ _); discriminate.
  - rewrite (from_response_unclassified _ _ C) in H. injection H as ->.
    destruct (error_block (resp_json response)) as [e0|] eqn:B.
    + assert (e0 = BEAAPIError msg) as ->
        by (unfold classify in C; rewrite B in C; congruence).
      destruct (error_block_raises _ _ B)
        as (err & code & desc & He & Hc & Hd & Hm).
      exists err, code, desc. injection Hm as ->.
      repeat split; eapply getitem_sound; eassumption.
    + destruct (classify_checked _ _ B C) as [[k Hk]|Hk]; discriminate.
Qed.


Lemma construct_attributes (klass : response_class) (request : pydict json)
  (result : json) (url : string) (bea_json : json) (r : BEAResponse) :
  construct klass request result url bea_json = Ok r ->
  class_of r = klass /\ response_url r = url /\ response_request r = request.
Proof.
  destruct klass; simpl.
  - unfold DatasetListResponse_init.
    destruct (py_getitem result "Dataset"); [cbn [bind]|discriminate].
    destruct (py_iter _); [cbn [bind]|discriminate].
    destruct (read_datasets _ _); [cbn [bind]|discriminate].
    intros [= <-]. auto.
  - unfold ParameterListResponse_init.
    destruct (py_getitem result "Parameter"); [cbn [bind]|discriminate].
    destruct (py_iter _); [cbn [bind]|discriminate].
    destruct (read_parameters _ _) as [[items' parameters]|];
      [cbn [bind]|discriminate].
    intros [= <-]. auto.
  - unfold ParameterValuesResponse_init.
    destruct (py_getitem result "ParamValue"); [cbn [bind]|discriminate].
    destruct (py_iter _); [cbn [bind]|discriminate].
    destruct (read_values _ _); [cbn [bind]|discriminate].
    intros [= <-]. auto.
  - unfold DataResponse_init.
    destruct (_safe_access_json_field bea_json "Dimensions" false) as [r1 j1].
    destruct r1; [cbn [bind]|discriminate].
    destruct (py_iter _); [cbn [bind]|discriminate].
    destruct (read_dimensions _ _); [cbn [bind]|discriminate].
    destruct (notes_block j1) as [r2 j2].
    destruct r2; [cbn [bind]|discriminate].
    destruct (_safe_access_json_field j2 "Data" true) as [r3 j3].
    destruct r3; [cbn [bind]|discriminate].
    destruct (_construct_data_and_metadata _ _ _ _) as [[df md]|];
      [cbn [bind]|discriminate].
    intros [= <-]. auto.
Qed.

(** What [classify] returns: the request it built has the method of the
    class, the request parameters are out of the document it hands on,
    and the result block is located in that document. *)
Lemma classify_returns (bea_json bea_json' result : json)
  (klass : response_class) (request : pydict json) :
  classify bea_json = Ok (klass, request, result, bea_json') ->
  (exists m, pydict_get request (JStr "METHOD") = Some (JStr m)
             /\ response_classes m = Some klass)
  /\ (exists params,
         fst (getitem_any_level bea_json "RequestParam" true) = Ok params
         /\ bea_json' = snd (getitem_any_level bea_json "RequestParam" true))
  /\ fst (getitem_any_level bea_json' "Results" false) = Ok result.
Proof.
  unfold classify.
  destruct (error_block bea_json); [discriminate|].
  destruct (getitem_any_level bea_json "RequestParam" true) as [r j].
  destruct r as [params|]; [cbn [bind]|discriminate].
  destruct (py_iter params); [cbn [bind]|discriminate].
  destruct (read_request _ _) as [rq|]; [cbn [bind]|discriminate].
  destruct (fst (getitem_any_level j "Results" false)) as [res|] eqn:R;
    [cbn [bind]|discriminate].
  unfold pydict_getitem.
  destruct (pydict_get rq (JStr "METHOD")) as [method|] eqn:M;
    [cbn [bind]|discriminate].
  destruct (lookup_class method) as [k|] eqn:K; [cbn [bind]|discriminate].
  intros [= <- <- <- <-].
  split; [|split; [exists params; auto | exact R]].
  unfold lookup_class in K. destruct method; try discriminate.
  destruct (response_classes s) eqn:Rc; [|discriminate].
  injection K as <-. eauto.
Qed.

(** X11: the response that [from_response] returns is of the class that
    [response_classes] gives for the value of [METHOD] in the request
    parameters of the document, a text; it has the URL of the HTTP
    response and the request built from these parameters. *)
Theorem response_matches_method (response : Response) (r : BEAResponse) :
  from_response response = Ok r ->
  response_url r = resp_url response
  /\ exists m,
      pydict_get (response_request r) (JStr "METHOD") = Some (JStr m)
      /\ response_classes m = Some (class_of r).
Proof.
  intros H.
  destruct (classify (resp_json response))
    as [[[[klass request] result] bea_json']|e] eqn:C.
  - rewrite (from_response_classified _ _ _ _ _ C) in H.
    destruct (construct klass request result (resp_url response) bea_json')
      as [r'|] eqn:K; [|discriminate].
    injection H as ->.
    destruct (construct_attributes _ _ _ _ _ _ K) as (-> & -> & ->).
    split; [reflexivity|].
    exact (proj1 (classify_returns _ _ _ _ _ C)).
  - rewrite (from_response_unclassified _ _ C) in H. discriminate.
Qed.

(** X12: a document without a field [Error] and without a field
    [RequestParam] makes [from_response] raise [KeyError]. *)
Theorem missing_request_parameters (response : Response) :
  count_key "Error" (resp_json response) = 0%nat ->
  count_key "RequestParam" (resp_json response) = 0%nat ->
  exists m, from_response response = Raise (KeyError m).
Proof.
  intros He Hr.
  destruct (getitem_absent "Error" false _ He) as [m1 H1].
  destruct (getitem_absent "RequestParam" true _ Hr) as [m2 H2].
  exists m2. apply from_response_unclassified.
  unfold classify, error_block. rewrite H1. cbn [bind].
  destruct (getitem_any_level (resp_json response) "RequestParam" true).
  simpl in H2. now subst.
Qed.

(** X13: the document that [from_response] hands to the constructor of
    the response is the one left by the removal of the request
    parameters: it holds fewer fields [RequestParam] than the document
    received, all its other fields are fields of the document received,
    and the result block is located in it. *)
Theorem request_parameters_are_removed (bea_json bea_json' result : json)
  (klass : response_class) (request : pydict json) :
  classify bea_json = Ok (klass, request, result, bea_json') ->
  (count_key "RequestParam" bea_json' < count_key "RequestParam" bea_json)%nat
  /\ (forall name, (count_key name bea_json' <= count_key name bea_json)%nat)
  /\ fst (getitem_any_level bea_json' "Results" false) = Ok result.
Proof.
  intros C.
  destruct (classify_returns _ _ _ _ _ C) as (_ & (params & Hp & ->) & Hres).
  pose proof (getitem_conserves "RequestParam" bea_json params Hp) as Hc.
  split; [|split; [|exact Hres]].
  - rewrite (Hc "RequestParam"). rewrite String.eqb_refl. lia.
  - intros name. rewrite (Hc name). lia.
Qed.

End ResponsesMore.

Lemma api_error_is_raised_witness :
  @from_response Plain.libs (mkResponse bea_url error_document)
  = Raise (BEAAPIError
             ("API Code: " ++ "201" ++ ". Description: "
              ++ "Error retrieving NIPA/Fixed Assets data."))
  /\ includes "201"
       ("API Code: " ++ "201" ++ ". Description: "
        ++ "Error retrieving NIPA/Fixed Assets data.") = true
  /\ includes "Error retrieving NIPA/Fixed Assets data."
       ("API Code: " ++ "201" ++ ". Description: "
        ++ "Error retrieving NIPA/Fixed Assets data.") = true.
Proof.
  apply (@api_error_is_raised Plain.libs (mkResponse bea_url error_document)
           (JDict [("APIErrorCode", JStr "201");
                   ("APIErrorDescription",
                    JStr "Error retrieving NIPA/Fixed Assets data.")])
           (JStr "201") (JStr "Error retrieving NIPA/Fixed Assets data."));
    reflexivity.
Defined.

Lemma api_error_needs_error_block_witness :
  exists err code desc,
    occurs "Error" err error_document
    /\ occurs "APIErrorCode" code err
    /\ occurs "APIErrorDescription" desc err
    /\ "API Code: 201. Description: Error retrieving NIPA/Fixed Assets data."
       = "API Code: " ++ @py_str Plain.libs code
         ++ ". Description: " ++ @py_str Plain.libs desc.
Proof.
  apply (@api_error_needs_error_block Plain.libs
           (mkResponse bea_url error_document)).
  reflexivity.
Defined.

Lemma response_matches_method_witness :
  response_url
    (DatasetListResponse
       [(JStr "METHOD", JStr "GETDATASETLIST")]
       (JDict [("Dataset",
                JList [JDict [("DatasetName", JStr "NIPA");
                              ("DatasetDescription",
                               JStr "Standard NIPA tables")]])])
       bea_url [(JStr "NIPA", JStr "Standard NIPA tables")])
  = bea_url
  /\ exists m,
      pydict_get [(JStr "METHOD", JStr "GETDATASETLIST")] (JStr "METHOD")
      = Some (JStr m)
      /\ response_classes m = Some class_DatasetListResponse.
Proof.
  apply (@response_matches_method Plain.libs
           (mkResponse bea_url dataset_list_document)).
  reflexivity.
Defined.

Lemma missing_request_parameters_witness :
  exists m,
    @from_response Plain.libs
      (mkResponse bea_url
         (JDict [("BEAAPI", JDict [("Results", JDict [("Dataset", JList [])])])]))
    = Raise (KeyError m).
Proof.
  apply (@missing_request_parameters Plain.libs); reflexivity.
Defined.

Lemma request_parameters_are_removed_witness :
  (count_key "RequestParam"
     (snd (getitem_any_level dataset_list_document "RequestParam" true))
   < count_key "RequestParam" dataset_list_document)%nat
  /\ (forall name,
         (count_key name
            (snd (getitem_any_level dataset_list_document "RequestParam" true))
          <= count_key name dataset_list_document)%nat)
  /\ fst (getitem_any_level
            (snd (getitem_any_level dataset_list_document "RequestParam" true))
            "Results" false)
     = Ok (JDict [("Dataset",
                   JList [JDict [("DatasetName", JStr "NIPA");
                                 ("DatasetDescription",
                                  JStr "Standard NIPA tables")]])]).
Proof.
  apply (@request_parameters_are_removed Plain.libs dataset_list_document _ _
           class_DatasetListResponse
           [(JStr "METHOD", JStr "GETDATASETLIST")]).
  reflexivity.
Defined.

(** ** The builders of the lists *)

Lemma read_datasets_puts (items : list json) (kvs : list (json * json))
  (datasets : pydict json) :
  Forall2 (fun item kv =>
             py_getitem item "DatasetDescription" = Ok (snd kv)
             /\ py_getitem item "DatasetName" = Ok (fst kv)
             /\ hashable (fst kv) = true) items kvs ->
  read_datasets items datasets = Ok (puts kvs datasets).
Proof.
  intros H. revert datasets.
  induction H as [|item [k v] items kvs (Hv & Hk & Hh) _ IH]; intros datasets;
    [reflexivity|].
  simpl in *. rewrite Hv, Hk. cbn [bind]. unfold pydict_set. rewrite Hh.
  cbn [bind]. apply IH.
Qed.

(** X14: a result block whose [Dataset] is a list of rows with a name and
    a description gives the dataset list response in which every name has
    the description of the last row of that name. *)
Theorem dataset_list_has_last_descriptions (request : pydict json)
  (result : json) (url : string) (items : list json)
  (kvs : list (json * json)) :
  py_getitem result "Dataset" = Ok (JList items) ->
  Forall2 (fun item kv =>
             py_getitem item "DatasetDescription" = Ok (snd kv)
             /\ py_getitem item "DatasetName" = Ok (fst kv)
             /\ hashable (fst kv) = true) items kvs ->
  exists datasets,
    DatasetListResponse_init request result url
    = Ok (DatasetListResponse request result url datasets)
    /\ forall dname, pydict_get datasets (JStr dname) = last_value dname kvs.
Proof.
  intros Hd H. exists (puts kvs []). split.
  - unfold DatasetListResponse_init. rewrite Hd. cbn [bind py_iter].
    now rewrite (read_datasets_puts _ _ [] H).
  - intros dname. rewrite pydict_get_puts. now destruct (last_value dname kvs).
Qed.

Lemma dataset_list_has_last_descriptions_witness :
  exists datasets,
    DatasetListResponse_init [(JStr "METHOD", JStr "GETDATASETLIST")]
      (JDict [("Dataset",
               JList [JDict [("DatasetName", JStr "NIPA");
                             ("DatasetDescription",
                              JStr "Standard NIPA tables")]])])
      bea_url
    = Ok (DatasetListResponse [(JStr "METHOD", JStr "GETDATASETLIST")]
            (JDict [("Dataset",
                     JList [JDict [("DatasetName", JStr "NIPA");
                                   ("DatasetDescription",
                                    JStr "Standard NIPA tables")]])])
            bea_url datasets)
    /\ forall dname,
        pydict_get datasets (JStr dname)
        = last_value dname [(JStr "NIPA", JStr "Standard NIPA tables")].
Proof.
  apply dataset_list_has_last_descriptions
    with (items := [JDict [("DatasetName", JStr "NIPA");
                           ("DatasetDescription",
                            JStr "Standard NIPA tables")]]).
  - reflexivity.
  - repeat constructor.
Defined.

Lemma read_parameters_puts (items : list json) (kvs : list (json * json))
  (parameters : pydict json) :
  Forall2 (fun item kv =>
             exists fields,
               item = JDict fields
               /\ dict_get "ParameterName" fields = Some (fst kv)
               /\ hashable (fst kv) = true
               /\ snd kv = JDict (dict_del "ParameterName" fields))
          items kvs ->
  read_parameters items parameters
  = Ok (map snd kvs, puts kvs parameters).
Proof.
  intros H. revert parameters.
  induction H as [|item [k v] items kvs (fields & -> & Hk & Hh & Hv) _ IH];
    intros parameters; [reflexivity|].
  simpl in *. rewrite Hk. unfold pydict_set. rewrite Hh. cbn [bind].
  rewrite <- Hv. rewrite IH. reflexivity.
Qed.

(** X15: a result block whose [Parameter] is a list of descriptors with a
    name gives the parameter list response in which every name has the
    last descriptor of that name, without its name field; the name field
    is removed in place, so the descriptors of the result block of the
    response are without it too. *)
Theorem parameter_list_moves_names (request : pydict json)
  (rfields : list (string * json)) (url : string) (items : list json)
  (kvs : list (json * json)) :
  dict_get "Parameter" rfields = Some (JList items) ->
  Forall2 (fun item kv =>
             exists fields,
               item = JDict fields
               /\ dict_get "ParameterName" fields = Some (fst kv)
               /\ hashable (fst kv) = true
               /\ snd kv = JDict (dict_del "ParameterName" fields))
          items kvs ->
  exists parameters,
    ParameterListResponse_init request (JDict rfields) url
    = Ok (ParameterListResponse request
            (JDict (dict_replace "Parameter" (JList (map snd kvs)) rfields))
            url parameters)
    /\ forall pname,
        pydict_get parameters (JStr pname) = last_value pname kvs.
Proof.
  intros Hd H. exists (puts kvs []). split.
  - unfold ParameterListResponse_init, py_getitem. rewrite Hd.
    cbn [bind py_iter]. now rewrite (read_parameters_puts _ _ [] H).
  - intros pname. rewrite pydict_get_puts. now destruct (last_value pname kvs).
Qed.

Lemma parameter_list_moves_names_witness :
  exists parameters,
    ParameterListResponse_init [(JStr "METHOD", JStr "GETPARAMETERLIST")]
      (JDict [("Parameter",
               JList [JDict [("ParameterName", JStr "Year");
                             ("ParameterDataType", JStr "integer")]])])
      bea_url
    = Ok (ParameterListResponse [(JStr "METHOD", JStr "GETPARAMETERLIST")]
            (JDict (dict_replace "Parameter"
                      (JList (map snd
                                [(JStr "Year",
                                  JDict [("ParameterDataType",
                                          JStr "integer")])]))
                      [("Parameter",
                        JList [JDict [("ParameterName", JStr "Year");
                                      ("ParameterDataType",
                                       JStr "integer")]])]))
            bea_url parameters)
    /\ forall pname,
        pydict_get parameters (JStr pname)
        = last_value pname
            [(JStr "Year", JDict [("ParameterDataType", JStr "integer")])].
Proof.
  apply parameter_list_moves_names
    with (items := [JDict [("ParameterName", JStr "Year");
                           ("ParameterDataType", JStr "integer")]]).
  - reflexivity.
  - repeat constructor. eexists. repeat split.
Defined.

Lemma read_values_puts (items : list json) (kvs : list (json * json))
  (parameters : pydict json) :
  Forall2 (fun item kv =>
             exists k1 k2,
               item = JDict [(k1, fst kv); (k2, snd kv)]
               /\ hashable (fst kv) = true) items kvs ->
  read_values items parameters = Ok (puts kvs parameters).
Proof.
  intros H. revert parameters.
  induction H as [|item [k v] items kvs (k1 & k2 & -> & Hh) _ IH];
    intros parameters; [reflexivity|].
  simpl in *. unfold pydict_set. rewrite Hh. cbn [bind]. apply IH.
Qed.

(** X16: the rows of [ParamValue] are read by position, whatever the
    names of their two fields: every value of a first field has the value
    of the second field of the last row that begins with it. *)
Theorem parameter_values_are_positional (request : pydict json)
  (result : json) (url : string) (items : list json)
  (kvs : list (json * json)) :
  py_getitem result "ParamValue" = Ok (JList items) ->
  Forall2 (fun item kv =>
             exists k1 k2,
               item = JDict [(k1, fst kv); (k2, snd kv)]
               /\ hashable (fst kv) = true) items kvs ->
  exists parameters,
    ParameterValuesResponse_init request result url
    = Ok (ParameterValuesResponse request result url parameters)
    /\ forall value,
        pydict_get parameters (JStr value) = last_value value kvs.
Proof.
  intros Hd H. exists (puts kvs []). split.
  - unfold ParameterValuesResponse_init. rewrite Hd. cbn [bind py_iter].
    now rewrite (read_values_puts _ _ [] H).
  - intros value. rewrite pydict_get_puts. now destruct (last_value value kvs).
Qed.

Lemma parameter_values_are_positional_witness :
  exists parameters,
    ParameterValuesResponse_init
      [(JStr "METHOD", JStr "GETPARAMETERVALUES")]
      (JDict [("ParamValue",
               JList [JDict [("TableName", JStr "T10101");
                             ("Description", JStr "Table 1.1.1")];
                      JDict [("Key", JStr "A"); ("Desc", JStr "Annual")]])])
      bea_url
    = Ok (ParameterValuesResponse
            [(JStr "METHOD", JStr "GETPARAMETERVALUES")]
            (JDict [("ParamValue",
                     JList [JDict [("TableName", JStr "T10101");
                                   ("Description", JStr "Table 1.1.1")];
                            JDict [("Key", JStr "A");
                                   ("Desc", JStr "Annual")]])])
            bea_url parameters)
    /\ forall value,
        pydict_get parameters (JStr value)
        = last_value value [(JStr "T10101", JStr "Table 1.1.1");
                            (JStr "A", JStr "Annual")].
Proof.
  apply parameter_values_are_positional
    with (items := [JDict [("TableName", JStr "T10101");
                           ("Description", JStr "Table 1.1.1")];
                    JDict [("Key", JStr "A"); ("Desc", JStr "Annual")]]).
  - reflexivity.
  - repeat constructor; eexists; eexists; split; reflexivity.
Defined.

Lemma read_values_rows (items : list json) (parameters final : pydict json) :
  read_values items parameters = Ok final ->
  Forall (fun p => exists k1 v1 k2 v2,
                     p = JDict [(k1, v1); (k2, v2)] /\ hashable v1 = true)
         items.
Proof.
  revert parameters. induction items as [|p rest IH]; intros parameters;
    [constructor|].
  simpl. destruct p as [| | | | |fields]; try discriminate.
  destruct fields as [|[k1 v1] [|[k2 v2] [|f fields]]]; try discriminate.
  cbn [map snd]. unfold pydict_set.
  destruct (hashable v1) eqn:Hh; [cbn [bind]|discriminate].
  intros H. constructor; [|exact (IH _ H)].
  exists k1, v1, k2, v2. auto.
Qed.

(** X17: a parameter values response is built only when every row of
    [ParamValue] is a dictionary of exactly two fields whose first value
    can be a key; a row with one field or with three makes the
    constructor fail. *)
Theorem parameter_values_need_two_fields (request : pydict json)
  (result : json) (url : string) (items : list json) (r : BEAResponse) :
  py_getitem result "ParamValue" = Ok (JList items) ->
  ParameterValuesResponse_init request result url = Ok r ->
  Forall (fun p => exists k1 v1 k2 v2,
                     p = JDict [(k1, v1); (k2, v2)] /\ hashable v1 = true)
         items.
Proof.
  intros Hd. unfold ParameterValuesResponse_init. rewrite Hd.
  cbn [bind py_iter].
  destruct (read_values items []) as [final|] eqn:R; [|discriminate].
  intros _. exact (read_values_rows _ _ _ R).
Qed.

Lemma parameter_values_need_two_fields_witness :
  Forall (fun p => exists k1 v1 k2 v2,
                     p = JDict [(k1, v1); (k2, v2)] /\ hashable v1 = true)
         [JDict [("Key", JStr "A"); ("Desc", JStr "Annual")]].
Proof.
  apply (parameter_values_need_two_fields
           [(JStr "METHOD", JStr "GETPARAMETERVALUES")]
           (JDict [("ParamValue",
                    JList [JDict [("Key", JStr "A"); ("Desc", JStr "Annual")]])])
           bea_url _
           (ParameterValuesResponse
              [(JStr "METHOD", JStr "GETPARAMETERVALUES")]
              (JDict [("ParamValue",
                       JList [JDict [("Key", JStr "A");
                                     ("Desc", JStr "Annual")]])])
              bea_url [(JStr "A", JStr "Annual")]));
    reflexivity.
Defined.

(** ** The identifier rules, again *)

Lemma known_dataset_cases (d : string) :
  mem d known_datasets = true -> In d known_datasets.
Proof.
  unfold mem. intros H. apply existsb_exists in H.
  destruct H as (x & Hin & Hx). apply String.eqb_eq in Hx. now subst.
Qed.

(** X18: the two tables of identifier rules name the same datasets, read
    without regard to case: for a text under [DATASETNAME] both
    [series_identifiers] and [period_identifier] return exactly when its
    lower-case form is one of the eleven datasets. *)
Theorem identifier_rules_agree (request : pydict json) (dname : string) :
  pydict_get request (JStr "DATASETNAME") = Some (JStr dname) ->
  is_ok (series_identifiers request) = mem (lower dname) known_datasets
  /\ is_ok (period_identifier request) = mem (lower dname) known_datasets.
Proof.
  intros Hname.
  destruct (mem (lower dname) known_datasets) eqn:K.
  - unfold series_identifiers, period_identifier.
    rewrite (dataset_name_text _ _ Hname). cbn [bind].
    apply known_dataset_cases in K. simpl in K.
    repeat (destruct K as [<-|K]; [split; reflexivity|]).
    contradiction.
  - rewrite (series_identifiers_unknown _ _ Hname K),
      (period_identifier_unknown _ _ Hname K).
    split; reflexivity.
Qed.

Lemma identifier_rules_agree_witness :
  is_ok (series_identifiers (data_request "IntlServTrade"))
  = mem (lower "IntlServTrade") known_datasets
  /\ is_ok (period_identifier (data_request "IntlServTrade"))
     = mem (lower "IntlServTrade") known_datasets.
Proof.
  apply (identifier_rules_agree (data_request "IntlServTrade")). reflexivity.
Defined.

(** ** The index of one field *)

Lemma filter_replace_col (col : string) (v : list cell)
  (cols : list (string * list cell)) :
  mem col (map fst cols) = false ->
  filter (fun kv => negb (String.eqb (fst kv) col)) (replace_col col v cols)
  = cols.
Proof.
  unfold mem. induction cols as [|[k w] rest IH]; simpl.
  - now rewrite String.eqb_refl.
  - rewrite (String.eqb_sym col k).
    destruct (String.eqb k col) eqn:E; [discriminate|].
    simpl. rewrite E. simpl. intros H. now rewrite (IH H).
Qed.

(** X19: for a dataset whose series identifier is one field, the index is
    the column of that field; the frame keeps all its columns, the
    identifier among them, and the helper column [index] is gone. *)
Theorem one_field_index (request : pydict json) (col : string)
  (df : DataFrame) (v : list cell) :
  series_identifiers request = Ok (OneField col) ->
  getcol df col = Ok v ->
  mem "index" (column_names df) = false ->
  _set_unique_index request df
  = Ok (mkDataFrame (Some "index") v (columns_name df) (columns df)).
Proof.
  intros Hids Hcol Hindex. unfold _set_unique_index.
  rewrite Hids. cbn [bind]. rewrite Hcol. cbn [bind].
  unfold set_index. rewrite getcol_setcol_same. cbn [bind].
  unfold setcol. cbn [columns columns_name].
  now rewrite filter_replace_col.
Qed.

Lemma one_field_index_witness :
  _set_unique_index (data_request "Regional")
    (mkDataFrame None (range_index 2) None
       [("GeoFips", [CStr "01000"; CStr "02000"]);
        ("TimePeriod", [CStr "2020"; CStr "2020"]);
        ("DataValue", [CStr "5"; CStr "6"])])
  = Ok (mkDataFrame (Some "index") [CStr "01000"; CStr "02000"] None
          [("GeoFips", [CStr "01000"; CStr "02000"]);
           ("TimePeriod", [CStr "2020"; CStr "2020"]);
           ("DataValue", [CStr "5"; CStr "6"])]).
Proof.
  apply (one_field_index (data_request "Regional") "GeoFips"); reflexivity.
Defined.

(** ** Notes and metadata *)

Lemma mem_filter (c : string) (p : string -> bool) (l : list string) :
  mem c (filter p l) = mem c l && p c.
Proof.
  unfold mem. induction l as [|x l IH]; simpl; [reflexivity|].
  destruct (p x) eqn:Px; simpl; rewrite IH;
    destruct (String.eqb_spec c x) as [->|_]; simpl; try reflexivity.
  - now rewrite Px.
  - rewrite Px. now rewrite andb_false_r.
Qed.

Lemma mem_app (c : string) (l1 l2 : list string) :
  mem c (l1 ++ l2)%list = mem c l1 || mem c l2.
Proof. unfold mem. apply existsb_app. Qed.

Lemma column_names_drop_duplicates (df : DataFrame) :
  column_names (drop_duplicates df) = column_names df.
Proof.
  destruct (drop_duplicates_rows df) as (mask & _ & H).
  unfold column_names. rewrite H, map_map. reflexivity.
Qed.


Lemma assoc_filter_other {A : Type} (k : string) (names : list string)
  (l : list (string * A)) :
  mem k names = false ->
  assoc k (filter (fun kv => negb (mem (fst kv) names)) l) = assoc k l.
Proof.
  intros Hk. induction l as [|[k0 v] rest IH]; simpl; [reflexivity|].
  destruct (String.eqb_spec k0 k) as [->|Hne].
  - rewrite Hk. simpl. now rewrite String.eqb_refl.
  - destruct (mem k0 names); simpl; [exact IH|].
    destruct (String.eqb_spec k0 k); [contradiction | exact IH].
Qed.

Section DataMore.

Context {L : Libs}.

(** X20: notes are optional: for a document without a field [Notes] the
    block of the notes raises nothing, gives no notes and leaves the
    document as it was. *)
Theorem notes_are_optional (bea_json : json) :
  count_key "Notes" bea_json = 0%nat ->
  notes_block bea_json = (Ok [], bea_json).
Proof.
  intros H0.
  destruct (getitem_absent "Notes" true _ H0) as [m Hm].
  destruct (getitem_fails_cleanly "Notes" true bea_json _ Hm) as [_ Hsame].
  unfold notes_block, _safe_access_json_field.
  destruct (getitem_any_level bea_json "Notes" true) as [r j].
  simpl in *. now subst.
Qed.

Lemma pydict_get_In {V : Type} (d : pydict V) (k : json) (v : V) :
  pydict_get d k = Some v -> In v (map snd d).
Proof.
  induction d as [|[k0 w] rest IH]; simpl; [discriminate|].
  destruct (key_eqb k0 k); [intros [= ->]; now left | auto].
Qed.

Lemma hashable_notes (notes : pydict json) (refs : list cell) :
  Forall (fun kv => hashable (snd kv) = true) notes ->
  existsb (unhashable_note notes) refs = false.
Proof.
  intros H. induction refs as [|c refs IH]; simpl; [reflexivity|].
  rewrite IH, orb_false_r. unfold unhashable_note, note_of.
  destruct (key_of_cell c) as [k|]; [|reflexivity].
  destruct (pydict_get notes k) as [text|] eqn:G; [|reflexivity].
  apply pydict_get_In, in_map_iff in G. destruct G as (kv & <- & Hin).
  rewrite Forall_forall in H. now rewrite (H kv Hin).
Qed.



(** What [_construct_metadata] hands to [drop_duplicates] when it
    returns. *)
Lemma _construct_metadata_steps (notes : pydict json) (md md' : DataFrame) :
  _construct_metadata notes md = Ok md' ->
  exists md1,
    md' = drop_duplicates md1
    /\ index md1 = index md
    /\ index_name md1 = index_name md
    /\ column_names md1 = metadata_names notes (column_names md)
    /\ (forall c, c <> "Notes" -> c <> "NoteRef" ->
                  getcol md1 c = getcol md c)
    /\ (forall refs,
           notes <> [] -> getattr md "NoteRef" = Ok refs ->
           getcol md1 "Notes" = Ok (map (map_note notes) refs)).
Proof.
  unfold _construct_metadata, metadata_names.
  destruct notes as [|n notes].
  - cbn [bind]. intros [= <-]. exists md. repeat split.
    intros refs Hn. congruence.
  - rewrite (getattr_mem md "NoteRef").
    destruct (getattr md "NoteRef") as [refs|] eqn:G; cbn [is_ok negb].
    + cbn [bind].
      destruct (drop (setcol md "Notes" (map (map_note (n :: notes)) refs))
                     ["NoteRef"]) as [md1|e] eqn:D; [cbn [bind]|discriminate].
      destruct (existsb _ refs); [discriminate|]. cbn [bind].
      intros [= <-]. exists md1.
      destruct (drop_shape _ _ _ D) as (Hi & Hn & Hc).
      split; [reflexivity|]. split; [exact Hi|]. split; [exact Hn|].
      split; [now rewrite Hc, column_names_setcol|].
      unfold drop in D. destruct (find _ _); [discriminate|].
      injection D as <-. unfold getcol. cbn [columns].
      change (fun kv : string * list cell =>
                negb ((fst kv =? "NoteRef")%string || false))
        with (fun kv : string * list cell => negb (mem (fst kv) ["NoteRef"])).
      split.
      * intros c H1 H2. rewrite assoc_filter_other.
        -- unfold setcol. cbn [columns].
           now rewrite assoc_replace_col_other.
        -- cbn. destruct (String.eqb_spec c "NoteRef"); [contradiction|].
           reflexivity.
      * intros refs' _ [= <-].
        rewrite assoc_filter_other by reflexivity.
        unfold setcol. cbn [columns].
        now rewrite assoc_replace_col_same.
    + cbn [bind]. intros [= <-]. exists md. repeat split.
      intros refs _. discriminate.
Qed.

(** With notes that can be hashed [_construct_metadata] returns. *)
Lemma _construct_metadata_returns (notes : pydict json) (md : DataFrame) :
  Forall (fun kv => hashable (snd kv) = true) notes ->
  exists md', _construct_metadata notes md = Ok md'.
Proof.
  intros H. unfold _construct_metadata.
  destruct notes as [|n notes]; [cbn [bind]; eauto|].
  rewrite (getattr_mem md "NoteRef").
  destruct (getattr md "NoteRef") as [refs|] eqn:G; cbn [is_ok negb];
    [|cbn [bind]; eauto].
  cbn [bind]. rewrite (hashable_notes _ refs H).
  destruct (drop (setcol md "Notes" (map (map_note (n :: notes)) refs))
                 ["NoteRef"]) as [md1|e] eqn:D; [cbn [bind]; eauto|].
  exfalso. unfold drop in D. cbn [find] in D.
  rewrite column_names_setcol in D.
  assert (mem "NoteRef" (column_names md) = true) as Hm
    by (rewrite getattr_mem, G; reflexivity).
  destruct (mem "Notes" (column_names md));
    [|rewrite mem_app in D]; rewrite Hm in D; discriminate.
Qed.

Lemma _construct_metadata_columns (notes : pydict json) (md md' : DataFrame) :
  _construct_metadata notes md = Ok md' ->
  column_names md' = metadata_names notes (column_names md).
Proof.
  intros H.
  destruct (_construct_metadata_steps _ _ _ H) as (md1 & -> & _ & _ & Hc & _).
  now rewrite column_names_drop_duplicates.
Qed.

(** X21: when no note is a list or a dictionary, the metadata table is
    built: [_construct_metadata] raises for no frame of scalars.  Its
    columns are the ones it is given, except that with notes and a
    column [NoteRef] there is a column [Notes] and no column [NoteRef]. *)
Theorem metadata_is_always_built (notes : pydict json) (md : DataFrame) :
  Forall (fun kv => hashable (snd kv) = true) notes ->
  exists md',
    _construct_metadata notes md = Ok md'
    /\ column_names md' = metadata_names notes (column_names md)
    /\ index_name md' = index_name md.
Proof.
  intros Hnotes.
  destruct (_construct_metadata_returns notes md Hnotes) as [md' H].
  exists md'. split; [exact H|].
  split; [exact (_construct_metadata_columns _ _ _ H)|].
  destruct (_construct_metadata_steps _ _ _ H) as (md1 & -> & _ & Hn & _).
  rewrite <- Hn. unfold drop_duplicates. now destruct (columns md1).
Qed.


End DataMore.

Lemma notes_are_optional_witness :
  @notes_block Plain.libs dataset_list_document
  = (Ok [], dataset_list_document).
Proof. apply (@notes_are_optional Plain.libs). reflexivity. Defined.

Lemma metadata_is_always_built_witness :
  exists md',
    @_construct_metadata Plain.libs [(JStr "1", JStr "See notes")]
      (data_frame ["A191RL"; "A191RL"]
         [("LineDescription", ["GDP"; "GDP"]); ("NoteRef", ["1"; "1"])])
    = Ok md'
    /\ column_names md' = ["LineDescription"; "Notes"]
    /\ index_name md' = Some "index".
Proof.
  apply (@metadata_is_always_built Plain.libs
           [(JStr "1", JStr "See notes")]
           (data_frame ["A191RL"; "A191RL"]
              [("LineDescription", ["GDP"; "GDP"]); ("NoteRef", ["1"; "1"])])).
  repeat constructor.
Defined.


(** ** The split of the columns *)

Lemma mem_setcol_other (df : DataFrame) (col c : string) (v : list cell) :
  c <> col ->
  mem c (column_names (setcol df col v)) = mem c (column_names df).
Proof.
  intros Hc. rewrite column_names_setcol.
  destruct (mem col (column_names df)); [reflexivity|].
  rewrite mem_app. cbn. destruct (String.eqb_spec c col); [contradiction|].
  now rewrite !orb_false_r.
Qed.

Lemma cat_fields_columns (rest : list string) (df df1 : DataFrame) (c : string) :
  cat_fields df rest = Ok df1 ->
  c <> "index" ->
  mem c (column_names df1) = mem c (column_names df).
Proof.
  revert df. induction rest as [|f rest IH]; intros df; simpl.
  - now intros [= <-].
  - destruct (getcol df "index") as [cur|]; [cbn [bind]|discriminate].
    destruct (str_accessor cur) as [cur'|]; [cbn [bind]|discriminate].
    destruct (getcol df f) as [other|]; [cbn [bind]|discriminate].
    destruct (str_cat cur' other "_") as [joined|]; [cbn [bind]|discriminate].
    intros H Hc. rewrite (IH _ H Hc). now apply mem_setcol_other.
Qed.

Lemma _set_unique_index_columns (request : pydict json) (df df' : DataFrame)
  (c : string) :
  _set_unique_index request df = Ok df' ->
  mem c (column_names df')
  = mem c (column_names df) && negb (String.eqb c "index").
Proof.
  unfold _set_unique_index.
  destruct (series_identifiers request) as [ids|]; [cbn [bind]|discriminate].
  match goal with
  | |- context [bind ?b _] => destruct b as [df1|] eqn:B
  end; [cbn [bind]|discriminate].
  unfold set_index.
  destruct (getcol df1 "index") as [v|]; [cbn [bind]|discriminate].
  intros [= <-]. unfold column_names at 1. cbn [columns].
  assert (forall (cols : list (string * list cell)),
             mem c (map fst (filter (fun kv => negb (String.eqb (fst kv) "index"))
                                    cols))
             = mem c (map fst cols) && negb (String.eqb c "index")) as Hf.
  { intros cols. unfold mem.
    induction cols as [|[k w] cols IHc]; simpl; [reflexivity|].
    destruct (String.eqb_spec k "index") as [->|Hk]; simpl; rewrite IHc.
    - destruct (String.eqb_spec c "index"); simpl;
        [now rewrite andb_false_r | reflexivity].
    - destruct (String.eqb_spec c k) as [->|_]; simpl; [|reflexivity].
      destruct (String.eqb_spec k "index"); [contradiction | reflexivity]. }
  rewrite Hf. fold (column_names df1).
  destruct (String.eqb_spec c "index") as [->|Hc];
    [now rewrite !andb_false_r|].
  rewrite !andb_true_r.
  destruct ids as [col|[|first rest]].
  - destruct (getcol df col); [cbn [bind] in B|discriminate].
    injection B as <-. now apply mem_setcol_other.
  - discriminate.
  - destruct (getcol df first); [cbn [bind] in B|discriminate].
    rewrite (cat_fields_columns _ _ _ c B Hc). now apply mem_setcol_other.
Qed.

Lemma mem_metadata_names (notes : pydict json) (names : list string)
  (c : string) :
  c <> "NoteRef" -> c <> "Notes" ->
  mem c (metadata_names notes names) = mem c names.
Proof.
  intros H1 H2. unfold metadata_names. destruct notes; [reflexivity|].
  destruct (mem "NoteRef" names); [|reflexivity].
  rewrite mem_filter. cbn.
  destruct (String.eqb_spec c "NoteRef"); [contradiction|]. cbn.
  rewrite andb_true_r.
  destruct (mem "Notes" names); [reflexivity|].
  rewrite mem_app. cbn.
  destruct (String.eqb_spec c "Notes"); [contradiction|].
  now rewrite !orb_false_r.
Qed.

Section ValuesMore.

Context {L : Libs}.

(** X23: when the two tables are built, the columns of the observations
    are split: the period, [DataValue], and [UNIT_MULT] when the
    dimensions declare it, are the value columns and no metadata column;
    every other field of the observations is a metadata column ([NoteRef]
    and [Notes] apart, which the notes decide).  A column [UNIT_MULT] that
    the dimensions do not declare is metadata. *)
Theorem columns_are_split (request : pydict json)
  (dimensions : pydict dim_dict) (notes : pydict json) (data : json)
  (df : payload) (md : DataFrame) :
  _construct_data_and_metadata request dimensions notes data = Ok (df, md) ->
  exists df_md p_id,
    pd_DataFrame data = Ok df_md
    /\ period_identifier request = Ok p_id
    /\ forall c,
        c <> "index" -> c <> "NoteRef" -> c <> "Notes" ->
        mem c (column_names md)
        = mem c (column_names df_md)
          && negb (mem c (value_columns p_id dimensions)).
Proof.
  unfold _construct_data_and_metadata.
  destruct (pd_DataFrame data) as [df_md|]; [cbn [bind]|discriminate].
  destruct (_set_unique_index request df_md) as [df'|] eqn:U;
    [cbn [bind]|discriminate].
  destruct (period_identifier request) as [p_id|]; [cbn [bind]|discriminate].
  fold (value_columns p_id dimensions).
  destruct (loc df' (value_columns p_id dimensions)) as [data_part|];
    [cbn [bind]|discriminate].
  destruct (_construct_data request data_part) as [pl|];
    [cbn [bind]|discriminate].
  destruct (loc df' _) as [meta_part|] eqn:M; [cbn [bind]|discriminate].
  destruct (_construct_metadata notes meta_part) as [md'|] eqn:Hmd;
    [cbn [bind]|discriminate].
  pose proof (_construct_metadata_columns _ _ _ Hmd) as Hc.
  intros [= _ <-].
  exists df_md, p_id. split; [reflexivity|]. split; [reflexivity|].
  intros c H1 H2 H3.
  rewrite Hc, (mem_metadata_names _ _ _ H2 H3), (loc_names _ _ _ M).
  rewrite mem_filter, (_set_unique_index_columns _ _ _ c U).
  destruct (String.eqb_spec c "index"); [contradiction|].
  now rewrite andb_true_r.
Qed.

(** X24: the coercion of [DataValue] raises for no column of settled
    text, that is ASCII text whose entries of digits only are integers of
    [int64]: it returns the frame with the column [DataValue] replaced by
    a column of the same length, all other columns and the index as they
    were. *)
Theorem values_are_always_coerced (df : DataFrame) (raw : list cell) :
  getattr df "DataValue" = Ok raw ->
  Forall (fun c => settled_text (remove_commas (cell_str c)) = true) raw ->
  exists v ty,
    coerce_DataValue df = Ok (setcol df "DataValue" v, ty)
    /\ List.length v = List.length raw.
Proof.
  intros G Hraw.
  destruct (coerce_DataValue_returns df raw G Hraw) as (df1 & ty & C).
  destruct (coerce_DataValue_shape _ _ _ C) as (v & -> & _).
  exists v, ty. split; [exact C|].
  unfold coerce_DataValue in C. rewrite G in C. cbn [bind] in C.
  cbv zeta in C.
  assert (same : forall a b : list cell,
             setcol df "DataValue" a = setcol df "DataValue" b -> a = b).
  { intros a b Hab.
    apply (f_equal (fun d => getcol d "DataValue")) in Hab.
    rewrite !getcol_setcol_same in Hab. congruence. }
  destruct (to_numeric _) as [nums|e] eqn:T in C.
  - assert (v = nums) as -> by (apply same; congruence).
    apply to_numeric_length in T. now rewrite T, length_map.
  - destruct (to_numeric_raises _ _ T) as [m ->].
    destruct (to_numeric (filter_mask _ _)) as [nums|] in C;
      [cbn [bind] in C|discriminate].
    match type of C with
    | Ok (setcol _ _ ?w, _) = _ => assert (v = w) as -> by (apply same; congruence)
    end.
    now rewrite assign_mask_length, length_map.
Qed.

(** X25: whatever the observations, the values of the Series that
    [_construct_data] returns for the frame of the value columns are
    text. *)
Theorem series_holds_text (request : pydict json) (df : DataFrame)
  (p_id : string) (s : Series) :
  period_identifier request = Ok p_id ->
  (column_names df = [p_id; "DataValue"]
   \/ column_names df = [p_id; "DataValue"; "UNIT_MULT"]) ->
  _construct_data request df = Ok (PSeries s) ->
  Forall (fun c => is_text c = true) (values s)
  /\ s_index s = index df.
Proof.
  intros Hp Hnames H. split.
  - exact (series_values_are_text request df p_id s Hp Hnames H).
  - exact (proj1 (_construct_data_series request df p_id s Hp Hnames H)).
Qed.

(** X26: the frame of the value columns of one observation never gives a
    result: [_construct_data] raises for it. *)
Theorem one_observation_is_never_built (request : pydict json)
  (df : DataFrame) (p_id : string) :
  period_identifier request = Ok p_id ->
  (column_names df = [p_id; "DataValue"]
   \/ column_names df = [p_id; "DataValue"; "UNIT_MULT"]) ->
  height 1 df ->
  is_ok (_construct_data request df) = false.
Proof. apply one_row_is_never_built. Qed.

End ValuesMore.

Lemma columns_are_split_witness :
  exists df_md p_id,
    Plain.pd_DataFrame
      (JList [JDict [("GeoFips", JStr "01000"); ("TimePeriod", JStr "2020");
                     ("DataValue", JStr "5"); ("UNIT_MULT", JStr "3");
                     ("CL_UNIT", JStr "Dollars")];
              JDict [("GeoFips", JStr "02000"); ("TimePeriod", JStr "2020");
                     ("DataValue", JStr "6"); ("UNIT_MULT", JStr "3");
                     ("CL_UNIT", JStr "Dollars")]])
    = Ok df_md
    /\ period_identifier (data_request "Regional") = Ok p_id
    /\ forall c,
        c <> "index" -> c <> "NoteRef" -> c <> "Notes" ->
        mem c [ "GeoFips"; "UNIT_MULT"; "CL_UNIT"]
        = mem c (column_names df_md) && negb (mem c (value_columns p_id [])).
Proof.
  refine (@columns_are_split Plain.libs (data_request "Regional") [] []
            (JList [JDict [("GeoFips", JStr "01000");
                           ("TimePeriod", JStr "2020");
                           ("DataValue", JStr "5"); ("UNIT_MULT", JStr "3");
                           ("CL_UNIT", JStr "Dollars")];
                    JDict [("GeoFips", JStr "02000");
                           ("TimePeriod", JStr "2020");
                           ("DataValue", JStr "6"); ("UNIT_MULT", JStr "3");
                           ("CL_UNIT", JStr "Dollars")]])
            (PSeries (mkSeries (Some (CStr "2020")) (Some "")
                        [CStr "01000"; CStr "02000"] [CStr "5"; CStr "6"]))
            (mkDataFrame (Some "index") [CStr "01000"; CStr "02000"] None
               [("GeoFips", [CStr "01000"; CStr "02000"]);
                ("UNIT_MULT", [CStr "3"; CStr "3"]);
                ("CL_UNIT", [CStr "Dollars"; CStr "Dollars"])])
            _).
  reflexivity.
Defined.

Lemma values_are_always_coerced_witness :
  exists v ty,
    @coerce_DataValue Plain.libs sentinel_frame
    = Ok (setcol sentinel_frame "DataValue" v, ty)
    /\ List.length v = List.length [CStr "12.5"; CStr "(D)"].
Proof.
  apply (@values_are_always_coerced Plain.libs sentinel_frame).
  - reflexivity.
  - repeat constructor.
Defined.

Lemma series_holds_text_witness :
  Forall (fun c => is_text c = true) [CStr "1234000000"; CStr "7"]
  /\ [CStr "A191RC"; CStr "A191RL"] = index scaled_frame.
Proof.
  apply (@series_holds_text Plain.libs (data_request "NIPA") scaled_frame
           "TimePeriod"
           (mkSeries (Some (CStr "2020")) (Some "")
              [CStr "A191RC"; CStr "A191RL"] [CStr "1234000000"; CStr "7"])).
  - reflexivity.
  - right. reflexivity.
  - reflexivity.
Defined.

Lemma one_observation_is_never_built_witness :
  is_ok (@_construct_data Plain.libs (data_request "Regional") one_row_frame)
  = false.
Proof.
  apply (@one_observation_is_never_built Plain.libs (data_request "Regional")
           one_row_frame "TimePeriod").
  - reflexivity.
  - left. reflexivity.
  - split; [reflexivity|]. repeat constructor.
Defined.

(** ** The rescaling of the values *)

Lemma wrap64_small (z : Z) : - 2 ^ 63 <= z < 2 ^ 63 -> wrap64 z = z.
Proof.
  unfold wrap64. change (2 ^ 64) with (2 * 2 ^ 63).
  intros H. rewrite Z.mod_small; lia.
Qed.

Lemma sequence_ok_In {A B : Type} (f : A -> outcome B) (g : A -> B)
  (l : list A) :
  (forall x, In x l -> f x = Ok (g x)) -> sequence (map f l) = Ok (map g l).
Proof.
  induction l as [|x rest IH]; intros H; simpl; [reflexivity|].
  rewrite (H x (or_introl eq_refl)), IH; [reflexivity|].
  intros y Hy. apply H. now right.
Qed.

Lemma forallb_ints (es : list Z) : forallb is_int_cell (map CInt es) = true.
Proof. induction es; simpl; auto. Qed.

Lemma getattr_setcol_other (df : DataFrame) (col k : string) (v : list cell) :
  k <> col -> getattr (setcol df col v) k = getattr df k.
Proof.
  intros Hk. unfold getattr, setcol. simpl.
  now rewrite assoc_replace_col_other.
Qed.

Lemma getattr_setcol_same (df : DataFrame) (col : string) (v : list cell) :
  getattr (setcol df col v) col = Ok v.
Proof. unfold getattr, setcol. simpl. now rewrite assoc_replace_col_same. Qed.

Lemma np_multiply_ints (vs es : list Z) :
  Forall (fun ve => - 2 ^ 63 <= fst ve * 10 ^ snd ve < 2 ^ 63)
         (combine vs es) ->
  np_multiply (map CInt vs) (map (fun e => CInt (10 ^ e)) es)
  = Ok (map (fun ve => CInt (fst ve * 10 ^ snd ve)) (combine vs es)).
Proof.
  unfold np_multiply. revert es.
  induction vs as [|v vs IH]; intros [|e es] H; try reflexivity.
  cbn [combine] in H. inversion H as [|? ? Hv Hrest]; subst.
  cbn [map combine sequence fst snd mul_cell bind] in *.
  rewrite (wrap64_small _ Hv), (IH es Hrest). reflexivity.
Qed.

Lemma parse_number_int64 (s : string) (z : Z) :
  parse_number s = Some (NInt z) -> - 2 ^ 63 <= z < 2 ^ 63.
Proof.
  unfold parse_number. destruct (strip_sign s) as [sg body].
  destruct (parse_mantissa body) as [[v [k|]]|]; try discriminate.
  destruct (in_int64 (sg * v)) eqn:E; [|discriminate].
  intros [= <-]. unfold in_int64 in E. apply andb_prop in E.
  destruct E as [E1 E2]. apply Z.leb_le in E1. apply Z.ltb_lt in E2. lia.
Qed.

Lemma as_float_integers (zs : list Z) :
  Forall (fun z => z < 2 ^ 63) zs -> as_float (map NInt zs) = false.
Proof.
  intros H. unfold as_float.
  assert (existsb (fun n => match n with
                            | NInt z => 2 ^ 63 <=? z
                            | _ => false
                            end) (map NInt zs) = false) as Hbig.
  { induction H as [|z zs Hz _ IH]; cbn [map existsb]; [reflexivity|].
    rewrite IH, orb_false_r. apply Z.leb_gt. exact Hz. }
  assert (forallb is_int (map NInt zs) = true) as Hint
    by (clear H Hbig; induction zs; simpl; auto).
  rewrite Hint, Hbig. reflexivity.
Qed.

Lemma filter_all_false {A : Type} (f : A -> bool) (l : list A) :
  Forall (fun x => f x = false) l -> filter f l = [].
Proof. induction 1 as [|x l Hx _ IH]; simpl; [|rewrite Hx]; auto. Qed.

Lemma Forall_filter {A : Type} (P : A -> Prop) (f : A -> bool) (l : list A) :
  Forall P l -> Forall P (filter f l).
Proof.
  induction 1 as [|x l Hx _ IH]; simpl; [constructor|].
  destruct (f x); [constructor|]; assumption.
Qed.

Lemma Forall_unique (P : cell -> Prop) (col : list cell) :
  Forall P col -> Forall P (unique col).
Proof.
  induction 1 as [|c col Hc _ IH]; simpl; constructor; [exact Hc|].
  now apply Forall_filter.
Qed.

(** A column in which every observation has the same text has one
    distinct value. *)
Lemma nunique_constant (s : string) (c : cell) (col : list cell) :
  Forall (fun x => x = CStr s) (c :: col) -> nunique (c :: col) = 1%nat.
Proof.
  intros H. unfold nunique.
  assert (filter (fun x => negb (is_nan x)) (c :: col) = c :: col) as ->.
  { apply forallb_filter_id, forallb_forall. intros x Hx.
    rewrite Forall_forall in H. now rewrite (H x Hx). }
  inversion H as [|? ? Hc Hcol]; subst. cbn [unique].
  rewrite filter_all_false; [reflexivity|].
  apply Forall_unique in Hcol.
  eapply Forall_impl; [|exact Hcol].
  intros x ->. cbn. now rewrite String.eqb_refl.
Qed.

Section RescaleMore.

Context {L : Libs}.

Lemma to_numeric_integers (col : list cell) (zs : list Z) :
  Forall2 (fun c z => number_of_cell c = Ok (NInt z) /\ z < 2 ^ 63) col zs ->
  to_numeric col = Ok (map CInt zs).
Proof.
  intros H. unfold to_numeric.
  assert (sequence (map number_of_cell col) = Ok (map NInt zs)) as ->.
  { induction H as [|c z col zs [Hc _] _ IH]; simpl; [reflexivity|].
    now rewrite Hc, IH. }
  cbn [bind]. rewrite as_float_integers.
  - now rewrite map_map.
  - induction H as [|c z col zs [_ Hz] _ IH]; constructor; assumption.
Qed.

Lemma np_power10_ints (es : list Z) :
  Forall (fun e => 0 <= e /\ 10 ^ e < 2 ^ 63) es ->
  np_power10 (map CInt es) = Ok (map (fun e => CInt (10 ^ e)) es).
Proof.
  intros H. unfold np_power10. rewrite forallb_ints, map_map.
  apply sequence_ok_In. intros e He.
  rewrite Forall_forall in H. destruct (H e He) as [H0 H1].
  cbn [pow10_cell]. destruct (Z.ltb_spec e 0); [lia|].
  rewrite wrap64_small; [reflexivity|].
  pose proof (Z.pow_nonneg 10 e). lia.
Qed.

Lemma np_power10_negative (es : list Z) :
  Exists (fun e => e < 0) es ->
  np_power10 (map CInt es)
  = Raise (ValueError "Integers to negative integer powers are not allowed.").
Proof.
  intros H. unfold np_power10. rewrite forallb_ints.
  induction es as [|e rest IH]; [inversion H|].
  cbn [map sequence pow10_cell]. destruct (Z.ltb_spec e 0); [reflexivity|].
  cbn [bind]. inversion H; subst; [lia|].
  rewrite IH by assumption. reflexivity.
Qed.

Lemma rescale_without_exponent (df : DataFrame) (v : list cell) :
  mem "UNIT_MULT" (column_names df) = false ->
  getattr df "DataValue" = Ok v ->
  rescale df = drop (setcol df "data" v) ["DataValue"].
Proof.
  intros Hm Hv. unfold rescale. rewrite getattr_mem in Hm.
  destruct (getattr df "UNIT_MULT") as [|e] eqn:E; [discriminate|].
  assert (e = AttributeError) as ->.
  { unfold getattr in E. destruct (assoc _ _); congruence. }
  cbn [bind]. rewrite Hv. reflexivity.
Qed.

(** X27: when the values are integers and the exponents read as
    non-negative integers, and every power of ten and every product is
    in the range of [int64], the rescaling gives the exact products
    value times ten to the exponent in the column [data], and drops the
    columns [DataValue] and [UNIT_MULT]. *)
Theorem integer_values_are_scaled (df : DataFrame) (um : list cell)
  (vs es : list Z) :
  getattr df "UNIT_MULT" = Ok um ->
  to_numeric um = Ok (map CInt es) ->
  getattr df "DataValue" = Ok (map CInt vs) ->
  Forall (fun e => 0 <= e /\ 10 ^ e < 2 ^ 63) es ->
  Forall (fun ve => - 2 ^ 63 <= fst ve * 10 ^ snd ve < 2 ^ 63)
         (combine vs es) ->
  rescale df
  = Ok (mkDataFrame (index_name df) (index df) (columns_name df)
          (filter (fun kv => negb (mem (fst kv) ["DataValue"; "UNIT_MULT"]))
             (replace_col "data"
                (map (fun ve => CInt (fst ve * 10 ^ snd ve)) (combine vs es))
                (columns df)))).
Proof.
  intros HU HT HD He Hve. unfold rescale.
  rewrite HU. cbn [bind]. rewrite HT. cbn [bind]. rewrite HD. cbn [bind].
  rewrite (np_power10_ints es He). cbn [bind].
  rewrite (np_multiply_ints vs es Hve). cbn [bind].
  unfold drop. cbn [find].
  rewrite !mem_setcol_other by discriminate.
  rewrite !getattr_mem, HD, HU. reflexivity.
Qed.

(** X28: when the coercion of the values returns, and an exponent of
    [UNIT_MULT] reads as a negative integer (all of them as integers),
    the power of ten is refused and [_construct_data] raises the
    [ValueError] of numpy. *)
Theorem negative_exponent_is_refused (request : pydict json)
  (df df1 : DataFrame) (ty : dtype) (um : list cell) (es : list Z) :
  getattr df "UNIT_MULT" = Ok um ->
  to_numeric um = Ok (map CInt es) ->
  coerce_DataValue df = Ok (df1, ty) ->
  Exists (fun e => e < 0) es ->
  _construct_data request df
  = Raise (ValueError "Integers to negative integer powers are not allowed.").
Proof.
  intros HU HT C Hneg. unfold _construct_data.
  destruct (coerce_DataValue_shape _ _ _ C) as (v & -> & _).
  rewrite C. cbn [bind]. unfold rescale.
  rewrite getattr_setcol_other by discriminate.
  rewrite HU. cbn [bind]. rewrite HT. cbn [bind].
  rewrite getattr_setcol_same. cbn [bind].
  rewrite (np_power10_negative es Hneg). reflexivity.
Qed.

(** The coercion of a column whose texts, without their commas, are
    integers of [int64]. *)
Lemma coerce_DataValue_integers (df : DataFrame) (raw : list cell)
  (zs : list Z) :
  getattr df "DataValue" = Ok raw ->
  Forall2 (fun c z =>
             parse_number (remove_commas (cell_str c)) = Some (NInt z))
          raw zs ->
  coerce_DataValue df = Ok (setcol df "DataValue" (map CInt zs), D_float64).
Proof.
  intros G H. unfold coerce_DataValue. rewrite G. cbn [bind]. cbv zeta.
  rewrite (to_numeric_integers _ zs); [reflexivity|].
  clear G. induction H as [|c z raw zs Hc _ IH]; cbn [map]; constructor.
  - cbn [number_of_cell]. rewrite Hc. split; [reflexivity|].
    apply (parse_number_int64 _ _ Hc).
  - exact IH.
Qed.

(** X29: two or more observations of one period, in a frame of the
    period and the values, without exponents, whose values are the text
    of integers of [int64] (commas apart), always give a Series: it is
    indexed as the frame, named after the period, and holds the decimal
    text of the integers. *)
Theorem series_is_built (request : pydict json) (df : DataFrame)
  (p_id period : string) (ps raw : list cell) (zs : list Z) (n : nat) :
  period_identifier request = Ok p_id ->
  column_names df = [p_id; "DataValue"] ->
  getcol df p_id = Ok ps ->
  Forall (fun c => cell_str c = period) ps ->
  getcol df "DataValue" = Ok raw ->
  Forall2 (fun c z =>
             parse_number (remove_commas (cell_str c)) = Some (NInt z))
          raw zs ->
  height (S (S n)) df ->
  _construct_data request df
  = Ok (PSeries (mkSeries (Some (CStr period)) (Some "") (index df)
                   (map (fun z => CStr (str_of_Z z)) zs))).
Proof.
  intros Hp Hnames Hps Hperiod Hraw Hzs Hh.
  destruct df as [iname idx cname cols]. unfold column_names in Hnames.
  cbn [columns] in Hnames.
  destruct cols as [|[n1 a] [|[n2 raw'] [|c cols]]]; try discriminate.
  injection Hnames as -> ->.
  assert (a = ps) as ->.
  { unfold getcol in Hps. cbn [columns assoc] in Hps.
    rewrite String.eqb_refl in Hps. congruence. }
  clear Hps.
  assert (List.length ps = S (S n) /\ List.length raw' = S (S n))
    as [Lps Lraw].
  { destruct Hh as [_ Hcols]. cbn [columns] in Hcols.
    inversion Hcols as [|? ? H1 Hrest]; subst.
    inversion Hrest as [|? ? H2 _]; subst. split; assumption. }
  destruct ps as [|p ps]; [discriminate|].
  assert (Forall (fun x => x = CStr period)
                 (map (fun c => CStr (cell_str c)) (p :: ps))) as Hconst.
  { apply Forall_map. eapply Forall_impl; [|exact Hperiod].
    intros x Hx. cbn. now rewrite Hx. }
  assert (nunique (CStr (cell_str p)
                   :: map (fun c => CStr (cell_str c)) ps) = 1%nat) as Hone
    by exact (nunique_constant period _ _ Hconst).
  assert (cell_str p = period) as Hpd by (now inversion Hperiod).
  destruct (period_identifier_values _ _ Hp) as [-> | ->];
    (assert (raw' = raw) as ->
       by (unfold getcol in Hraw; cbn in Hraw; congruence));
    pose proof (Forall2_length Hzs) as Lzs;
    unfold _construct_data;
    match goal with
    | |- context [coerce_DataValue ?d] =>
        rewrite (coerce_DataValue_integers d raw zs eq_refl Hzs)
    end;
    cbn [bind];
    rewrite (rescale_without_exponent _ (map CInt zs))
      by (reflexivity || apply getattr_setcol_same);
    match goal with
    | |- context [drop ?d ["DataValue"]] =>
        match d with
        | context [mkDataFrame _ _ _ ((?pid, _) :: _)] =>
            change (drop d ["DataValue"])
              with (Ok (mkDataFrame iname idx cname
                          [(pid, p :: ps); ("data", map CInt zs)]))
        end
    end;
    cbn [bind];
    match goal with
    | |- context [column_names ?d] =>
        change (column_names d) with (map fst (columns d))
    end;
    cbn [map fst columns];
    rewrite cast_to_text by discriminate;
    cbn [bind]; rewrite Hp; cbn [bind];
    unfold getcol; cbn [columns assoc]; rewrite String.eqb_refl; cbn [bind];
    cbn [map]; rewrite Hone; cbn [Nat.eqb]; rewrite Hpd;
    rewrite map_map; cbn [cell_str];
    (destruct zs as [|x [|y w]];
     [rewrite Lraw in Lzs; discriminate
     |rewrite Lraw in Lzs; discriminate|]);
    reflexivity.
Qed.

Lemma getitem_counts (key name : string) (pop : bool) (t : json) :
  (count_key name (snd (getitem_any_level t key pop)) <= count_key name t)%nat.
Proof.
  destruct pop; [|rewrite getitem_no_pop; lia].
  destruct (fst (getitem_any_level t key true)) as [v|e] eqn:E.
  - rewrite (getitem_conserves key t v E name). lia.
  - destruct (getitem_fails_cleanly key true t e E) as [_ ->]. lia.
Qed.

Lemma _safe_access_counts (key name : string) (pop : bool) (t : json) :
  (count_key name (snd (_safe_access_json_field t key pop))
   <= count_key name t)%nat.
Proof.
  unfold _safe_access_json_field.
  pose proof (getitem_counts key name pop t) as H.
  destruct (getitem_any_level t key pop). exact H.
Qed.

Lemma _safe_access_removes (key : string) (t t' v : json) :
  _safe_access_json_field t key true = (Ok v, t') ->
  (count_key key t' < count_key key t)%nat.
Proof.
  unfold _safe_access_json_field.
  pose proof (getitem_conserves key t) as H. unfold conserves in H.
  destruct (getitem_any_level t key true) as [r j]. cbn [fst snd] in H.
  destruct r as [w|e]; [|discriminate].
  intros E. assert (j = t') as -> by congruence.
  rewrite (H w eq_refl key), String.eqb_refl. lia.
Qed.

(** X30: the document that a data response keeps has lost the field
    [Data] that was read, and no field of any name has been added to
    it. *)
Theorem observations_are_removed (request request' : pydict json)
  (result result' : json) (url url' : string) (bea_json kept : json)
  (dimensions : pydict dim_dict) (notes : pydict json) (df : payload)
  (md : DataFrame) :
  DataResponse_init request result url bea_json
  = Ok (DataResponse request' result' url' kept dimensions notes df md) ->
  (count_key "Data" kept < count_key "Data" bea_json)%nat
  /\ forall name, (count_key name kept <= count_key name bea_json)%nat.
Proof.
  unfold DataResponse_init.
  pose proof (fun name => _safe_access_counts "Dimensions" name false bea_json)
    as H1.
  destruct (_safe_access_json_field bea_json "Dimensions" false)
    as [r1 json1]. cbn [snd] in H1.
  destruct r1 as [dims|]; [cbn [bind]|discriminate].
  destruct (py_iter dims) as [items|]; [cbn [bind]|discriminate].
  destruct (read_dimensions items []) as [ds|]; [cbn [bind]|discriminate].
  assert (forall name,
             (count_key name (snd (notes_block json1))
              <= count_key name json1)%nat) as H2.
  { intros name. unfold notes_block.
    pose proof (_safe_access_counts "Notes" name true json1) as H.
    destruct (_safe_access_json_field json1 "Notes" true). exact H. }
  destruct (notes_block json1) as [r2 json2]. cbn [snd] in H2.
  destruct r2 as [ns|]; [cbn [bind]|discriminate].
  pose proof (_safe_access_removes "Data" json2) as H3.
  pose proof (fun name => _safe_access_counts "Data" name true json2) as H4.
  destruct (_safe_access_json_field json2 "Data" true) as [r3 json3].
  cbn [snd] in H4.
  destruct r3 as [data_list|]; [cbn [bind]|discriminate].
  specialize (H3 json3 data_list eq_refl).
  destruct (_construct_data_and_metadata _ _ _ _) as [[df0 md0]|];
    [cbn [bind]|discriminate].
  intros [= _ _ _ <- _ _ _ _]. split.
  - pose proof (H1 "Data"). pose proof (H2 "Data"). lia.
  - intros name. pose proof (H1 name). pose proof (H2 name).
    pose proof (H4 name). lia.
Qed.

End RescaleMore.

Lemma integer_values_are_scaled_witness :
  @rescale Plain.libs
    (mkDataFrame (Some "index") [CStr "A191RC"; CStr "A191RL"] None
       [("TimePeriod", [CStr "2020"; CStr "2020"]);
        ("DataValue", [CInt 1234; CInt 7]);
        ("UNIT_MULT", [CStr "6"; CStr "0"])])
  = Ok (mkDataFrame (Some "index") [CStr "A191RC"; CStr "A191RL"] None
          [("TimePeriod", [CStr "2020"; CStr "2020"]);
           ("data", [CInt 1234000000; CInt 7])]).
Proof.
  apply (@integer_values_are_scaled Plain.libs
           (mkDataFrame (Some "index") [CStr "A191RC"; CStr "A191RL"] None
              [("TimePeriod", [CStr "2020"; CStr "2020"]);
               ("DataValue", [CInt 1234; CInt 7]);
               ("UNIT_MULT", [CStr "6"; CStr "0"])])
           [CStr "6"; CStr "0"] [1234; 7] [6; 0]).
  - reflexivity.
  - reflexivity.
  - reflexivity.
  - repeat constructor; now vm_compute.
  - repeat constructor; now vm_compute.
Defined.

Lemma negative_exponent_is_refused_witness :
  @_construct_data Plain.libs (data_request "NIPA")
    (data_frame ["A191RC"; "A191RL"]
       [("TimePeriod", ["2020"; "2020"]); ("DataValue", ["1,234"; "7"]);
        ("UNIT_MULT", ["6"; "-3"])])
  = Raise (ValueError "Integers to negative integer powers are not allowed.").
Proof.
  apply (@negative_exponent_is_refused Plain.libs (data_request "NIPA")
           (data_frame ["A191RC"; "A191RL"]
              [("TimePeriod", ["2020"; "2020"]); ("DataValue", ["1,234"; "7"]);
               ("UNIT_MULT", ["6"; "-3"])])
           (mkDataFrame (Some "index") [CStr "A191RC"; CStr "A191RL"] None
              [("TimePeriod", [CStr "2020"; CStr "2020"]);
               ("DataValue", [CInt 1234; CInt 7]);
               ("UNIT_MULT", [CStr "6"; CStr "-3"])])
           D_float64 [CStr "6"; CStr "-3"] [6; -3]).
  - reflexivity.
  - reflexivity.
  - reflexivity.
  - right. left. reflexivity.
Defined.

Lemma series_is_built_witness :
  @_construct_data Plain.libs (data_request "NIPA")
    (data_frame ["A191RC"; "A191RL"]
       [("TimePeriod", ["2020"; "2020"]); ("DataValue", ["1,234"; "7"])])
  = Ok (PSeries (mkSeries (Some (CStr "2020")) (Some "")
                   [CStr "A191RC"; CStr "A191RL"]
                   [CStr "1234"; CStr "7"])).
Proof.
  apply (@series_is_built Plain.libs (data_request "NIPA")
           (data_frame ["A191RC"; "A191RL"]
              [("TimePeriod", ["2020"; "2020"]);
               ("DataValue", ["1,234"; "7"])])
           "TimePeriod" "2020" [CStr "2020"; CStr "2020"]
           [CStr "1,234"; CStr "7"] [1234; 7] 0).
  - reflexivity.
  - reflexivity.
  - reflexivity.
  - repeat constructor.
  - reflexivity.
  - repeat constructor.
  - split; [reflexivity|]. repeat constructor.
Defined.

Lemma observations_are_removed_witness :
  (count_key "Data"
     (JDict [("BEAAPI",
              JDict [("Request",
                      JDict [("RequestParam",
                              JList [JDict [("ParameterName", JStr "METHOD");
                                            ("ParameterValue", JStr "GETDATA")];
                                     JDict [("ParameterName",
                                             JStr "DATASETNAME");
                                            ("ParameterValue",
                                             JStr "Regional")]])]);
                     ("Results",
                      JDict [("Dimensions", dimensions_block)])])])
   < count_key "Data"
       (regional_document [observation "01000" "2020" "5";
                           observation "02000" "2020" "6"]))%nat
  /\ forall name,
      (count_key name
         (JDict [("BEAAPI",
                  JDict [("Request",
                          JDict [("RequestParam",
                                  JList [JDict [("ParameterName",
                                                 JStr "METHOD");
                                                ("ParameterValue",
                                                 JStr "GETDATA")];
                                         JDict [("ParameterName",
                                                 JStr "DATASETNAME");
                                                ("ParameterValue",
                                                 JStr "Regional")]])]);
                         ("Results",
                          JDict [("Dimensions", dimensions_block)])])])
       <= count_key name
            (regional_document [observation "01000" "2020" "5";
                                observation "02000" "2020" "6"]))%nat.
Proof.
  refine (@observations_are_removed Plain.libs
            (data_request "Regional") (data_request "Regional")
            JNull JNull bea_url bea_url
            (regional_document [observation "01000" "2020" "5";
                                observation "02000" "2020" "6"])
            _ _ _ _ _ _).
  vm_compute. reflexivity.
Defined.

(** ** The result block shared with the document *)

Lemma search_paths_found (rec : json -> outcome json * json)
  (paths : json -> option (list step)) (key : string)
  (fields : list (string * json)) :
  Forall (fun kv =>
            (forall e, fst (rec (snd kv)) = Raise e -> exists m, e = KeyError m)
            /\ is_ok (fst (rec (snd kv)))
               = match paths (snd kv) with Some _ => true | None => false end)
         fields ->
  is_ok (fst (search_values rec key fields))
  = match search_paths paths fields with Some _ => true | None => false end.
Proof.
  induction 1 as [|[k sub] rest [Hk Hsub] _ IH]; [reflexivity|].
  cbn [search_values search_paths snd] in *.
  destruct (rec sub) as [r sub'] eqn:E. cbn [fst] in *.
  destruct r as [v|e].
  - cbn in Hsub. destruct (paths sub); [reflexivity|discriminate].
  - cbn in Hsub. destruct (paths sub); [discriminate|].
    destruct (Hk e eq_refl) as [m ->].
    destruct (search_values rec key rest) as [r rest']. exact IH.
Qed.

(** The locator finds a key exactly when the key has a place in the
    document. *)
Lemma field_path_found (key : string) (pop : bool) (t : json) :
  is_ok (fst (getitem_any_level t key pop))
  = match field_path t key with Some _ => true | None => false end.
Proof.
  induction t as [| | | |items IH|fields IH] using json_nested_ind;
    try reflexivity.
  - destruct items as [|d rest]; [reflexivity|].
    rewrite getitem_list_cons. inversion IH as [|? ? Hd _]; subst.
    cbn [field_path]. destruct (getitem_any_level d key pop) as [r d'].
    cbn [fst] in *. rewrite Hd. now destruct (field_path d key).
  - rewrite getitem_dict. cbn [field_path].
    destruct (dict_get key fields); [reflexivity|].
    pose proof (search_paths_found (fun d => getitem_any_level d key pop)
                  (fun d => field_path d key) key fields) as H.
    destruct (search_values _ key fields) as [r fields']. cbn [fst] in *.
    apply H. eapply Forall_impl; [|exact IH].
    intros [k sub] Hsub. cbn [snd] in *. split; [|exact Hsub].
    intros e He. exact (getitem_raises _ _ _ _ He).
Qed.

(** The result block of the data response of the example has lost the
    observations that the constructor took out of the document. *)
Lemma result_shares_removals :
  match @from_response Plain.libs
          (mkResponse bea_url
             (regional_document [observation "01000" "2020" "5";
                                 observation "02000" "2020" "6"])) with
  | Ok (DataResponse _ result _ bea_json _ _ _ _) =>
      result = JDict [("Dimensions", dimensions_block)]
      /\ fst (getitem_any_level bea_json "Results" false) = Ok result
  | _ => False
  end.
Proof. split; reflexivity. Qed.
